(** * Milvus proxy: request handlers of [internal/proxy/impl.go] and the
      proxy metrics of [internal/metrics/proxy_metrics.go]

    The handlers are embedded as programs over the calls they make on their
    collaborators (the atomic state code, the three scheduler queues, the
    tasks, the Prometheus vectors, the rate collector, the metadata cache,
    the channel manager, the rate limiter and the four coordinators).  A
    program is run against an environment that answers every call; the run
    yields the value returned to the gRPC layer and the ordered trace of the
    calls that were made. *)

From Stdlib Require Import ZArith String List Bool Lia.
From stdpp Require Import base list.
Import ListNotations.

Local Open Scope string_scope.
Local Open Scope Z_scope.

(** ** Wire types (package [commonpb], [milvuspb], [internalpb], [proxypb]) *)

(** [commonpb.ErrorCode]: the members the handlers name, and the rest. *)
Inductive ErrorCode :=
| ErrorCode_Success
| ErrorCode_UnexpectedError
| ErrorCode_Other (tag : Z).

(** [commonpb.StateCode]. *)
Inductive StateCode :=
| StateCode_Initializing
| StateCode_Healthy
| StateCode_Abnormal
| StateCode_StandBy.

(** [commonpb.MsgType]: the members the handlers name, and the rest. *)
Inductive MsgType :=
| MsgType_Undefined
| MsgType_DropCollection
| MsgType_Insert
| MsgType_Delete
| MsgType_Search
| MsgType_Retrieve
| MsgType_Other (tag : Z).

(** [internalpb.RateType] members used by the proxy, and the second kind of
    key of the rate collector, [metricsinfo.ReadResultThroughput]. *)
Inductive RateType :=
| RateType_DMLInsert
| RateType_DMLDelete
| RateType_DQLSearch
| RateType_DQLQuery.

Inductive RateKey :=
| RateType_String (rt : RateType)
| ReadResultThroughput.

Definition ErrorCode_eqb (a b : ErrorCode) : bool :=
  match a, b with
  | ErrorCode_Success, ErrorCode_Success => true
  | ErrorCode_UnexpectedError, ErrorCode_UnexpectedError => true
  | ErrorCode_Other x, ErrorCode_Other y => x =? y
  | _, _ => false
  end.

Definition StateCode_eqb (a b : StateCode) : bool :=
  match a, b with
  | StateCode_Initializing, StateCode_Initializing => true
  | StateCode_Healthy, StateCode_Healthy => true
  | StateCode_Abnormal, StateCode_Abnormal => true
  | StateCode_StandBy, StateCode_StandBy => true
  | _, _ => false
  end.

Definition MsgType_eqb (a b : MsgType) : bool :=
  match a, b with
  | MsgType_Undefined, MsgType_Undefined => true
  | MsgType_DropCollection, MsgType_DropCollection => true
  | MsgType_Insert, MsgType_Insert => true
  | MsgType_Delete, MsgType_Delete => true
  | MsgType_Search, MsgType_Search => true
  | MsgType_Retrieve, MsgType_Retrieve => true
  | MsgType_Other x, MsgType_Other y => x =? y
  | _, _ => false
  end.

(** A Go [error] value; [Error] is its message.  A nil error is [None]. *)
Record error := errors_New { Error : string }.

(** [commonpb.Status].  Every [*commonpb.Status] is an [option]. *)
Record commonpb_Status := mkStatus {
  ErrorCode_of : ErrorCode;
  Reason : string
}.

(** [commonpb.MsgBase]. *)
Record MsgBase := mkMsgBase {
  Base_MsgType : MsgType;
  Base_MsgID : Z;
  Base_Timestamp : Z;
  Base_SourceID : Z
}.

(** [GetBase().GetMsgType()]: the generated getters accept nil receivers. *)
Definition GetMsgType (base : option MsgBase) : MsgType :=
  match base with
  | Some b => Base_MsgType b
  | None => MsgType_Undefined
  end.

(** A response message that carries a [Status] next to fields the handlers
    never read: [body] stands for those fields. *)
Record Response (B : Type) := mkResponse {
  Status : option commonpb_Status;
  body : B
}.
Arguments mkResponse {B} _ _.
Arguments Status {B} _.
Arguments body {B} _.

(** [milvuspb.MutationResult], with the fields [Insert] touches. *)
Record MutationResult (B : Type) := mkMutationResult {
  Mut_Status : option commonpb_Status;
  ErrIndex : list Z;
  InsertCnt : Z;
  Mut_rest : B
}.
Arguments mkMutationResult {B} _ _ _ _.
Arguments Mut_Status {B} _.
Arguments ErrIndex {B} _.
Arguments InsertCnt {B} _.
Arguments Mut_rest {B} _.

(** [milvuspb.QueryResults]. *)
Record QueryResults (F : Type) := mkQueryResults {
  Qry_Status : option commonpb_Status;
  FieldsData : list F;
  Qry_CollectionName : string
}.
Arguments mkQueryResults {F} _ _ _.
Arguments Qry_Status {F} _.
Arguments FieldsData {F} _.
Arguments Qry_CollectionName {F} _.

(** [milvuspb.SearchResults]; [Results] is a [*schemapb.SearchResultData] of
    which the handler reads [NumQueries]. *)
Record SearchResultData (B : Type) := mkSearchResultData {
  NumQueries : Z;
  Srd_rest : B
}.
Arguments mkSearchResultData {B} _ _.
Arguments NumQueries {B} _.
Arguments Srd_rest {B} _.

Record SearchResults (B : Type) := mkSearchResults {
  Srch_Status : option commonpb_Status;
  Results : option (SearchResultData B);
  Srch_CollectionName : string
}.
Arguments mkSearchResults {B} _ _ _.
Arguments Srch_Status {B} _.
Arguments Results {B} _.
Arguments Srch_CollectionName {B} _.

(** [milvuspb.CheckHealthResponse]. *)
Record CheckHealthResponse := mkCheckHealthResponse {
  IsHealthy : bool;
  Reasons : list string
}.

(** [milvuspb.InsertRequest]; [NumRows] is a [uint32]. *)
Record InsertRequest (F : Type) := mkInsertRequest {
  Ins_DbName : string;
  Ins_CollectionName : string;
  Ins_PartitionName : string;
  Ins_FieldsData : list F;
  Ins_HashKeys : list Z;
  Ins_NumRows : Z
}.
Arguments mkInsertRequest {F} _ _ _ _ _ _.
Arguments Ins_DbName {F} _.
Arguments Ins_CollectionName {F} _.
Arguments Ins_PartitionName {F} _.
Arguments Ins_FieldsData {F} _.
Arguments Ins_HashKeys {F} _.
Arguments Ins_NumRows {F} _.

(** [milvuspb.DeleteRequest]. *)
Record DeleteRequest := mkDeleteRequest {
  Del_DbName : string;
  Del_CollectionName : string;
  Del_PartitionName : string;
  Del_Expr : string;
  Del_HashKeys : list Z
}.

(** [milvuspb.SearchRequest]: [Nq] is what [GetNq] reads; the handler only
    logs the other fields. *)
Record SearchRequest (M : Type) := mkSearchRequest {
  Srch_DbName : string;
  Srch_ReqCollectionName : string;
  Nq : Z;
  TravelTimestamp : Z;
  GuaranteeTimestamp : Z;
  Srch_req_rest : M
}.
Arguments mkSearchRequest {M} _ _ _ _ _ _.
Arguments Srch_DbName {M} _.
Arguments Srch_ReqCollectionName {M} _.
Arguments Nq {M} _.
Arguments TravelTimestamp {M} _.
Arguments GuaranteeTimestamp {M} _.
Arguments Srch_req_rest {M} _.

(** [milvuspb.QueryRequest]. *)
Record QueryRequest := mkQueryRequest {
  Qry_DbName : string;
  Qry_ReqCollectionName : string;
  Qry_PartitionNames : list string;
  Qry_Expr : string;
  Qry_OutputFields : list string
}.

(** [milvuspb.VectorIDs], the argument of the closure of [CalcDistance]. *)
Record VectorIDs (M : Type) := mkVectorIDs {
  Vec_CollectionName : string;
  Vec_FieldName : string;
  Vec_PartitionNames : list string;
  IdArray : M
}.
Arguments mkVectorIDs {M} _ _ _ _.
Arguments Vec_CollectionName {M} _.
Arguments Vec_FieldName {M} _.
Arguments Vec_PartitionNames {M} _.
Arguments IdArray {M} _.

(** [proxypb.InvalidateCollMetaCacheRequest]. *)
Record InvalidateCollMetaCacheRequest := mkInvalidateCollMetaCacheRequest {
  Inv_Base : option MsgBase;
  Inv_DbName : string;
  Inv_CollectionName : string;
  Inv_CollectionID : Z
}.

(** [internalpb.InsertRequest] inside [BaseInsertTask], as [Insert] fills
    it. *)
Record BaseInsertTask (F : Type) := mkBaseInsertTask {
  HashValues : list Z;
  It_Base : MsgBase;
  It_CollectionName : string;
  PartitionName : string;
  It_FieldsData : list F;
  NumRows : Z
}.
Arguments mkBaseInsertTask {F} _ _ _ _ _ _.
Arguments HashValues {F} _.
Arguments It_Base {F} _.
Arguments It_CollectionName {F} _.
Arguments PartitionName {F} _.
Arguments It_FieldsData {F} _.
Arguments NumRows {F} _.

(** [internalpb.DeleteRequest] inside [BaseDeleteTask], with [deleteExpr]. *)
Record BaseDeleteTask := mkBaseDeleteTask {
  deleteExpr : string;
  Dt_HashValues : list Z;
  Dt_Base : MsgBase;
  Dt_DbName : string;
  Dt_CollectionName : string;
  Dt_PartitionName : string
}.

(** ** Metrics (package [metrics]) *)

(** The label values the proxy passes to [WithLabelValues]:
    [strconv.FormatInt(nodeID, 10)], a method name, the status and kind
    constants of the package, and a collection name. *)
Inductive LabelValue :=
| FormatInt (nodeID : Z)
| method_ (name : string)
| TotalLabel | SuccessLabel | FailLabel | AbandonLabel
| InsertLabel | DeleteLabel | SearchLabel | QueryLabel
| collection_ (name : string).

(** The label names of the vectors that [CleanupCollectionMetrics] edits. *)
Inductive LabelName :=
| nodeIDLabelName
| queryTypeLabelName
| msgTypeLabelName
| collectionName.

Inductive CounterVec :=
| ProxySearchVectors
| ProxyInsertVectors
| ProxyFunctionCall
| ProxyReceiveBytes
| ProxyReadReqSendBytes.

Inductive HistogramVec :=
| ProxySQLatency
| ProxyCollectionSQLatency
| ProxyMutationLatency
| ProxyCollectionMutationLatency
| ProxyWaitForSearchResultLatency
| ProxyReqLatency.

(** [Params.ProxyCfg.GetNodeID()] and [Params.CommonCfg.DefaultPartitionName]. *)
Record ParamTable := mkParams {
  GetNodeID : Z;
  DefaultPartitionName : string
}.

(** The three queues of [node.sched]. *)
Inductive Queue := ddQueue | dmQueue | dqQueue.

(** The four coordinators that [CheckHealth] asks. *)
Inductive Coord := rootCoord | queryCoord | dataCoord | indexCoord.

Definition role (c : Coord) : string :=
  match c with
  | rootCoord => "rootcoord"
  | queryCoord => "querycoord"
  | dataCoord => "datacoord"
  | indexCoord => "indexcoord"
  end.

(** [proto.Size]: every request and result is a [proto.Message]. *)
Class ProtoMessage (A : Type) := proto_Size : A -> Z.

(** The outcome of a Go call: it returns, or the goroutine panics. *)
Inductive Outcome (A : Type) :=
| Returned (a : A)
| Panicked.
Arguments Returned {A} _.
Arguments Panicked {A}.

Section Proxy.

(** [Opaque] stands for message content that the proxy hands on without
    reading it (request payloads, field data, the unread fields of a
    response); [zero] is its Go zero value. *)
Context {Opaque : Type} (zero : Opaque).

(** ** Tasks (types declared in the [task*.go] files of the package)

    A task is indexed by the type of the message in its [result] slot. *)
Inductive Task : Type -> Type :=
| createCollectionTask (request : Opaque) : Task commonpb_Status
| dropCollectionTask (request : Opaque) : Task commonpb_Status
| hasCollectionTask (request : Opaque) : Task (Response bool)
| loadCollectionTask (request : Opaque) : Task commonpb_Status
| releaseCollectionTask (request : Opaque) : Task commonpb_Status
| describeCollectionTask (request : Opaque) : Task (Response Opaque)
| getStatisticsTask (request : Opaque) : Task (Response Opaque)
| getCollectionStatisticsTask (request : Opaque) : Task (Response Opaque)
| showCollectionsTask (request : Opaque) : Task (Response Opaque)
| alterCollectionTask (request : Opaque) : Task commonpb_Status
| createPartitionTask (request : Opaque) : Task commonpb_Status
| dropPartitionTask (request : Opaque) : Task commonpb_Status
| hasPartitionTask (request : Opaque) : Task (Response bool)
| loadPartitionsTask (request : Opaque) : Task commonpb_Status
| releasePartitionsTask (request : Opaque) : Task commonpb_Status
| getPartitionStatisticsTask (request : Opaque) : Task (Response Opaque)
| showPartitionsTask (request : Opaque) : Task (Response Opaque)
| createIndexTask (request : Opaque) : Task commonpb_Status
| describeIndexTask (request : Opaque) : Task (Response Opaque)
| dropIndexTask (request : Opaque) : Task commonpb_Status
| getIndexBuildProgressTask (request : Opaque) : Task (Response Opaque)
| getIndexStateTask (request : Opaque) : Task (Response Opaque)
| insertTask (it : BaseInsertTask Opaque) : Task (MutationResult Opaque)
| deleteTask (dt : BaseDeleteTask) : Task (MutationResult Opaque)
| searchTask (base : MsgBase) (ReqID : Z) (request : SearchRequest Opaque)
    : Task (SearchResults Opaque)
| flushTask (request : Opaque) : Task (Response Opaque)
| queryTask (base : MsgBase) (ReqID : Z) (request : QueryRequest)
    (ids : option Opaque) : Task (QueryResults Opaque)
| CreateAliasTask (request : Opaque) : Task commonpb_Status
| DropAliasTask (request : Opaque) : Task commonpb_Status
| AlterAliasTask (request : Opaque) : Task commonpb_Status.

(** ** Calls on collaborators

    [Call X] is a call whose answer has type [X].  The scheduler, the
    tasks, the metadata cache, the channel manager, the rate limiter and the
    coordinators live in other files: the handlers only see the answers. *)
Inductive Call : Type -> Type :=
(* node.stateCode.Load(); None when no StateCode was stored *)
| stateCode_Load : Call (option StateCode)
(* node.session.ServerID; None when node.session is nil *)
| session_ServerID : Call (option Z)
(* node.sched.<q>.Enqueue(t) *)
| Enqueue {R : Type} (q : Queue) (t : Task R) : Call (option error)
(* t.WaitToFinish() *)
| WaitToFinish {R : Type} (t : Task R) : Call (option error)
(* reading t.result *)
| result {R : Type} (t : Task R) : Call (option R)
(* tr.ElapseSpan().Milliseconds(), span.Milliseconds() *)
| Milliseconds : Call Z
(* <counter>.WithLabelValues(labels...).Add(float64(v)); Inc is Add 1 *)
| Counter_Add (c : CounterVec) (labels : list LabelValue) (v : Z) : Call unit
(* <histogram>.WithLabelValues(labels...).Observe(float64(v)) *)
| Observe (h : HistogramVec) (labels : list LabelValue) (v : Z) : Call unit
(* <histogram>.Delete(prometheus.Labels{...}) *)
| Delete_labels (h : HistogramVec) (labels : list (LabelName * LabelValue))
    : Call bool
(* rateCol.Add(key, float64(v)) *)
| rateCol_Add (key : RateKey) (v : Z) : Call unit
(* globalMetaCache != nil *)
| globalMetaCache_present : Call bool
| RemoveCollection (collectionName : string) : Call unit
| RemoveCollectionsByID (collectionID : Z) : Call unit
(* node.chMgr.removeDMLStream(collectionID); its error is dropped *)
| removeDMLStream (collectionID : Z) : Call (option error)
(* node.multiRateLimiter.globalRateLimiter.setRates(rates) *)
| setRates (rates : list Opaque) : Call (option error)
(* node.<coord>.CheckHealth(ctx, request) *)
| Coord_CheckHealth (c : Coord) (request : Opaque)
    : Call (option CheckHealthResponse * option error).

(** A handler body: it returns, panics, or makes a call and goes on with
    the answer. *)
Inductive Prog (A : Type) : Type :=
| Ret (a : A)
| Panic
| Do {X : Type} (c : Call X) (k : X -> Prog A).
Arguments Ret {A} _.
Arguments Panic {A}.
Arguments Do {A X} _ _.

Fixpoint bind {A B : Type} (p : Prog A) (f : A -> Prog B) : Prog B :=
  match p with
  | Ret a => f a
  | Panic => Panic
  | Do c k => Do c (fun x => bind (k x) f)
  end.

Definition call {X : Type} (c : Call X) : Prog X := Do c Ret.

(** One entry of a trace: a call and the answer it got. *)
Inductive Event : Type :=
| Ev {X : Type} (c : Call X) (x : X).

(** An environment answers the [n]-th call of a run; the answer may depend
    on the call and on its position [n], so that two calls of the same
    method need not agree. *)
Definition Env : Type := nat -> forall X : Type, Call X -> X.

(** [run_from env tr p] runs [p] after the trace [tr]. *)
Fixpoint run_from {A : Type} (env : Env) (tr : list Event) (p : Prog A)
  : Outcome A * list Event :=
  match p with
  | Ret a => (Returned a, tr)
  | Panic => (Panicked, tr)
  | Do c k =>
      let x := env (length tr) _ c in
      run_from env (tr ++ [Ev c x]) (k x)
  end.

Definition run {A : Type} (env : Env) (p : Prog A) : Outcome A * list Event :=
  run_from env [] p.


Declare Scope prog_scope.
Delimit Scope prog_scope with prog.
Notation "'let!' x ':=' p 'in' k" := (bind p (fun x => k))
  (at level 10, x name, p at level 100, k at level 200) : prog_scope.
(* Go's [if err := p; err != nil { a }], followed by [b]. *)
Notation "'if_err' err ':=' p 'then' a 'else' b" :=
  (bind p (fun o => match o with Some err => a | None => b end))
  (at level 10, err name, p at level 100, a at level 200, b at level 200)
  : prog_scope.
Notation "p ;; k" := (bind p (fun _ => k))
  (at level 100, k at level 200, right associativity) : prog_scope.
Local Open Scope prog_scope.

Variable Params : ParamTable.

Definition NID : LabelValue := FormatInt (GetNodeID Params).

(** [<counter>.WithLabelValues(labels...).Inc()]. *)
Definition Inc (c : CounterVec) (labels : list LabelValue) : Prog unit :=
  call (Counter_Add c labels 1).

(** ** [checkHealthy], [unhealthyStatus] *)

(** The type assertion [.(commonpb.StateCode)] panics when it fails. *)
Definition checkHealthy : Prog bool :=
  let! code := call stateCode_Load in
  match code with
  | Some code => Ret (StateCode_eqb code StateCode_Healthy)
  | None => Panic
  end.

Definition unhealthyStatus : commonpb_Status :=
  mkStatus ErrorCode_UnexpectedError "proxy not healthy".

(** The status built from an error in the enqueue and wait branches. *)
Definition failStatus (err : error) : commonpb_Status :=
  mkStatus ErrorCode_UnexpectedError (Error err).

(** The tail shared by the DDL handlers once the task is done: the success
    counter, the request latency, and [return t.result, nil]. *)
Definition done_ {R : Type} (method : string) (t : Task R)
  : Prog (option R * option error) :=
  Inc ProxyFunctionCall [NID; method_ method; SuccessLabel] ;;
  let! ms := call Milliseconds in
  call (Observe ProxyReqLatency [NID; method_ method] ms) ;;
  let! r := call (result t) in
  Ret (r, None).


(** ** The DDL handlers

    Logging, tracing spans and the construction of the time recorder are
    left out: they make no call that the handlers' results depend on.  Each
    handler returns a pointer to its response and a Go error. *)

Definition CreateCollection (request : Opaque)
  : Prog (option commonpb_Status * option error) :=
  let! healthy := checkHealthy in
  if negb healthy then Ret (Some unhealthyStatus, None) else
  let method := "CreateCollection" in
  Inc ProxyFunctionCall [NID; method_ method; TotalLabel] ;;
  let cct := createCollectionTask request in
  if_err err := call (Enqueue ddQueue cct) then
    (Inc ProxyFunctionCall [NID; method_ method; AbandonLabel] ;;
     Ret (Some (failStatus err), None))
  else if_err err := call (WaitToFinish cct) then
    (Inc ProxyFunctionCall [NID; method_ method; FailLabel] ;;
     Ret (Some (failStatus err), None))
  else done_ method cct.

Definition DropCollection (request : Opaque)
  : Prog (option commonpb_Status * option error) :=
  let! healthy := checkHealthy in
  if negb healthy then Ret (Some unhealthyStatus, None) else
  let method := "DropCollection" in
  Inc ProxyFunctionCall [NID; method_ method; TotalLabel] ;;
  let dct := dropCollectionTask request in
  if_err err := call (Enqueue ddQueue dct) then
    (Inc ProxyFunctionCall [NID; method_ method; AbandonLabel] ;;
     Ret (Some (failStatus err), None))
  else if_err err := call (WaitToFinish dct) then
    (Inc ProxyFunctionCall [NID; method_ method; FailLabel] ;;
     Ret (Some (failStatus err), None))
  else done_ method dct.

Definition HasCollection (request : Opaque)
  : Prog (option (Response bool) * option error) :=
  let! healthy := checkHealthy in
  if negb healthy then Ret (Some (mkResponse (Some unhealthyStatus) false), None) else
  let method := "HasCollection" in
  Inc ProxyFunctionCall [NID; method_ method; TotalLabel] ;;
  let hct := hasCollectionTask request in
  if_err err := call (Enqueue ddQueue hct) then
    (Inc ProxyFunctionCall [NID; method_ method; AbandonLabel] ;;
     Ret (Some (mkResponse (Some (failStatus err)) false), None))
  else if_err err := call (WaitToFinish hct) then
    (Inc ProxyFunctionCall [NID; method_ method; FailLabel] ;;
     Ret (Some (mkResponse (Some (failStatus err)) false), None))
  else done_ method hct.


Definition LoadCollection (request : Opaque)
  : Prog (option commonpb_Status * option error) :=
  let! healthy := checkHealthy in
  if negb healthy then Ret (Some unhealthyStatus, None) else
  let method := "LoadCollection" in
  Inc ProxyFunctionCall [NID; method_ method; TotalLabel] ;;
  let lct := loadCollectionTask request in
  if_err err := call (Enqueue ddQueue lct) then
    (Inc ProxyFunctionCall [NID; method_ method; AbandonLabel] ;;
     Ret (Some (failStatus err), None))
  else if_err err := call (WaitToFinish lct) then
    (Inc ProxyFunctionCall [NID; method_ method; FailLabel] ;;
     Ret (Some (failStatus err), None))
  else done_ method lct.

Definition ReleaseCollection (request : Opaque)
  : Prog (option commonpb_Status * option error) :=
  let! healthy := checkHealthy in
  if negb healthy then Ret (Some unhealthyStatus, None) else
  let method := "ReleaseCollection" in
  Inc ProxyFunctionCall [NID; method_ method; TotalLabel] ;;
  let rct := releaseCollectionTask request in
  if_err err := call (Enqueue ddQueue rct) then
    (Inc ProxyFunctionCall [NID; method_ method; AbandonLabel] ;;
     Ret (Some (failStatus err), None))
  else if_err err := call (WaitToFinish rct) then
    (Inc ProxyFunctionCall [NID; method_ method; FailLabel] ;;
     Ret (Some (failStatus err), None))
  else done_ method rct.

Definition DescribeCollection (request : Opaque)
  : Prog (option (Response Opaque) * option error) :=
  let! healthy := checkHealthy in
  if negb healthy then Ret (Some (mkResponse (Some unhealthyStatus) zero), None) else
  let method := "DescribeCollection" in
  Inc ProxyFunctionCall [NID; method_ method; TotalLabel] ;;
  let dct := describeCollectionTask request in
  if_err err := call (Enqueue ddQueue dct) then
    (Inc ProxyFunctionCall [NID; method_ method; AbandonLabel] ;;
     Ret (Some (mkResponse (Some (failStatus err)) zero), None))
  else if_err err := call (WaitToFinish dct) then
    (Inc ProxyFunctionCall [NID; method_ method; FailLabel] ;;
     Ret (Some (mkResponse (Some (failStatus err)) zero), None))
  else done_ method dct.

Definition GetStatistics (request : Opaque)
  : Prog (option (Response Opaque) * option error) :=
  let! healthy := checkHealthy in
  if negb healthy then Ret (Some (mkResponse (Some unhealthyStatus) zero), None) else
  let method := "GetStatistics" in
  Inc ProxyFunctionCall [NID; method_ method; TotalLabel] ;;
  let g := getStatisticsTask request in
  if_err err := call (Enqueue ddQueue g) then
    (Inc ProxyFunctionCall [NID; method_ method; AbandonLabel] ;;
     Ret (Some (mkResponse (Some (failStatus err)) zero), None))
  else if_err err := call (WaitToFinish g) then
    (Inc ProxyFunctionCall [NID; method_ method; FailLabel] ;;
     Ret (Some (mkResponse (Some (failStatus err)) zero), None))
  else done_ method g.

Definition GetCollectionStatistics (request : Opaque)
  : Prog (option (Response Opaque) * option error) :=
  let! healthy := checkHealthy in
  if negb healthy then Ret (Some (mkResponse (Some unhealthyStatus) zero), None) else
  let method := "GetCollectionStatistics" in
  Inc ProxyFunctionCall [NID; method_ method; TotalLabel] ;;
  let g := getCollectionStatisticsTask request in
  if_err err := call (Enqueue ddQueue g) then
    (Inc ProxyFunctionCall [NID; method_ method; AbandonLabel] ;;
     Ret (Some (mkResponse (Some (failStatus err)) zero), None))
  else if_err err := call (WaitToFinish g) then
    (Inc ProxyFunctionCall [NID; method_ method; FailLabel] ;;
     Ret (Some (mkResponse (Some (failStatus err)) zero), None))
  else done_ method g.

Definition ShowCollections (request : Opaque)
  : Prog (option (Response Opaque) * option error) :=
  let! healthy := checkHealthy in
  if negb healthy then Ret (Some (mkResponse (Some unhealthyStatus) zero), None) else
  let method := "ShowCollections" in
  Inc ProxyFunctionCall [NID; method_ method; TotalLabel] ;;
  let sct := showCollectionsTask request in
  if_err err := call (Enqueue ddQueue sct) then
    (Inc ProxyFunctionCall [NID; method_ method; AbandonLabel] ;;
     Ret (Some (mkResponse (Some (failStatus err)) zero), None))
  else if_err err := call (WaitToFinish sct) then
    (Inc ProxyFunctionCall [NID; method_ method; FailLabel] ;;
     Ret (Some (mkResponse (Some (failStatus err)) zero), None))
  else
  (* the log of the success branch reads [len(sct.result.CollectionNames)] *)
  let! r := call (result sct) in
  match r with
  | None => Panic
  | Some _ => done_ method sct
  end.

Definition AlterCollection (request : Opaque)
  : Prog (option commonpb_Status * option error) :=
  let! healthy := checkHealthy in
  if negb healthy then Ret (Some unhealthyStatus, None) else
  let method := "AlterCollection" in
  Inc ProxyFunctionCall [NID; method_ method; TotalLabel] ;;
  let act := alterCollectionTask request in
  if_err err := call (Enqueue ddQueue act) then
    (Inc ProxyFunctionCall [NID; method_ method; AbandonLabel] ;;
     Ret (Some (failStatus err), None))
  else if_err err := call (WaitToFinish act) then
    (Inc ProxyFunctionCall [NID; method_ method; FailLabel] ;;
     Ret (Some (failStatus err), None))
  else done_ method act.

Definition CreatePartition (request : Opaque)
  : Prog (option commonpb_Status * option error) :=
  let! healthy := checkHealthy in
  if negb healthy then Ret (Some unhealthyStatus, None) else
  let method := "CreatePartition" in
  Inc ProxyFunctionCall [NID; method_ method; TotalLabel] ;;
  let cpt := createPartitionTask request in
  if_err err := call (Enqueue ddQueue cpt) then
    (Inc ProxyFunctionCall [NID; method_ method; AbandonLabel] ;;
     Ret (Some (failStatus err), None))
  else if_err err := call (WaitToFinish cpt) then
    (Inc ProxyFunctionCall [NID; method_ method; FailLabel] ;;
     Ret (Some (failStatus err), None))
  else done_ method cpt.

Definition DropPartition (request : Opaque)
  : Prog (option commonpb_Status * option error) :=
  let! healthy := checkHealthy in
  if negb healthy then Ret (Some unhealthyStatus, None) else
  let method := "DropPartition" in
  Inc ProxyFunctionCall [NID; method_ method; TotalLabel] ;;
  let dpt := dropPartitionTask request in
  if_err err := call (Enqueue ddQueue dpt) then
    (Inc ProxyFunctionCall [NID; method_ method; AbandonLabel] ;;
     Ret (Some (failStatus err), None))
  else if_err err := call (WaitToFinish dpt) then
    (Inc ProxyFunctionCall [NID; method_ method; FailLabel] ;;
     Ret (Some (failStatus err), None))
  else done_ method dpt.

Definition HasPartition (request : Opaque)
  : Prog (option (Response bool) * option error) :=
  let! healthy := checkHealthy in
  if negb healthy then Ret (Some (mkResponse (Some unhealthyStatus) false), None) else
  let method := "HasPartition" in
  Inc ProxyFunctionCall [NID; method_ method; TotalLabel] ;;
  let hpt := hasPartitionTask request in
  if_err err := call (Enqueue ddQueue hpt) then
    (Inc ProxyFunctionCall [NID; method_ method; AbandonLabel] ;;
     Ret (Some (mkResponse (Some (failStatus err)) false), None))
  else if_err err := call (WaitToFinish hpt) then
    (Inc ProxyFunctionCall [NID; method_ method; FailLabel] ;;
     Ret (Some (mkResponse (Some (failStatus err)) false), None))
  else done_ method hpt.

Definition LoadPartitions (request : Opaque)
  : Prog (option commonpb_Status * option error) :=
  let! healthy := checkHealthy in
  if negb healthy then Ret (Some unhealthyStatus, None) else
  let method := "LoadPartitions" in
  Inc ProxyFunctionCall [NID; method_ method; TotalLabel] ;;
  let lpt := loadPartitionsTask request in
  if_err err := call (Enqueue ddQueue lpt) then
    (Inc ProxyFunctionCall [NID; method_ method; AbandonLabel] ;;
     Ret (Some (failStatus err), None))
  else if_err err := call (WaitToFinish lpt) then
    (Inc ProxyFunctionCall [NID; method_ method; FailLabel] ;;
     Ret (Some (failStatus err), None))
  else done_ method lpt.

Definition ReleasePartitions (request : Opaque)
  : Prog (option commonpb_Status * option error) :=
  let! healthy := checkHealthy in
  if negb healthy then Ret (Some unhealthyStatus, None) else
  let method := "ReleasePartitions" in
  Inc ProxyFunctionCall [NID; method_ method; TotalLabel] ;;
  let rpt := releasePartitionsTask request in
  if_err err := call (Enqueue ddQueue rpt) then
    (Inc ProxyFunctionCall [NID; method_ method; AbandonLabel] ;;
     Ret (Some (failStatus err), None))
  else if_err err := call (WaitToFinish rpt) then
    (Inc ProxyFunctionCall [NID; method_ method; FailLabel] ;;
     Ret (Some (failStatus err), None))
  else done_ method rpt.

Definition GetPartitionStatistics (request : Opaque)
  : Prog (option (Response Opaque) * option error) :=
  let! healthy := checkHealthy in
  if negb healthy then Ret (Some (mkResponse (Some unhealthyStatus) zero), None) else
  let method := "GetPartitionStatistics" in
  Inc ProxyFunctionCall [NID; method_ method; TotalLabel] ;;
  let g := getPartitionStatisticsTask request in
  if_err err := call (Enqueue ddQueue g) then
    (Inc ProxyFunctionCall [NID; method_ method; AbandonLabel] ;;
     Ret (Some (mkResponse (Some (failStatus err)) zero), None))
  else if_err err := call (WaitToFinish g) then
    (Inc ProxyFunctionCall [NID; method_ method; FailLabel] ;;
     Ret (Some (mkResponse (Some (failStatus err)) zero), None))
  else done_ method g.

Definition ShowPartitions (request : Opaque)
  : Prog (option (Response Opaque) * option error) :=
  let! healthy := checkHealthy in
  if negb healthy then Ret (Some (mkResponse (Some unhealthyStatus) zero), None) else
  let method := "ShowPartitions" in
  Inc ProxyFunctionCall [NID; method_ method; TotalLabel] ;;
  let spt := showPartitionsTask request in
  if_err err := call (Enqueue ddQueue spt) then
    (Inc ProxyFunctionCall [NID; method_ method; AbandonLabel] ;;
     Ret (Some (mkResponse (Some (failStatus err)) zero), None))
  else if_err err := call (WaitToFinish spt) then
    (Inc ProxyFunctionCall [NID; method_ method; FailLabel] ;;
     Ret (Some (mkResponse (Some (failStatus err)) zero), None))
  else done_ method spt.

Definition CreateIndex (request : Opaque)
  : Prog (option commonpb_Status * option error) :=
  let! healthy := checkHealthy in
  if negb healthy then Ret (Some unhealthyStatus, None) else
  let method := "CreateIndex" in
  Inc ProxyFunctionCall [NID; method_ method; TotalLabel] ;;
  let cit := createIndexTask request in
  if_err err := call (Enqueue ddQueue cit) then
    (Inc ProxyFunctionCall [NID; method_ method; AbandonLabel] ;;
     Ret (Some (failStatus err), None))
  else if_err err := call (WaitToFinish cit) then
    (Inc ProxyFunctionCall [NID; method_ method; FailLabel] ;;
     Ret (Some (failStatus err), None))
  else done_ method cit.

(** [Status.GetErrorCode()] accepts a nil receiver. *)
Definition GetErrorCode (s : option commonpb_Status) : ErrorCode :=
  match s with
  | Some s => ErrorCode_of s
  | None => ErrorCode_Success
  end.

(** In the wait branch [DescribeIndex] takes the error code from the task's
    result when there is one. *)
Definition DescribeIndex (request : Opaque)
  : Prog (option (Response Opaque) * option error) :=
  let! healthy := checkHealthy in
  if negb healthy then Ret (Some (mkResponse (Some unhealthyStatus) zero), None) else
  let method := "DescribeIndex" in
  Inc ProxyFunctionCall [NID; method_ method; TotalLabel] ;;
  let dit := describeIndexTask request in
  if_err err := call (Enqueue ddQueue dit) then
    (Inc ProxyFunctionCall [NID; method_ method; AbandonLabel] ;;
     Ret (Some (mkResponse (Some (failStatus err)) zero), None))
  else if_err err := call (WaitToFinish dit) then
    (let! r := call (result dit) in
     let errCode :=
       match r with
       | Some r => GetErrorCode (Status r)
       | None => ErrorCode_UnexpectedError
       end in
     Inc ProxyFunctionCall [NID; method_ method; FailLabel] ;;
     Ret (Some (mkResponse (Some (mkStatus errCode (Error err))) zero), None))
  else done_ method dit.

Definition DropIndex (request : Opaque)
  : Prog (option commonpb_Status * option error) :=
  let! healthy := checkHealthy in
  if negb healthy then Ret (Some unhealthyStatus, None) else
  let method := "DropIndex" in
  Inc ProxyFunctionCall [NID; method_ method; TotalLabel] ;;
  let dit := dropIndexTask request in
  if_err err := call (Enqueue ddQueue dit) then
    (Inc ProxyFunctionCall [NID; method_ method; AbandonLabel] ;;
     Ret (Some (failStatus err), None))
  else if_err err := call (WaitToFinish dit) then
    (Inc ProxyFunctionCall [NID; method_ method; FailLabel] ;;
     Ret (Some (failStatus err), None))
  else done_ method dit.

Definition GetIndexBuildProgress (request : Opaque)
  : Prog (option (Response Opaque) * option error) :=
  let! healthy := checkHealthy in
  if negb healthy then Ret (Some (mkResponse (Some unhealthyStatus) zero), None) else
  let method := "GetIndexBuildProgress" in
  Inc ProxyFunctionCall [NID; method_ method; TotalLabel] ;;
  let gibpt := getIndexBuildProgressTask request in
  if_err err := call (Enqueue ddQueue gibpt) then
    (Inc ProxyFunctionCall [NID; method_ method; AbandonLabel] ;;
     Ret (Some (mkResponse (Some (failStatus err)) zero), None))
  else if_err err := call (WaitToFinish gibpt) then
    (Inc ProxyFunctionCall [NID; method_ method; FailLabel] ;;
     Ret (Some (mkResponse (Some (failStatus err)) zero), None))
  else done_ method gibpt.

Definition GetIndexState (request : Opaque)
  : Prog (option (Response Opaque) * option error) :=
  let! healthy := checkHealthy in
  if negb healthy then Ret (Some (mkResponse (Some unhealthyStatus) zero), None) else
  let method := "GetIndexState" in
  Inc ProxyFunctionCall [NID; method_ method; TotalLabel] ;;
  let dipt := getIndexStateTask request in
  if_err err := call (Enqueue ddQueue dipt) then
    (Inc ProxyFunctionCall [NID; method_ method; AbandonLabel] ;;
     Ret (Some (mkResponse (Some (failStatus err)) zero), None))
  else if_err err := call (WaitToFinish dipt) then
    (Inc ProxyFunctionCall [NID; method_ method; FailLabel] ;;
     Ret (Some (mkResponse (Some (failStatus err)) zero), None))
  else done_ method dipt.

(** [Flush] builds its response first and edits its status in place; its
    unhealthy branch writes its own reason. *)
Definition Flush (request : Opaque)
  : Prog (option (Response Opaque) * option error) :=
  let resp := mkStatus ErrorCode_UnexpectedError "" in
  let! healthy := checkHealthy in
  if negb healthy then
    Ret (Some (mkResponse (Some (mkStatus (ErrorCode_of resp) "proxy is not healthy")) zero), None)
  else
  let ft := flushTask request in
  let method := "Flush" in
  Inc ProxyFunctionCall [NID; method_ method; TotalLabel] ;;
  if_err err := call (Enqueue ddQueue ft) then
    (Inc ProxyFunctionCall [NID; method_ method; AbandonLabel] ;;
     Ret (Some (mkResponse (Some (mkStatus (ErrorCode_of resp) (Error err))) zero), None))
  else if_err err := call (WaitToFinish ft) then
    (Inc ProxyFunctionCall [NID; method_ method; FailLabel] ;;
     Ret (Some (mkResponse (Some (mkStatus ErrorCode_UnexpectedError (Error err))) zero), None))
  else done_ method ft.

Definition CreateAlias (request : Opaque)
  : Prog (option commonpb_Status * option error) :=
  let! healthy := checkHealthy in
  if negb healthy then Ret (Some unhealthyStatus, None) else
  let method := "CreateAlias" in
  Inc ProxyFunctionCall [NID; method_ method; TotalLabel] ;;
  let cat := CreateAliasTask request in
  if_err err := call (Enqueue ddQueue cat) then
    (Inc ProxyFunctionCall [NID; method_ method; AbandonLabel] ;;
     Ret (Some (failStatus err), None))
  else if_err err := call (WaitToFinish cat) then
    (Inc ProxyFunctionCall [NID; method_ method; FailLabel] ;;
     Ret (Some (failStatus err), None))
  else done_ method cat.

Definition DropAlias (request : Opaque)
  : Prog (option commonpb_Status * option error) :=
  let! healthy := checkHealthy in
  if negb healthy then Ret (Some unhealthyStatus, None) else
  let method := "DropAlias" in
  Inc ProxyFunctionCall [NID; method_ method; TotalLabel] ;;
  let dat := DropAliasTask request in
  if_err err := call (Enqueue ddQueue dat) then
    (Inc ProxyFunctionCall [NID; method_ method; AbandonLabel] ;;
     Ret (Some (failStatus err), None))
  else if_err err := call (WaitToFinish dat) then
    (Inc ProxyFunctionCall [NID; method_ method; FailLabel] ;;
     Ret (Some (failStatus err), None))
  else done_ method dat.

Definition AlterAlias (request : Opaque)
  : Prog (option commonpb_Status * option error) :=
  let! healthy := checkHealthy in
  if negb healthy then Ret (Some unhealthyStatus, None) else
  let method := "AlterAlias" in
  Inc ProxyFunctionCall [NID; method_ method; TotalLabel] ;;
  let aat := AlterAliasTask request in
  if_err err := call (Enqueue ddQueue aat) then
    (Inc ProxyFunctionCall [NID; method_ method; AbandonLabel] ;;
     Ret (Some (failStatus err), None))
  else if_err err := call (WaitToFinish aat) then
    (Inc ProxyFunctionCall [NID; method_ method; FailLabel] ;;
     Ret (Some (failStatus err), None))
  else done_ method aat.

(** ** [Insert]

    The two closures of [Insert] build the same slice:
    [errIndex := make([]uint32, numRows)] followed by
    [for i := uint32(0); i < numRows; i++ { errIndex[i] = i }].
    [fill] is the loop, one iteration per unit of fuel, with the [uint32]
    increment written out; [i] stays below [len(errIndex)], so the write is
    always in range. *)
Definition make_uint32 (numRows : Z) : list Z := repeat 0 (Z.to_nat numRows).

Fixpoint fill (fuel : nat) (i numRows : Z) (errIndex : list Z) : list Z :=
  match fuel with
  | O => errIndex
  | S fuel =>
      if i <? numRows
      then fill fuel ((i + 1) mod 2 ^ 32) numRows (<[Z.to_nat i := i]> errIndex)
      else errIndex
  end.

Definition all_rows (numRows : Z) : list Z :=
  fill (S (Z.to_nat numRows)) 0 numRows (make_uint32 numRows).

Context {Size_InsertRequest : ProtoMessage (InsertRequest Opaque)}.
Context {Size_DeleteRequest : ProtoMessage DeleteRequest}.
Context {Size_SearchRequest : ProtoMessage (SearchRequest Opaque)}.
Context {Size_QueryRequest : ProtoMessage QueryRequest}.
Context {Size_SearchResults : ProtoMessage (SearchResults Opaque)}.
Context {Size_QueryResults : ProtoMessage (QueryResults Opaque)}.

Definition constructFailedResponse (request : InsertRequest Opaque) (err : error)
  : MutationResult Opaque :=
  let numRows := Ins_NumRows request in
  let errIndex := all_rows numRows in
  mkMutationResult (Some (failStatus err)) errIndex 0 zero.

(** The task as [Insert] builds it, before the partition name is defaulted. *)
Definition newInsertTask (request : InsertRequest Opaque) : BaseInsertTask Opaque :=
  mkBaseInsertTask (Ins_HashKeys request)
    (mkMsgBase MsgType_Insert 0 0 (GetNodeID Params))
    (Ins_CollectionName request)
    (Ins_PartitionName request)
    (Ins_FieldsData request)
    (Ins_NumRows request).

(** [if len(it.PartitionName) <= 0 { it.PartitionName = ...DefaultPartitionName }] *)
Definition defaultPartition (it : BaseInsertTask Opaque) : BaseInsertTask Opaque :=
  if (Z.of_nat (String.length (PartitionName it)) <=? 0)
  then mkBaseInsertTask (HashValues it) (It_Base it) (It_CollectionName it)
         (DefaultPartitionName Params) (It_FieldsData it) (NumRows it)
  else it.

(** [it.result.Status.ErrorCode] dereferences both pointers. *)
Definition Insert (request : InsertRequest Opaque)
  : Prog (option (MutationResult Opaque) * option error) :=
  let! healthy := checkHealthy in
  if negb healthy then
    Ret (Some (mkMutationResult (Some unhealthyStatus) [] 0 zero), None)
  else
  let method := "Insert" in
  let receiveSize := proto_Size request in
  call (rateCol_Add (RateType_String RateType_DMLInsert) receiveSize) ;;
  call (Counter_Add ProxyReceiveBytes [NID; InsertLabel] receiveSize) ;;
  Inc ProxyFunctionCall [NID; method_ method; TotalLabel] ;;
  let it := insertTask (defaultPartition (newInsertTask request)) in
  if_err err := call (Enqueue dmQueue it) then
    (Inc ProxyFunctionCall [NID; method_ method; AbandonLabel] ;;
     Ret (Some (constructFailedResponse request err), None))
  else if_err err := call (WaitToFinish it) then
    (Inc ProxyFunctionCall [NID; method_ method; FailLabel] ;;
     Ret (Some (constructFailedResponse request err), None))
  else
  let! r := call (result it) in
  match r with
  | None => Panic
  | Some r =>
  match Mut_Status r with
  | None => Panic
  | Some st =>
  let r :=
    if negb (ErrorCode_eqb (ErrorCode_of st) ErrorCode_Success)
    then mkMutationResult (Mut_Status r) (all_rows (Ins_NumRows request))
           (InsertCnt r) (Mut_rest r)
    else r in
  (* InsertCnt always equals to the number of entities in the request *)
  let r := mkMutationResult (Mut_Status r) (ErrIndex r) (Ins_NumRows request)
             (Mut_rest r) in
  Inc ProxyFunctionCall [NID; method_ method; SuccessLabel] ;;
  let successCnt := InsertCnt r - Z.of_nat (length (ErrIndex r)) in
  call (Counter_Add ProxyInsertVectors [NID] successCnt) ;;
  let! ms := call Milliseconds in
  call (Observe ProxyMutationLatency [NID; InsertLabel] ms) ;;
  let! ms := call Milliseconds in
  call (Observe ProxyCollectionMutationLatency
          [NID; InsertLabel; collection_ (Ins_CollectionName request)] ms) ;;
  Ret (Some r, None)
  end end.

(** ** [Delete] *)
Definition Delete (request : DeleteRequest)
  : Prog (option (MutationResult Opaque) * option error) :=
  let receiveSize := proto_Size request in
  call (rateCol_Add (RateType_String RateType_DMLDelete) receiveSize) ;;
  call (Counter_Add ProxyReceiveBytes [NID; DeleteLabel] receiveSize) ;;
  let! healthy := checkHealthy in
  if negb healthy then
    Ret (Some (mkMutationResult (Some unhealthyStatus) [] 0 zero), None)
  else
  let method := "Delete" in
  Inc ProxyFunctionCall [NID; method_ method; TotalLabel] ;;
  let dt := deleteTask
    (mkBaseDeleteTask (Del_Expr request) (Del_HashKeys request)
       (mkMsgBase MsgType_Delete 0 0 0)
       (Del_DbName request) (Del_CollectionName request)
       (Del_PartitionName request)) in
  (* MsgID will be set by Enqueue() *)
  if_err err := call (Enqueue dmQueue dt) then
    (Inc ProxyFunctionCall [NID; method_ method; AbandonLabel] ;;
     Ret (Some (mkMutationResult (Some (failStatus err)) [] 0 zero), None))
  else if_err err := call (WaitToFinish dt) then
    (Inc ProxyFunctionCall [NID; method_ method; FailLabel] ;;
     Ret (Some (mkMutationResult (Some (failStatus err)) [] 0 zero), None))
  else
  Inc ProxyFunctionCall [NID; method_ method; SuccessLabel] ;;
  let! ms := call Milliseconds in
  call (Observe ProxyMutationLatency [NID; DeleteLabel] ms) ;;
  let! ms := call Milliseconds in
  call (Observe ProxyCollectionMutationLatency
          [NID; DeleteLabel; collection_ (Del_CollectionName request)] ms) ;;
  let! r := call (result dt) in
  Ret (r, None).

(** ** [Search]

    [qt.result] is read once, after the task is finished. *)

(** [qt.result.GetResults().GetNumQueries()]: getters accept nil receivers. *)
Definition GetNumQueries (r : option (SearchResults Opaque)) : Z :=
  match r with
  | Some r => match Results r with
              | Some d => NumQueries d
              | None => 0
              end
  | None => 0
  end.

(** The task as [Search] builds it. *)
Definition newSearchTask (request : SearchRequest Opaque)
  : Task (SearchResults Opaque) :=
  searchTask (mkMsgBase MsgType_Search 0 0 (GetNodeID Params))
    (GetNodeID Params) request.

Definition Search (request : SearchRequest Opaque)
  : Prog (option (SearchResults Opaque) * option error) :=
  let receiveSize := proto_Size request in
  call (Counter_Add ProxyReceiveBytes [NID; SearchLabel] receiveSize) ;;
  call (rateCol_Add (RateType_String RateType_DQLSearch) (Nq request)) ;;
  let! healthy := checkHealthy in
  if negb healthy then
    Ret (Some (mkSearchResults (Some unhealthyStatus) None ""), None)
  else
  let method := "Search" in
  Inc ProxyFunctionCall [NID; method_ method; TotalLabel] ;;
  let qt := newSearchTask request in
  if_err err := call (Enqueue dqQueue qt) then
    (Inc ProxyFunctionCall [NID; method_ method; AbandonLabel] ;;
     Ret (Some (mkSearchResults (Some (failStatus err)) None ""), None))
  else if_err err := call (WaitToFinish qt) then
    (Inc ProxyFunctionCall [NID; method_ method; FailLabel] ;;
     Ret (Some (mkSearchResults (Some (failStatus err)) None ""), None))
  else
  let! span := call Milliseconds in
  call (Observe ProxyWaitForSearchResultLatency [NID; SearchLabel] span) ;;
  Inc ProxyFunctionCall [NID; method_ method; SuccessLabel] ;;
  let! r := call (result qt) in
  call (Counter_Add ProxySearchVectors [NID] (GetNumQueries r)) ;;
  let! searchDur := call Milliseconds in
  call (Observe ProxySQLatency [NID; SearchLabel] searchDur) ;;
  call (Observe ProxyCollectionSQLatency
          [NID; SearchLabel; collection_ (Srch_ReqCollectionName request)]
          searchDur) ;;
  match r with
  | Some res =>
      let sentSize := proto_Size res in
      call (Counter_Add ProxyReadReqSendBytes [NID] sentSize) ;;
      call (rateCol_Add ReadResultThroughput sentSize) ;;
      Ret (r, None)
  | None => Ret (r, None)
  end.

(** ** [Query]

    The response is rebuilt from [qt.result], which must not be nil; the
    size that is accounted is the size of [qt.result]. *)
(** The task as [Query] builds it. *)
Definition newQueryTask (request : QueryRequest)
  : Task (QueryResults Opaque) :=
  queryTask (mkMsgBase MsgType_Retrieve 0 0 (GetNodeID Params))
    (GetNodeID Params) request None.

Definition Query (request : QueryRequest)
  : Prog (option (QueryResults Opaque) * option error) :=
  let receiveSize := proto_Size request in
  call (Counter_Add ProxyReceiveBytes [NID; QueryLabel] receiveSize) ;;
  call (rateCol_Add (RateType_String RateType_DQLQuery) 1) ;;
  let! healthy := checkHealthy in
  if negb healthy then
    Ret (Some (mkQueryResults (Some unhealthyStatus) [] ""), None)
  else
  let qt := newQueryTask request in
  let method := "Query" in
  Inc ProxyFunctionCall [NID; method_ method; TotalLabel] ;;
  if_err err := call (Enqueue dqQueue qt) then
    (Inc ProxyFunctionCall [NID; method_ method; AbandonLabel] ;;
     Ret (Some (mkQueryResults (Some (failStatus err)) [] ""), None))
  else if_err err := call (WaitToFinish qt) then
    (Inc ProxyFunctionCall [NID; method_ method; FailLabel] ;;
     Ret (Some (mkQueryResults (Some (failStatus err)) [] ""), None))
  else
  let! span := call Milliseconds in
  call (Observe ProxyWaitForSearchResultLatency [NID; QueryLabel] span) ;;
  Inc ProxyFunctionCall [NID; method_ method; SuccessLabel] ;;
  let! ms := call Milliseconds in
  call (Observe ProxySQLatency [NID; QueryLabel] ms) ;;
  let! ms := call Milliseconds in
  call (Observe ProxyCollectionSQLatency
          [NID; QueryLabel; collection_ (Qry_ReqCollectionName request)] ms) ;;
  let! r := call (result qt) in
  match r with
  | None => Panic
  | Some res =>
      let ret := mkQueryResults (Qry_Status res) (FieldsData res) "" in
      let sentSize := proto_Size res in
      call (rateCol_Add ReadResultThroughput sentSize) ;;
      call (Counter_Add ProxyReadReqSendBytes [NID] sentSize) ;;
      Ret (Some ret, None)
  end.

(** ** [CalcDistance]

    [calcDistanceTask] is not a standard task and is not enqueued; its
    [Execute] is declared in another file and is a parameter here.  The
    closure [query] it receives enqueues a [queryTask] and hands the error
    itself back to [Execute]. *)
Definition CalcDistance_query (ids : VectorIDs Opaque)
  : Prog (option (QueryResults Opaque) * option error) :=
  let outputFields := [Vec_FieldName ids] in
  let queryRequest :=
    mkQueryRequest "" (Vec_CollectionName ids) (Vec_PartitionNames ids) ""
      outputFields in
  let qt := queryTask (mkMsgBase MsgType_Retrieve 0 0 (GetNodeID Params))
              (GetNodeID Params) queryRequest (Some (IdArray ids)) in
  if_err err := call (Enqueue dqQueue qt) then
    Ret (Some (mkQueryResults (Some (failStatus err)) [] ""), Some err)
  else if_err err := call (WaitToFinish qt) then
    Ret (Some (mkQueryResults (Some (failStatus err)) [] ""), Some err)
  else
  let! r := call (result qt) in
  match r with
  | None => Panic
  | Some res => Ret (Some (mkQueryResults (Qry_Status res) (FieldsData res) ""), None)
  end.

Variable calcDistanceTask_Execute :
  (VectorIDs Opaque -> Prog (option (QueryResults Opaque) * option error)) ->
  Opaque -> Prog (option (Response Opaque) * option error).

Definition CalcDistance (request : Opaque)
  : Prog (option (Response Opaque) * option error) :=
  let! healthy := checkHealthy in
  if negb healthy then Ret (Some (mkResponse (Some unhealthyStatus) zero), None) else
  calcDistanceTask_Execute CalcDistance_query request.

(** ** [CleanupCollectionMetrics] (package [metrics]) *)
Definition CleanupCollectionMetrics (nodeID : Z) (collection : string)
  : Prog unit :=
  call (Delete_labels ProxyCollectionSQLatency
          [(nodeIDLabelName, FormatInt nodeID);
           (queryTypeLabelName, SearchLabel);
           (collectionName, collection_ collection)]) ;;
  call (Delete_labels ProxyCollectionSQLatency
          [(nodeIDLabelName, FormatInt nodeID);
           (queryTypeLabelName, QueryLabel);
           (collectionName, collection_ collection)]) ;;
  call (Delete_labels ProxyCollectionMutationLatency
          [(nodeIDLabelName, FormatInt nodeID);
           (msgTypeLabelName, InsertLabel);
           (collectionName, collection_ collection)]) ;;
  call (Delete_labels ProxyCollectionMutationLatency
          [(nodeIDLabelName, FormatInt nodeID);
           (msgTypeLabelName, DeleteLabel);
           (collectionName, collection_ collection)]) ;;
  Ret tt.

(** ** [InvalidateCollectionMetaCache] *)

(** Go's [if c { p }] around a call whose value is dropped. *)
Definition when {X : Type} (c : bool) (p : Prog X) : Prog unit :=
  if c then (p ;; Ret tt) else Ret tt.

Definition InvalidateCollectionMetaCache (request : InvalidateCollMetaCacheRequest)
  : Prog (option commonpb_Status * option error) :=
  let collectionName := Inv_CollectionName request in
  let collectionID := Inv_CollectionID request in
  let! present := call globalMetaCache_present in
  when present
    (when (negb (String.eqb collectionName ""))
       (call (RemoveCollection collectionName)) ;;
     when (negb (Inv_CollectionID request =? 0))
       (call (RemoveCollectionsByID collectionID))) ;;
  when (MsgType_eqb (GetMsgType (Inv_Base request)) MsgType_DropCollection)
    (call (removeDMLStream (Inv_CollectionID request)) ;;
     CleanupCollectionMetrics (GetNodeID Params) collectionName) ;;
  Ret (Some (mkStatus ErrorCode_Success ""), None).

(** ** [SetRates]

    [rates] is [request.GetRates()]. *)
Definition SetRates (rates : list Opaque)
  : Prog (option commonpb_Status * option error) :=
  let resp := mkStatus ErrorCode_UnexpectedError "" in
  let! healthy := checkHealthy in
  if negb healthy then
    let resp := unhealthyStatus in
    Ret (Some resp, None)
  else
  let! err := call (setRates rates) in
  match err with
  | Some err => Ret (Some (mkStatus (ErrorCode_of resp) (Error err)), None)
  | None => Ret (Some (mkStatus ErrorCode_Success (Reason resp)), None)
  end.

(** [err != nil]. *)
Definition not_nil {A : Type} (err : option A) : bool :=
  match err with
  | Some _ => true
  | None => false
  end.

(** ** [CheckHealth]

    [errorutil.UnHealthReason] is declared in another package. *)
Variable UnHealthReason : string -> Z -> string -> string.

(** The closure [fn], which runs under the mutex: it appends to
    [errReasons] and returns what the goroutine returns.  [resp.IsHealthy]
    dereferences [resp]. *)
Definition fn (role : string) (resp : option CheckHealthResponse)
    (err : option error) (errReasons : list string)
  : Prog (list string * option error) :=
  match err with
  | Some err =>
      Ret ((errReasons ++ [String.append "check health fail for " role])%list,
           Some err)
  | None =>
      match resp with
      | None => Panic
      | Some resp =>
          if negb (IsHealthy resp)
          then Ret ((errReasons ++ Reasons resp)%list, None)
          else Ret (errReasons, None)
      end
  end.

(** The four goroutines of the [errgroup].  Each asks its coordinator and
    then runs [fn]; the mutex makes the four runs of [fn] happen one after
    the other, in an order [order] that the Go scheduler picks.  The second
    component is what [group.Wait()] returns: the first non-nil error. *)
Fixpoint group_Go (order : list Coord) (request : Opaque)
    (errReasons : list string) (first : option error)
  : Prog (list string * option error) :=
  match order with
  | [] => Ret (errReasons, first)
  | c :: order =>
      let! answer := call (Coord_CheckHealth c request) in
      let! st := fn (role c) (fst answer) (snd answer) errReasons in
      group_Go order request (fst st)
        (match first with Some _ => first | None => snd st end)
  end.

Definition CheckHealth (order : list Coord) (request : Opaque)
  : Prog (option CheckHealthResponse * option error) :=
  let! healthy := checkHealthy in
  if negb healthy then
    let! id := call session_ServerID in
    match id with
    | None => Panic
    | Some id =>
        let reason := UnHealthReason "proxy" id "proxy is unhealthy" in
        Ret (Some (mkCheckHealthResponse false [reason]), None)
    end
  else
  let! st := group_Go order request [] None in
  let errReasons := fst st in
  let err := snd st in
  if not_nil err || negb (Z.of_nat (length errReasons) =? 0)
  then Ret (Some (mkCheckHealthResponse false errReasons), None)
  else Ret (Some (mkCheckHealthResponse true []), None).

(** An answer of a coordinator after which [fn] returns no error and
    leaves [errReasons] as it was. *)
Definition quiet (a : option CheckHealthResponse * option error) : Prop :=
  snd a = None
  /\ exists resp, fst a = Some resp
       /\ (IsHealthy resp = true \/ Reasons resp = []).

(** ** The task-based handlers as one family

    The thirty handlers that put a task of their own into a queue of the
    scheduler.  ([CalcDistance] enqueues nothing itself.) *)
Inductive Handler :=
| hCreateCollection | hDropCollection | hHasCollection | hLoadCollection
| hReleaseCollection | hDescribeCollection | hGetStatistics
| hGetCollectionStatistics | hShowCollections | hAlterCollection
| hCreatePartition | hDropPartition | hHasPartition | hLoadPartitions
| hReleasePartitions | hGetPartitionStatistics | hShowPartitions
| hCreateIndex | hDescribeIndex | hDropIndex | hGetIndexBuildProgress
| hGetIndexState | hInsert | hDelete | hSearch | hFlush | hQuery
| hCreateAlias | hDropAlias | hAlterAlias.

Definition Req (h : Handler) : Type :=
  match h with
  | hInsert => InsertRequest Opaque
  | hDelete => DeleteRequest
  | hSearch => SearchRequest Opaque
  | hQuery => QueryRequest
  | _ => Opaque
  end.

Definition Resp (h : Handler) : Type :=
  match h with
  | hHasCollection | hHasPartition => Response bool
  | hDescribeCollection | hGetStatistics | hGetCollectionStatistics
  | hShowCollections | hGetPartitionStatistics | hShowPartitions
  | hDescribeIndex | hGetIndexBuildProgress | hGetIndexState | hFlush =>
      Response Opaque
  | hInsert | hDelete => MutationResult Opaque
  | hSearch => SearchResults Opaque
  | hQuery => QueryResults Opaque
  | _ => commonpb_Status
  end.

Definition serve (h : Handler)
  : Req h -> Prog (option (Resp h) * option error) :=
  match h with
  | hCreateCollection => CreateCollection
  | hDropCollection => DropCollection
  | hHasCollection => HasCollection
  | hLoadCollection => LoadCollection
  | hReleaseCollection => ReleaseCollection
  | hDescribeCollection => DescribeCollection
  | hGetStatistics => GetStatistics
  | hGetCollectionStatistics => GetCollectionStatistics
  | hShowCollections => ShowCollections
  | hAlterCollection => AlterCollection
  | hCreatePartition => CreatePartition
  | hDropPartition => DropPartition
  | hHasPartition => HasPartition
  | hLoadPartitions => LoadPartitions
  | hReleasePartitions => ReleasePartitions
  | hGetPartitionStatistics => GetPartitionStatistics
  | hShowPartitions => ShowPartitions
  | hCreateIndex => CreateIndex
  | hDescribeIndex => DescribeIndex
  | hDropIndex => DropIndex
  | hGetIndexBuildProgress => GetIndexBuildProgress
  | hGetIndexState => GetIndexState
  | hInsert => Insert
  | hDelete => Delete
  | hSearch => Search
  | hFlush => Flush
  | hQuery => Query
  | hCreateAlias => CreateAlias
  | hDropAlias => DropAlias
  | hAlterAlias => AlterAlias
  end.

(** The [Status] field of a handler's response. *)
Definition status_of (h : Handler) : Resp h -> option commonpb_Status :=
  match h with
  | hHasCollection | hHasPartition => Status
  | hDescribeCollection | hGetStatistics | hGetCollectionStatistics
  | hShowCollections | hGetPartitionStatistics | hShowPartitions
  | hDescribeIndex | hGetIndexBuildProgress | hGetIndexState | hFlush =>
      Status
  | hInsert | hDelete => Mut_Status
  | hSearch => Srch_Status
  | hQuery => Qry_Status
  | _ => Some
  end.

(** The queue that a handler hands its task to. *)
Definition queue_of (h : Handler) : Queue :=
  match h with
  | hInsert | hDelete => dmQueue
  | hSearch | hQuery => dqQueue
  | _ => ddQueue
  end.

(** What the caller of a handler sees: the status of the response and the
    Go error, when the handler returned a non-nil response. *)
Definition reply {h : Handler}
    (out : Outcome (option (Resp h) * option error))
  : option (option commonpb_Status * option error) :=
  match out with
  | Returned (Some r, err) => Some (status_of h r, err)
  | _ => None
  end.

(** ** Reading a trace *)

Definition is_Enqueue (e : Event) : bool :=
  match e with
  | Ev c _ => match c with Enqueue _ _ => true | _ => false end
  end.

Definition is_WaitToFinish (e : Event) : bool :=
  match e with
  | Ev c _ => match c with WaitToFinish _ => true | _ => false end
  end.

(** The queue and the answer of an [Enqueue]. *)
Definition enqueue_answer (e : Event) : option (Queue * option error) :=
  match e with
  | Ev c x =>
      match c in Call X return X -> option (Queue * option error) with
      | Enqueue q _ => fun x => Some (q, x)
      | _ => fun _ => None
      end x
  end.

(** The answer of a [WaitToFinish]. *)
Definition wait_answer (e : Event) : option (option error) :=
  match e with
  | Ev c x =>
      match c in Call X return X -> option (option error) with
      | WaitToFinish _ => fun x => Some x
      | _ => fun _ => None
      end x
  end.

(** Whether a wait for a task is among the first [n] calls of a run: the
    calls from position [n] on are made after the wait has returned. *)
Definition waited (tr : list Event) (n : nat) : bool :=
  existsb is_WaitToFinish (take n tr).

(** The state code that a [stateCode.Load] saw. *)
Definition loaded_code (e : Event) : option (option StateCode) :=
  match e with
  | Ev c x =>
      match c in Call X return X -> option (option StateCode) with
      | stateCode_Load => fun x => Some x
      | _ => fun _ => None
      end x
  end.

(** The insert task handed to a queue. *)
Definition enqueued_insertTask (e : Event)
  : option (Queue * BaseInsertTask Opaque) :=
  match e with
  | Ev c _ =>
      match c with
      | Enqueue q t =>
          match t with
          | insertTask it => Some (q, it)
          | _ => None
          end
      | _ => None
      end
  end.

(** The ingress and egress accounting: what was added to the rate
    collector and to the two byte counters. *)
Inductive Accounting :=
| rateCol (key : RateKey) (v : Z)
| ReceiveBytes (labels : list LabelValue) (v : Z)
| SendBytes (labels : list LabelValue) (v : Z).

Definition accounting (e : Event) : option Accounting :=
  match e with
  | Ev c _ =>
      match c with
      | rateCol_Add key v => Some (rateCol key v)
      | Counter_Add ProxyReceiveBytes labels v => Some (ReceiveBytes labels v)
      | Counter_Add ProxyReadReqSendBytes labels v => Some (SendBytes labels v)
      | _ => None
      end
  end.

(** The calls on the rate limiter. *)
Definition setRates_call (e : Event) : option (list Opaque) :=
  match e with
  | Ev c _ => match c with setRates rates => Some rates | _ => None end
  end.

(** The calls that edit the metadata cache, the channel manager and the
    per-collection metrics. *)
Inductive Teardown :=
| cache_RemoveCollection (name : string)
| cache_RemoveCollectionsByID (id : Z)
| chMgr_removeDMLStream (id : Z)
| metrics_Delete (h : HistogramVec) (labels : list (LabelName * LabelValue)).

Definition teardown (e : Event) : option Teardown :=
  match e with
  | Ev c _ =>
      match c with
      | RemoveCollection name => Some (cache_RemoveCollection name)
      | RemoveCollectionsByID id => Some (cache_RemoveCollectionsByID id)
      | removeDMLStream id => Some (chMgr_removeDMLStream id)
      | Delete_labels h labels => Some (metrics_Delete h labels)
      | _ => None
      end
  end.

(** ** A constant environment, for running the handlers on examples *)
Record Answers := mkAnswers {
  ans_stateCode : option StateCode;
  ans_ServerID : option Z;
  ans_Enqueue : option error;
  ans_WaitToFinish : option error;
  ans_result : forall R : Type, Task R -> option R;
  ans_Milliseconds : Z;
  ans_present : bool;
  ans_setRates : option error;
  ans_CheckHealth : Coord -> option CheckHealthResponse * option error
}.

Definition answer (a : Answers) : Env :=
  fun _ X c =>
    match c in Call X return X with
    | stateCode_Load => ans_stateCode a
    | session_ServerID => ans_ServerID a
    | Enqueue _ _ => ans_Enqueue a
    | WaitToFinish _ => ans_WaitToFinish a
    | result t => ans_result a _ t
    | Milliseconds => ans_Milliseconds a
    | Counter_Add _ _ _ => tt
    | Observe _ _ _ => tt
    | Delete_labels _ _ => true
    | rateCol_Add _ _ => tt
    | globalMetaCache_present => ans_present a
    | RemoveCollection _ => tt
    | RemoveCollectionsByID _ => tt
    | removeDMLStream _ => None
    | setRates _ => ans_setRates a
    | Coord_CheckHealth c _ => ans_CheckHealth a c
    end.

End Proxy.

(** ** The task scheduler *)

Module TaskScheduler.

(** Modelled from the spec: the scheduler and its queues ([Enqueue], the
    assignment of task identity and begin timestamp) are declared in
    [task_scheduler.go], which is not among the sources; the handlers only
    call [Enqueue] and note that "MsgID will be set by Enqueue()".  The
    spec's task carries a numeric ID and BeginTs/EndTs; its queue is an
    ordered FIFO collection of pending tasks; [Enqueue] rejects, without
    blocking, when the scheduler is not healthy or admission control denies
    the request, and otherwise assigns ID and BeginTs at the moment of
    acceptance, BeginTs being the timestamp obtained from the logical clock
    at that moment. *)
Record Task (P : Type) := mkTask {
  ID : Z;
  BeginTs : Z;
  EndTs : Z;
  payload : P
}.
Arguments mkTask {P} _ _ _ _.
Arguments ID {P} _.
Arguments BeginTs {P} _.
Arguments EndTs {P} _.
Arguments payload {P} _.

(** Modelled from the spec: a queue of one kind.  [reads] and [issued] count
    the timestamps and the IDs obtained so far from the allocator. *)
Record Queue (P : Type) := mkQueue {
  pending : list (Task P);
  healthy : bool;
  reads : nat;
  issued : nat
}.
Arguments mkQueue {P} _ _ _ _.
Arguments pending {P} _.
Arguments healthy {P} _.
Arguments reads {P} _.
Arguments issued {P} _.

Section Allocator.

Context {P : Type}.

(** Modelled from the spec: the logical clock and ID allocator are external;
    [AllocTimestamp n] and [AllocID n] are its answers to the [n]-th
    request. *)
Variable AllocTimestamp : nat -> Z.
Variable AllocID : nat -> Z.

(** Modelled from the spec: [Enqueue(task) -> error].  The task is a
    pointer that [Enqueue] writes to: the second component is the task after
    the call. *)
Definition Enqueue (allow : bool) (q : Queue P) (t : Task P)
  : Queue P * Task P * option error :=
  if negb (healthy q) then
    (q, t, Some (errors_New "scheduler is not healthy"))
  else if negb allow then (q, t, Some (errors_New "admission denied"))
  else
    let ts := AllocTimestamp (reads q) in
    let id := AllocID (issued q) in
    let t := mkTask id ts (EndTs t) (payload t) in
    (mkQueue (pending q ++ [t]) (healthy q) (S (reads q)) (S (issued q)),
     t, None).

(** Modelled from the spec: a worker pulls the oldest pending task. *)
Definition Pop (q : Queue P) : Queue P * option (Task P) :=
  match pending q with
  | [] => (q, None)
  | t :: rest => (mkQueue rest (healthy q) (reads q) (issued q), Some t)
  end.

(** What happens to a queue: a handler submits a task (and admission
    control has decided on it), a worker pulls one, or the state of the
    process changes. *)
Inductive Op :=
| Submit (t : Task P) (allow : bool)
| Pull
| SetHealthy (b : bool).

(** [accepted ops q] is the list of the tasks that were accepted while [ops]
    ran on [q], in the order of their acceptance and as the queue holds
    them, together with the queue at the end. *)
Fixpoint accepted (ops : list Op) (q : Queue P) : list (Task P) * Queue P :=
  match ops with
  | [] => ([], q)
  | Submit t allow :: ops =>
      match Enqueue allow q t with
      | (q', t', None) =>
          let (log, q'') := accepted ops q' in (t' :: log, q'')
      | (q', _, Some _) => accepted ops q'
      end
  | Pull :: ops => accepted ops (fst (Pop q))
  | SetHealthy b :: ops =>
      accepted ops (mkQueue (pending q) b (reads q) (issued q))
  end.

Definition empty : Queue P := mkQueue [] true 0 0.

End Allocator.

End TaskScheduler.

(** ** Example data, for the witnesses *)

Module Example.

Definition Params : ParamTable := mkParams 7 "_default".

(** Every message of the examples has the same size. *)
Definition Size {A : Type} : ProtoMessage A := fun _ => 64.

Definition insert : InsertRequest unit :=
  mkInsertRequest "db" "books" "" [] [] 3.

Definition delete : DeleteRequest :=
  mkDeleteRequest "db" "books" "" "id in [1]" [].

Definition search : SearchRequest unit :=
  mkSearchRequest "db" "books" 2 0 0 tt.

Definition query : QueryRequest :=
  mkQueryRequest "db" "books" [] "id > 0" [].

Definition searchResults : SearchResults unit :=
  mkSearchResults (Some (mkStatus ErrorCode_Success ""))
    (Some (mkSearchResultData 2 tt)) "books".

Definition queryResults : QueryResults unit :=
  mkQueryResults (Some (mkStatus ErrorCode_Success "")) [tt] "books".

Definition results (R : Type) (t : @Task unit R) : option R :=
  match t in Task R return option R with
  | searchTask _ _ _ => Some searchResults
  | queryTask _ _ _ _ => Some queryResults
  | _ => None
  end.

Definition unhealthy_coordinator
  : option CheckHealthResponse * option error :=
  (Some (mkCheckHealthResponse false []), None).

(** A healthy proxy whose queues accept and whose tasks complete. *)
Definition serving : @Answers unit :=
  mkAnswers (Some StateCode_Healthy) (Some 7) None None results 5 true None
    (fun _ => unhealthy_coordinator).

(** A healthy proxy whose queues reject. *)
Definition rejecting : @Answers unit :=
  mkAnswers (Some StateCode_Healthy) (Some 7)
    (Some (errors_New "queue is full")) None results 5 true None
    (fun _ => unhealthy_coordinator).

(** A proxy that is not healthy. *)
Definition abnormal : @Answers unit :=
  mkAnswers (Some StateCode_Abnormal) (Some 7) None None results 5 true None
    (fun _ => unhealthy_coordinator).

Definition order : list Coord :=
  [rootCoord; queryCoord; dataCoord; indexCoord].

Definition UnHealthReason (role : string) (id : Z) (reason : string)
  : string := reason.

(** A task as a handler builds it, before the scheduler has seen it. *)
Definition fresh : TaskScheduler.Task unit := TaskScheduler.mkTask 0 0 0 tt.

Definition ops : list (@TaskScheduler.Op unit) :=
  [TaskScheduler.Submit fresh true; TaskScheduler.Pull;
   TaskScheduler.Submit fresh true].

(** A clock that ticks by ten and an ID allocator that counts from 100. *)
Definition AllocTimestamp (n : nat) : Z := 10 * Z.of_nat n.
Definition AllocID (n : nat) : Z := 100 + Z.of_nat n.

End Example.

(** * More of the proxy *)

Section ProxyMore.

Context {Opaque : Type} (zero : Opaque) (Params : ParamTable).
Context {Size_InsertRequest : ProtoMessage (InsertRequest Opaque)}.
Context {Size_DeleteRequest : ProtoMessage DeleteRequest}.
Context {Size_SearchRequest : ProtoMessage (SearchRequest Opaque)}.
Context {Size_QueryRequest : ProtoMessage QueryRequest}.
Context {Size_SearchResults : ProtoMessage (SearchResults Opaque)}.
Context {Size_QueryResults : ProtoMessage (QueryResults Opaque)}.

Local Arguments Ret {Opaque A} _.
Local Arguments Panic {Opaque A}.
Local Arguments Do {Opaque A X} _ _.

Declare Scope prog_scope.
Notation "'let!' x ':=' p 'in' k" := (bind p (fun x => k))
  (at level 10, x name, p at level 100, k at level 200) : prog_scope.
Notation "p ;; k" := (bind p (fun _ => k))
  (at level 100, k at level 200, right associativity) : prog_scope.
Local Open Scope prog_scope.

(** The [method] string of a handler. *)
Definition method_of (h : Handler) : string :=
  match h with
  | hCreateCollection => "CreateCollection"
  | hDropCollection => "DropCollection"
  | hHasCollection => "HasCollection"
  | hLoadCollection => "LoadCollection"
  | hReleaseCollection => "ReleaseCollection"
  | hDescribeCollection => "DescribeCollection"
  | hGetStatistics => "GetStatistics"
  | hGetCollectionStatistics => "GetCollectionStatistics"
  | hShowCollections => "ShowCollections"
  | hAlterCollection => "AlterCollection"
  | hCreatePartition => "CreatePartition"
  | hDropPartition => "DropPartition"
  | hHasPartition => "HasPartition"
  | hLoadPartitions => "LoadPartitions"
  | hReleasePartitions => "ReleasePartitions"
  | hGetPartitionStatistics => "GetPartitionStatistics"
  | hShowPartitions => "ShowPartitions"
  | hCreateIndex => "CreateIndex"
  | hDescribeIndex => "DescribeIndex"
  | hDropIndex => "DropIndex"
  | hGetIndexBuildProgress => "GetIndexBuildProgress"
  | hGetIndexState => "GetIndexState"
  | hInsert => "Insert"
  | hDelete => "Delete"
  | hSearch => "Search"
  | hFlush => "Flush"
  | hQuery => "Query"
  | hCreateAlias => "CreateAlias"
  | hDropAlias => "DropAlias"
  | hAlterAlias => "AlterAlias"
  end.

(** The increments of [ProxyFunctionCall] in a trace. *)
Definition function_call (e : @Event Opaque) : option (list LabelValue * Z) :=
  match e with
  | Ev c _ =>
      match c with
      | Counter_Add ProxyFunctionCall labels v => Some (labels, v)
      | _ => None
      end
  end.

(** What was added to [ProxyInsertVectors]. *)
Definition insert_vectors (e : @Event Opaque) : option Z :=
  match e with
  | Ev c _ =>
      match c with
      | Counter_Add ProxyInsertVectors _ v => Some v
      | _ => None
      end
  end.

(** The outcome label that goes with the answers of the queue and of the
    wait. *)
Definition outcome_label (enq : list (Queue * option error))
    (wait : list (option error)) : LabelValue :=
  match enq, wait with
  | (_, Some _) :: _, _ => AbandonLabel
  | _, Some _ :: _ => FailLabel
  | _, _ => SuccessLabel
  end.

(** ** [Dummy]

    [parseDummyRequestType] and [parseDummyQueryRequest] are declared in
    another file; each returns a pointer and an error. *)
Record dummyQueryRequest := mkDummyQueryRequest {
  Dummy_DbName : string;
  Dummy_CollectionName : string;
  Dummy_PartitionNames : list string;
  Dummy_OutputFields : list string
}.

Variable parseDummyRequestType : string -> option string * option error.
Variable parseDummyQueryRequest
  : string -> option dummyQueryRequest * option error.

(** [milvuspb.DummyResponse] is its [Response] string: the two raw string
    literals of the handler, with [dq] for the double quote. *)
Definition dq : string := String (Ascii.ascii_of_nat 34) EmptyString.

Definition status_json (status : string) : string :=
  String.concat EmptyString
    ["{"; dq; "status"; dq; ": "; dq; status; dq; "}"].

Definition failedResponse : string := status_json "fail".
Definition successResponse : string := status_json "success".

Definition Dummy (RequestType : string) : Prog (option string * option error) :=
  match parseDummyRequestType RequestType with
  | (_, Some err) => Ret (Some failedResponse, None)
  | (None, None) => Panic
  | (Some drt, None) =>
      if String.eqb drt "query" then
        match parseDummyQueryRequest RequestType with
        | (_, Some err) => Ret (Some failedResponse, None)
        | (None, None) => Panic
        | (Some drr, None) =>
            let request :=
              mkQueryRequest (Dummy_DbName drr) (Dummy_CollectionName drr)
                (Dummy_PartitionNames drr) "" (Dummy_OutputFields drr) in
            let! r := Query Params request in
            match snd r with
            | Some err => Ret (Some failedResponse, Some err)
            | None => Ret (Some successResponse, None)
            end
        end
      else Ret (Some failedResponse, None)
  end.

(** The task that a handler builds from its request and hands to its
    queue. *)
Definition task_of (h : Handler) : Req h -> Task (Resp h) :=
  match h as h return @Req Opaque h -> @Task Opaque (@Resp Opaque h) with
  | hCreateCollection => createCollectionTask
  | hDropCollection => dropCollectionTask
  | hHasCollection => hasCollectionTask
  | hLoadCollection => loadCollectionTask
  | hReleaseCollection => releaseCollectionTask
  | hDescribeCollection => describeCollectionTask
  | hGetStatistics => getStatisticsTask
  | hGetCollectionStatistics => getCollectionStatisticsTask
  | hShowCollections => showCollectionsTask
  | hAlterCollection => alterCollectionTask
  | hCreatePartition => createPartitionTask
  | hDropPartition => dropPartitionTask
  | hHasPartition => hasPartitionTask
  | hLoadPartitions => loadPartitionsTask
  | hReleasePartitions => releasePartitionsTask
  | hGetPartitionStatistics => getPartitionStatisticsTask
  | hShowPartitions => showPartitionsTask
  | hCreateIndex => createIndexTask
  | hDescribeIndex => describeIndexTask
  | hDropIndex => dropIndexTask
  | hGetIndexBuildProgress => getIndexBuildProgressTask
  | hGetIndexState => getIndexStateTask
  | hInsert =>
      fun request =>
        insertTask (defaultPartition Params (newInsertTask Params request))
  | hDelete =>
      fun request =>
        deleteTask
          (mkBaseDeleteTask (Del_Expr request) (Del_HashKeys request)
             (mkMsgBase MsgType_Delete 0 0 0)
             (Del_DbName request) (Del_CollectionName request)
             (Del_PartitionName request))
  | hSearch => newSearchTask Params
  | hFlush => flushTask
  | hQuery => newQueryTask Params
  | hCreateAlias => CreateAliasTask
  | hDropAlias => DropAliasTask
  | hAlterAlias => AlterAliasTask
  end.

(** The reads of the result field of a task. *)
Definition is_result (e : @Event Opaque) : bool :=
  match e with
  | Ev c _ => match c with result _ => true | _ => false end
  end.

(** ** [CheckHealth]: what one answer adds to [errReasons] *)
Definition contribution (c : Coord)
    (a : option CheckHealthResponse * option error) : list string :=
  match snd a with
  | Some _ => [String.append "check health fail for " (role c)]
  | None =>
      match fst a with
      | Some resp => if IsHealthy resp then [] else Reasons resp
      | None => []
      end
  end.

End ProxyMore.

(** * Handlers that call the coordinators and the metadata cache directly *)

(** [milvuspb.GetLoadingProgressRequest]. *)
Record GetLoadingProgressRequest := mkGetLoadingProgressRequest {
  GLP_Base : option MsgBase;
  GLP_CollectionName : string;
  GLP_PartitionNames : list string
}.

(** [milvuspb.GetLoadingProgressResponse]. *)
Record GetLoadingProgressResponse := mkGetLoadingProgressResponse {
  GLP_Status : option commonpb_Status;
  Progress : Z
}.

(** [querypb.ShowCollectionsRequest] and [querypb.ShowPartitionsRequest]. *)
Record ShowCollectionsRequest := mkShowCollectionsRequest {
  SC_Base : MsgBase;
  SC_CollectionIDs : list Z
}.

Record ShowPartitionsRequest := mkShowPartitionsRequest {
  SP_Base : MsgBase;
  SP_CollectionID : Z;
  SP_PartitionIDs : list Z
}.

(** The responses of the query coordinator to both: of their fields the
    proxy reads [InMemoryPercentages] only. *)
Record ShowResponse := mkShowResponse {
  Show_Status : option commonpb_Status;
  InMemoryPercentages : list Z
}.

(** The entities of [milvuspb.GrantEntity]; every entity is behind a
    pointer. *)
Record GrantorEntity := mkGrantorEntity {
  Grantor_User : option string;
  Grantor_Privilege : option string
}.

Record GrantEntity := mkGrantEntity {
  Grant_Role : option string;
  Grant_Object : option string;
  Grant_ObjectName : string;
  Grant_Grantor : option GrantorEntity
}.

(** [milvuspb.ComponentInfo] and [milvuspb.ComponentStates]. *)
Record ComponentInfo := mkComponentInfo {
  Info_NodeID : Z;
  Info_Role : string;
  Info_StateCode : StateCode
}.

Record ComponentStates := mkComponentStates {
  States_Status : option commonpb_Status;
  States_State : option ComponentInfo
}.

(** Go's [int64]: the value of an integer expression after wrap-around. *)
Definition int64 (z : Z) : Z := (z + 2 ^ 63) mod 2 ^ 64 - 2 ^ 63.

Section ProxyDirect.

Context {Opaque : Type} (zero : Opaque) (Params : ParamTable).

(** ** Calls

    The calls of the first part, and the calls these handlers make on the
    metadata cache, the session and the coordinators.  [OperatePrivilege]
    and [SelectGrant] take the [Entity] of their request.  [globalMetaCache]
    is a package variable that other handlers of the file compare with nil
    before they use it: a method called on it while it is nil panics. *)
Inductive RPC : Type -> Type :=
| proxy {X : Type} (c : @Call Opaque X) : RPC X
(* globalMetaCache.GetCollectionID(ctx, collectionName); None when
   globalMetaCache is nil *)
| GetCollectionID (collectionName : string) : RPC (option (Z * option error))
(* globalMetaCache.GetPartitionID(ctx, collectionName, partitionName); None
   when globalMetaCache is nil *)
| GetPartitionID (collectionName partitionName : string)
    : RPC (option (Z * option error))
(* node.queryCoord.ShowCollections, node.queryCoord.ShowPartitions *)
| ShowCollections_rpc (req : ShowCollectionsRequest)
    : RPC (option ShowResponse * option error)
| ShowPartitions_rpc (req : ShowPartitionsRequest)
    : RPC (option ShowResponse * option error)
(* node.queryCoord.GetReplicas *)
| GetReplicas_rpc (base : MsgBase) (req : Opaque)
    : RPC (option (Response Opaque) * option error)
(* node.rootCoord.Import, GetImportState, ListImportTasks *)
| Import_rpc (req : Opaque) : RPC (option (Response Opaque) * option error)
| GetImportState_rpc (req : Opaque)
    : RPC (option (Response Opaque) * option error)
| ListImportTasks_rpc (req : Opaque)
    : RPC (option (Response Opaque) * option error)
(* node.dataCoord.GetCompactionState, ManualCompaction,
   GetCompactionStateWithPlans, GetFlushState *)
| GetCompactionState_rpc (req : Opaque)
    : RPC (option (Response Opaque) * option error)
| ManualCompaction_rpc (req : Opaque)
    : RPC (option (Response Opaque) * option error)
| GetCompactionStateWithPlans_rpc (req : Opaque)
    : RPC (option (Response Opaque) * option error)
| GetFlushState_rpc (req : Opaque)
    : RPC (option (Response Opaque) * option error)
(* node.rootCoord.DeleteCredential *)
| DeleteCredential_rpc (username : string)
    : RPC (option commonpb_Status * option error)
(* GetCurUserFromContext(ctx) *)
| GetCurUserFromContext : RPC (string * option error)
(* node.rootCoord.OperatePrivilege, node.rootCoord.SelectGrant *)
| OperatePrivilege_rpc (entity : option GrantEntity)
    : RPC (option commonpb_Status * option error)
| SelectGrant_rpc (entity : option GrantEntity)
    : RPC (option (Response Opaque) * option error)
(* node.session: None when nil, otherwise Registered() and ServerID *)
| session : RPC (option (bool * Z)).

(** A handler body over these calls. *)
Inductive Proc (A : Type) : Type :=
| Done (a : A)
| Crash
| Step {X : Type} (c : RPC X) (k : X -> Proc A).
Arguments Done {A} _.
Arguments Crash {A}.
Arguments Step {A X} _ _.

Fixpoint andThen {A B : Type} (p : Proc A) (f : A -> Proc B) : Proc B :=
  match p with
  | Done a => f a
  | Crash => Crash
  | Step c k => Step c (fun x => andThen (k x) f)
  end.

Definition rpc {X : Type} (c : RPC X) : Proc X := Step c Done.

(** A body of the first part, as a body over these calls. *)
Fixpoint lift {A : Type} (p : @Prog Opaque A) : Proc A :=
  match p with
  | Ret _ a => Done a
  | Panic _ => Crash
  | Do _ c k => Step (proxy c) (fun x => lift (k x))
  end.

Inductive Trace : Type :=
| Tr {X : Type} (c : RPC X) (x : X).

Definition World : Type := nat -> forall X : Type, RPC X -> X.

Fixpoint exec_from {A : Type} (w : World) (tr : list Trace) (p : Proc A)
  : Outcome A * list Trace :=
  match p with
  | Done a => (Returned a, tr)
  | Crash => (Panicked, tr)
  | Step c k =>
      let x := w (length tr) _ c in
      exec_from w (tr ++ [Tr c x]) (k x)
  end.

Definition exec {A : Type} (w : World) (p : Proc A) : Outcome A * list Trace :=
  exec_from w [] p.

Declare Scope proc_scope.
Notation "'let!' x ':=' p 'in' k" := (andThen p (fun x => k))
  (at level 10, x name, p at level 100, k at level 200) : proc_scope.
Notation "p ;; k" := (andThen p (fun _ => k))
  (at level 100, k at level 200, right associativity) : proc_scope.
Local Open Scope proc_scope.

(** Constants of [commonpb], [common] and [util] that these handlers name. *)
Variable MsgType_ShowCollections : MsgType.
Variable MsgType_ShowPartitions : MsgType.
Variable MsgType_SystemInfo : MsgType.
Variable MsgType_GetReplicas : MsgType.
Variable ErrorCode_IllegalArgument : ErrorCode.
Variable ErrorCode_DeleteCredentialFailure : ErrorCode.
Variable NotRegisteredID : Z.
Variable ProxyRole : string.
Variable UserRoot : string.

(** Validators declared in other files of the package. *)
Variable validateCollectionName : string -> option error.
Variable ValidatePrivilege : string -> option error.
Variable ValidateObjectType : string -> option error.
Variable ValidateObjectName : string -> option error.
Variable ValidateRoleName : string -> option error.

(** [errorutil.UnhealthyStatus]. *)
Variable UnhealthyStatus : StateCode -> commonpb_Status.

Definition inc (labels : list LabelValue) : Proc unit :=
  rpc (proxy (Counter_Add ProxyFunctionCall labels 1)).

Definition nid : LabelValue := FormatInt (GetNodeID Params).

(** ** [getCollectionProgress]

    [request.Base] is dereferenced to build the request, and the response
    to read its percentages. *)
Definition getCollectionProgress (request : GetLoadingProgressRequest)
    (collectionID : Z) : Proc (Z * option error) :=
  match GLP_Base request with
  | None => Crash
  | Some b =>
      let! r := rpc (ShowCollections_rpc
                       (mkShowCollectionsRequest
                          (mkMsgBase MsgType_ShowCollections (Base_MsgID b)
                             (Base_Timestamp b) (Base_SourceID b))
                          [collectionID])) in
      match snd r with
      | Some err => Done (0, Some err)
      | None =>
          match fst r with
          | None => Crash
          | Some resp =>
              match InMemoryPercentages resp with
              | [] =>
                  Done (0, Some (errors_New
                    "fail to show collections from the querycoord, no data"))
              | p :: _ => Done (p, None)
              end
          end
      end
  end.

(** ** [getPartitionProgress] *)

(** The first loop: one [GetPartitionID] per partition name, stopping at
    the first error; the call panics when [globalMetaCache] is nil.
    ([IDs2Names] is written and never read.) *)
Fixpoint partitionIDs_of (collectionName : string) (names : list string)
    (partitionIDs : list Z) : Proc (list Z * option error) :=
  match names with
  | [] => Done (partitionIDs, None)
  | partitionName :: names =>
      let! r := rpc (GetPartitionID collectionName partitionName) in
      match r with
      | None => Crash
      | Some (_, Some err) => Done (partitionIDs, Some err)
      | Some (partitionID, None) =>
          partitionIDs_of collectionName names (partitionIDs ++ [partitionID])
      end
  end.

(** The second loop: [progress += p] in [int64]. *)
Definition sum_int64 (ps : list Z) : Z :=
  fold_left (fun progress p => int64 (progress + p)) ps 0.

(** [progress /= int64(len(partitionIDs))]: Go's division truncates and
    panics on a zero divisor. *)
Definition getPartitionProgress (request : GetLoadingProgressRequest)
    (collectionID : Z) : Proc (Z * option error) :=
  let! ids := partitionIDs_of (GLP_CollectionName request)
                (GLP_PartitionNames request) [] in
  match snd ids with
  | Some err => Done (0, Some err)
  | None =>
      let partitionIDs := fst ids in
      match GLP_Base request with
      | None => Crash
      | Some b =>
          let! r := rpc (ShowPartitions_rpc
                           (mkShowPartitionsRequest
                              (mkMsgBase MsgType_ShowPartitions (Base_MsgID b)
                                 (Base_Timestamp b) (Base_SourceID b))
                              collectionID partitionIDs)) in
          match snd r with
          | Some err => Done (0, Some err)
          | None =>
              match fst r with
              | None => Crash
              | Some resp =>
                  if negb (length (InMemoryPercentages resp)
                           =? length partitionIDs)%nat
                  then Done (0, Some (errors_New
                    "fail to show partitions from the querycoord, invalid data num"))
                  else
                    let progress := sum_int64 (InMemoryPercentages resp) in
                    let n := Z.of_nat (length partitionIDs) in
                    if n =? 0 then Crash
                    else Done (int64 (Z.quot progress n), None)
              end
          end
      end
  end.

(** ** [GetLoadingProgress] *)

(** [request.Base] after the handler has set it. *)
Definition withBase (request : GetLoadingProgressRequest)
  : GetLoadingProgressRequest :=
  let msgBase := mkMsgBase MsgType_SystemInfo 0 0 (GetNodeID Params) in
  match GLP_Base request with
  | None =>
      mkGetLoadingProgressRequest (Some msgBase) (GLP_CollectionName request)
        (GLP_PartitionNames request)
  | Some b =>
      mkGetLoadingProgressRequest
        (Some (mkMsgBase (Base_MsgType b) (Base_MsgID msgBase)
                 (Base_Timestamp msgBase) (Base_SourceID msgBase)))
        (GLP_CollectionName request) (GLP_PartitionNames request)
  end.

Definition getErrResponse (method : string) (err : error)
  : Proc (option GetLoadingProgressResponse * option error) :=
  inc [nid; method_ method; FailLabel] ;;
  Done (Some (mkGetLoadingProgressResponse (Some (failStatus err)) 0), None).

Definition GetLoadingProgress (request : GetLoadingProgressRequest)
  : Proc (option GetLoadingProgressResponse * option error) :=
  let! healthy := lift checkHealthy in
  if negb healthy then
    Done (Some (mkGetLoadingProgressResponse (Some unhealthyStatus) 0), None)
  else
  let method := "GetLoadingProgress" in
  inc [nid; method_ method; TotalLabel] ;;
  match validateCollectionName (GLP_CollectionName request) with
  | Some err => getErrResponse method err
  | None =>
  let! c := rpc (GetCollectionID (GLP_CollectionName request)) in
  match c with
  | None => Crash
  | Some (_, Some err) => getErrResponse method err
  | Some (collectionID, None) =>
  let request := withBase request in
  let! p :=
    if (length (GLP_PartitionNames request) =? 0)%nat
    then getCollectionProgress request collectionID
    else getPartitionProgress request collectionID in
  match snd p with
  | Some err => getErrResponse method err
  | None =>
      inc [nid; method_ method; SuccessLabel] ;;
      let! ms := rpc (proxy Milliseconds) in
      rpc (proxy (Observe ProxyReqLatency [nid; method_ method] ms)) ;;
      Done (Some (mkGetLoadingProgressResponse
                    (Some (mkStatus ErrorCode_Success "")) (fst p)), None)
  end end end.

(** ** Handlers that forward a request to a coordinator *)

(** [resp.Status.ErrorCode = UnexpectedError; resp.Status.Reason =
    err.Error(); return resp, nil], where [resp] is what the coordinator
    returned next to [err]. *)
Definition overwrite_status (resp : option (Response Opaque)) (err : error)
  : Proc (option (Response Opaque) * option error) :=
  match resp with
  | None => Crash
  | Some r =>
      match Status r with
      | None => Crash
      | Some _ => Done (Some (mkResponse (Some (failStatus err)) (body r)), None)
      end
  end.

Definition GetReplicas (req : Opaque)
  : Proc (option (Response Opaque) * option error) :=
  let! healthy := lift checkHealthy in
  if negb healthy then Done (Some (mkResponse (Some unhealthyStatus) zero), None)
  else
  let base := mkMsgBase MsgType_GetReplicas 0 0 (GetNodeID Params) in
  let! r := rpc (GetReplicas_rpc base req) in
  match snd r with
  | Some err => overwrite_status (fst r) err
  | None => Done (fst r, None)
  end.

Definition GetImportState (req : Opaque)
  : Proc (option (Response Opaque) * option error) :=
  let! healthy := lift checkHealthy in
  if negb healthy then Done (Some (mkResponse (Some unhealthyStatus) zero), None)
  else
  let method := "GetImportState" in
  inc [nid; method_ method; TotalLabel] ;;
  let! r := rpc (GetImportState_rpc req) in
  match snd r with
  | Some err =>
      inc [nid; method_ method; FailLabel] ;;
      overwrite_status (fst r) err
  | None =>
      inc [nid; method_ method; SuccessLabel] ;;
      let! ms := rpc (proxy Milliseconds) in
      rpc (proxy (Observe ProxyReqLatency [nid; method_ method] ms)) ;;
      Done (fst r, None)
  end.

(** The log statement of the success branch reads [resp.Tasks]. *)
Definition ListImportTasks (req : Opaque)
  : Proc (option (Response Opaque) * option error) :=
  let! healthy := lift checkHealthy in
  if negb healthy then Done (Some (mkResponse (Some unhealthyStatus) zero), None)
  else
  let method := "ListImportTasks" in
  inc [nid; method_ method; TotalLabel] ;;
  let! r := rpc (ListImportTasks_rpc req) in
  match snd r with
  | Some err =>
      inc [nid; method_ method; FailLabel] ;;
      overwrite_status (fst r) err
  | None =>
      match fst r with
      | None => Crash
      | Some _ =>
          inc [nid; method_ method; SuccessLabel] ;;
          let! ms := rpc (proxy Milliseconds) in
          rpc (proxy (Observe ProxyReqLatency [nid; method_ method] ms)) ;;
          Done (fst r, None)
      end
  end.

(** [Import] keeps its own response apart from the coordinator's. *)
Definition Import (req : Opaque)
  : Proc (option (Response Opaque) * option error) :=
  let! healthy := lift checkHealthy in
  if negb healthy then Done (Some (mkResponse (Some unhealthyStatus) zero), None)
  else
  let method := "Import" in
  inc [nid; method_ method; TotalLabel] ;;
  let! r := rpc (Import_rpc req) in
  match snd r with
  | Some err =>
      inc [nid; method_ method; FailLabel] ;;
      Done (Some (mkResponse (Some (failStatus err)) zero), None)
  | None =>
      inc [nid; method_ method; SuccessLabel] ;;
      let! ms := rpc (proxy Milliseconds) in
      rpc (proxy (Observe ProxyReqLatency [nid; method_ method] ms)) ;;
      Done (fst r, None)
  end.

(** [return resp, err] with what the data coordinator returned. *)
Definition GetCompactionState (req : Opaque)
  : Proc (option (Response Opaque) * option error) :=
  let! healthy := lift checkHealthy in
  if negb healthy then Done (Some (mkResponse (Some unhealthyStatus) zero), None)
  else
  let! r := rpc (GetCompactionState_rpc req) in
  Done (fst r, snd r).

Definition ManualCompaction (req : Opaque)
  : Proc (option (Response Opaque) * option error) :=
  let! healthy := lift checkHealthy in
  if negb healthy then Done (Some (mkResponse (Some unhealthyStatus) zero), None)
  else
  let! r := rpc (ManualCompaction_rpc req) in
  Done (fst r, snd r).

Definition GetCompactionStateWithPlans (req : Opaque)
  : Proc (option (Response Opaque) * option error) :=
  let! healthy := lift checkHealthy in
  if negb healthy then Done (Some (mkResponse (Some unhealthyStatus) zero), None)
  else
  let! r := rpc (GetCompactionStateWithPlans_rpc req) in
  Done (fst r, snd r).

Definition GetFlushState (req : Opaque)
  : Proc (option (Response Opaque) * option error) :=
  let! healthy := lift checkHealthy in
  if negb healthy then Done (Some (mkResponse (Some unhealthyStatus) zero), None)
  else
  let! r := rpc (GetFlushState_rpc req) in
  match snd r with
  | Some err => Done (None, Some err)
  | None => Done (fst r, None)
  end.

(** ** [DeleteCredential] *)
Definition DeleteCredential (username : string)
  : Proc (option commonpb_Status * option error) :=
  let! healthy := lift checkHealthy in
  if negb healthy then Done (Some unhealthyStatus, None) else
  if String.eqb username UserRoot then
    Done (Some (mkStatus ErrorCode_DeleteCredentialFailure
                  "user root cannot be deleted"), None)
  else
  let! r := rpc (DeleteCredential_rpc username) in
  match snd r with
  | Some err => Done (Some (failStatus err), None)
  | None => Done (fst r, None)
  end.

(** ** Privileges and grants *)

(** [checkHealthyAndReturnCode]. *)
Definition checkHealthyAndReturnCode : Proc (StateCode * bool) :=
  let! code := rpc (proxy stateCode_Load) in
  match code with
  | Some code => Done (code, StateCode_eqb code StateCode_Healthy)
  | None => Crash
  end.

(** [fmt.Errorf] of a constant message. *)
Definition Errorf (msg : string) : option error := Some (errors_New msg).

Definition validPrivilegeParams (entity : option GrantEntity) : option error :=
  match entity with
  | None => Errorf "the entity in the request is nil"
  | Some e =>
  match Grant_Grantor e with
  | None => Errorf "the grantor entity in the grant entity is nil"
  | Some g =>
  match Grantor_Privilege g with
  | None => Errorf "the privilege entity in the grantor entity is nil"
  | Some privilege =>
  match ValidatePrivilege privilege with
  | Some err => Some err
  | None =>
  match Grant_Object e with
  | None => Errorf "the resource entity in the grant entity is nil"
  | Some object =>
  match ValidateObjectType object with
  | Some err => Some err
  | None =>
  match ValidateObjectName (Grant_ObjectName e) with
  | Some err => Some err
  | None =>
  match Grant_Role e with
  | None => Errorf "the object entity in the grant entity is nil"
  | Some role => ValidateRoleName role
  end end end end end end end end.

Definition validGrantParams (entity : option GrantEntity) : option error :=
  match entity with
  | None => Errorf "the grant entity in the request is nil"
  | Some e =>
  match
    match Grant_Object e with
    | Some object =>
        match ValidateObjectType object with
        | Some err => Some err
        | None => ValidateObjectName (Grant_ObjectName e)
        end
    | None => None
    end
  with
  | Some err => Some err
  | None =>
  match Grant_Role e with
  | None => Errorf "the role entity in the grant entity is nil"
  | Some role => ValidateRoleName role
  end end end.

(** [req.Entity.Grantor.User = &milvuspb.UserEntity{Name: curUser}]; both
    pointers were checked by [validPrivilegeParams]. *)
Definition setGrantorUser (entity : option GrantEntity) (curUser : string)
  : option (option GrantEntity) :=
  match entity with
  | None => None
  | Some e =>
      match Grant_Grantor e with
      | None => None
      | Some g =>
          Some (Some (mkGrantEntity (Grant_Role e) (Grant_Object e)
                        (Grant_ObjectName e)
                        (Some (mkGrantorEntity (Some curUser)
                                 (Grantor_Privilege g)))))
      end
  end.

Definition OperatePrivilege (entity : option GrantEntity)
  : Proc (option commonpb_Status * option error) :=
  let! c := checkHealthyAndReturnCode in
  if negb (snd c) then Done (Some (UnhealthyStatus (fst c)), None) else
  match validPrivilegeParams entity with
  | Some err => Done (Some (mkStatus ErrorCode_IllegalArgument (Error err)), None)
  | None =>
  let! u := rpc GetCurUserFromContext in
  match snd u with
  | Some err => Done (Some (failStatus err), None)
  | None =>
  match setGrantorUser entity (fst u) with
  | None => Crash
  | Some entity =>
  let! r := rpc (OperatePrivilege_rpc entity) in
  match snd r with
  | Some err => Done (Some (failStatus err), None)
  | None => Done (fst r, None)
  end end end end.

Definition SelectGrant (entity : option GrantEntity)
  : Proc (option (Response Opaque) * option error) :=
  let! c := checkHealthyAndReturnCode in
  if negb (snd c) then
    Done (Some (mkResponse (Some (UnhealthyStatus (fst c))) zero), None)
  else
  match validGrantParams entity with
  | Some err =>
      Done (Some (mkResponse
                    (Some (mkStatus ErrorCode_IllegalArgument (Error err)))
                    zero), None)
  | None =>
  let! r := rpc (SelectGrant_rpc entity) in
  match snd r with
  | Some err => Done (Some (mkResponse (Some (failStatus err)) zero), None)
  | None => Done (fst r, None)
  end end.

(** ** [GetComponentStates] *)
Definition GetComponentStates
  : Proc (option ComponentStates * option error) :=
  let stats := mkStatus ErrorCode_Success "" in
  let! code := rpc (proxy stateCode_Load) in
  match code with
  | None =>
      let errMsg := "unexpected error in type assertion" in
      Done (Some (mkComponentStates
                    (Some (mkStatus ErrorCode_UnexpectedError errMsg)) None),
            None)
  | Some code =>
      let! s := rpc session in
      let nodeID :=
        match s with
        | Some (true, ServerID) => ServerID
        | _ => NotRegisteredID
        end in
      let info := mkComponentInfo nodeID ProxyRole code in
      Done (Some (mkComponentStates (Some stats) (Some info)), None)
  end.

End ProxyDirect.

Section ProxyDirectTraces.

Context {Opaque : Type}.

(** The calls that reach a coordinator. *)
Definition to_coordinator (e : @Trace Opaque) : bool :=
  match e with
  | Tr c _ =>
      match c with
      | ShowCollections_rpc _ | ShowPartitions_rpc _ | GetReplicas_rpc _ _
      | Import_rpc _ | GetImportState_rpc _ | ListImportTasks_rpc _
      | GetCompactionState_rpc _ | ManualCompaction_rpc _
      | GetCompactionStateWithPlans_rpc _ | GetFlushState_rpc _
      | DeleteCredential_rpc _ | OperatePrivilege_rpc _ | SelectGrant_rpc _ =>
          true
      | _ => false
      end
  end.

(** The partition names looked up in the metadata cache. *)
Definition partition_lookup (e : @Trace Opaque) : option (string * string) :=
  match e with
  | Tr c _ =>
      match c with
      | GetPartitionID collection partition => Some (collection, partition)
      | _ => None
      end
  end.

(** The entity forwarded to [rootCoord.OperatePrivilege]. *)
Definition privilege_forwarded (e : @Trace Opaque)
  : option (option GrantEntity) :=
  match e with
  | Tr c _ =>
      match c with
      | OperatePrivilege_rpc entity => Some entity
      | _ => None
      end
  end.

(** The requests sent to [queryCoord.ShowCollections] and
    [queryCoord.ShowPartitions]. *)
Definition show_sent (e : @Trace Opaque)
  : option (ShowCollectionsRequest + ShowPartitionsRequest) :=
  match e with
  | Tr c _ =>
      match c with
      | ShowCollections_rpc req => Some (inl req)
      | ShowPartitions_rpc req => Some (inr req)
      | _ => None
      end
  end.

(** The user names sent to [rootCoord.DeleteCredential]. *)
Definition credential_deleted (e : @Trace Opaque) : option string :=
  match e with
  | Tr c _ =>
      match c with
      | DeleteCredential_rpc username => Some username
      | _ => None
      end
  end.

(** The increments of [ProxyFunctionCall]. *)
Definition counted (e : @Trace Opaque) : option (list LabelValue) :=
  match e with
  | Tr c _ =>
      match c with
      | proxy (Counter_Add ProxyFunctionCall labels _) => Some labels
      | _ => None
      end
  end.

End ProxyDirectTraces.

(** ** Worlds given by a table of answers *)

Section Replies.

Context {Opaque : Type}.

(** One answer per collaborator, the same at every position of the run;
    the calls of the first part are answered by [proxy_answers]. *)
Record Replies := mkReplies {
  proxy_answers : @Answers Opaque;
  collection_id : option (Z * option error);
  partition_id : string -> option (Z * option error);
  shown_collections : option ShowResponse * option error;
  shown_partitions : option ShowResponse * option error;
  coordinator_response : option (Response Opaque) * option error;
  coordinator_status : option commonpb_Status * option error;
  current_user : string * option error;
  registered : option (bool * Z)
}.

Definition world (r : Replies) : @World Opaque :=
  fun n X c =>
    match c in RPC X return X with
    | proxy c => answer (proxy_answers r) n _ c
    | GetCollectionID _ => collection_id r
    | GetPartitionID _ partition => partition_id r partition
    | ShowCollections_rpc _ => shown_collections r
    | ShowPartitions_rpc _ => shown_partitions r
    | GetReplicas_rpc _ _ => coordinator_response r
    | Import_rpc _ => coordinator_response r
    | GetImportState_rpc _ => coordinator_response r
    | ListImportTasks_rpc _ => coordinator_response r
    | GetCompactionState_rpc _ => coordinator_response r
    | ManualCompaction_rpc _ => coordinator_response r
    | GetCompactionStateWithPlans_rpc _ => coordinator_response r
    | GetFlushState_rpc _ => coordinator_response r
    | DeleteCredential_rpc _ => coordinator_status r
    | GetCurUserFromContext => current_user r
    | OperatePrivilege_rpc _ => coordinator_status r
    | SelectGrant_rpc _ => coordinator_response r
    | session => registered r
    end.

End Replies.

(** ** More example data *)

Module Cases.

(** The tasks complete: the insert with a failed batch, the description of
    the index with a result that has no status. *)
Definition completed (R : Type) (t : @Task unit R) : option R :=
  match t in Task R return option R with
  | insertTask _ =>
      Some (mkMutationResult
              (Some (mkStatus ErrorCode_UnexpectedError "duplicate key"))
              [1] 0 tt)
  | describeIndexTask _ => Some (mkResponse None tt)
  | _ => None
  end.

Definition timeout : error := errors_New "context deadline exceeded".

(** A healthy proxy whose queues accept and whose waits fail. *)
Definition failing : @Answers unit :=
  mkAnswers (Some StateCode_Healthy) (Some 7) None (Some timeout) completed 5
    true None (fun _ => Example.unhealthy_coordinator).

(** A healthy proxy whose tasks complete as in [completed]. *)
Definition completing : @Answers unit :=
  mkAnswers (Some StateCode_Healthy) (Some 7) None None completed 5 true None
    (fun _ => Example.unhealthy_coordinator).

(** A healthy proxy whose tasks end without a result. *)
Definition empty_handed : @Answers unit :=
  mkAnswers (Some StateCode_Healthy) (Some 7) None None (fun _ _ => None) 5
    true None (fun _ => Example.unhealthy_coordinator).

(** The coordinators of a healthy proxy: the root coordinator cannot be
    reached, the query coordinator reports itself unhealthy, the others
    are healthy. *)
Definition coordinators (c : Coord)
  : option CheckHealthResponse * option error :=
  match c with
  | rootCoord => (None, Some timeout)
  | queryCoord =>
      (Some (mkCheckHealthResponse false ["querynode 3 is down"]), None)
  | _ => (Some (mkCheckHealthResponse true []), None)
  end.

Definition checking : @Answers unit :=
  mkAnswers (Some StateCode_Healthy) (Some 7) None None completed 5 true None
    coordinators.

(** The result field of a task is nil until the task has run: the answers
    of [Example.serving], with a nil result at the positions before [k]. *)
Definition merged_from (k : nat) : @Env unit :=
  fun n X c =>
    match c in Call X return X -> X with
    | result _ => fun r => if (n <? k)%nat then None else r
    | _ => fun x => x
    end (answer Example.serving n X c).

Definition ids : VectorIDs unit := mkVectorIDs "books" "embedding" [] tt.

(** The parsers of [Dummy] on a query request. *)
Definition parseDummyRequestType (s : string) : option string * option error :=
  (Some "query", None).

Definition parseDummyQueryRequest (s : string)
  : option dummyQueryRequest * option error :=
  (Some (mkDummyQueryRequest "db" "books" [] []), None).

(** Constants and validators of the second part. *)
Definition MsgType_ShowCollections : MsgType := MsgType_Other 1.
Definition MsgType_ShowPartitions : MsgType := MsgType_Other 2.
Definition MsgType_SystemInfo : MsgType := MsgType_Other 3.
Definition MsgType_GetReplicas : MsgType := MsgType_Other 4.
Definition ErrorCode_IllegalArgument : ErrorCode := ErrorCode_Other 5.
Definition ErrorCode_DeleteCredentialFailure : ErrorCode := ErrorCode_Other 6.
Definition NotRegisteredID : Z := -1.
Definition UserRoot : string := "root".

Definition nonempty (what : string) (s : string) : option error :=
  if String.eqb s "" then Some (errors_New (String.append what " is empty"))
  else None.

Definition UnhealthyStatus (code : StateCode) : commonpb_Status :=
  mkStatus ErrorCode_UnexpectedError "proxy not healthy".

Definition partitions (name : string) : option (Z * option error) :=
  if String.eqb name "2021" then Some (1, None)
  else if String.eqb name "2022" then Some (2, None)
  else Some (0, Some (errors_New "partition not found")).

Definition partition_number (name : string) : Z :=
  if String.eqb name "2021" then 1 else 2.

(** A healthy proxy, a known collection with two partitions loaded to 100
    and 51 percent, coordinators that answer. *)
Definition loading : @Replies unit :=
  mkReplies Example.serving (Some (42, None)) partitions
    (Some (mkShowResponse None [80]), None)
    (Some (mkShowResponse None [100; 51]), None)
    (Some (mkResponse (Some (mkStatus ErrorCode_Success "")) tt), None)
    (Some (mkStatus ErrorCode_Success ""), None)
    ("alice", None) (Some (true, 7)).

(** The same with coordinators that cannot be reached. *)
Definition unreachable : @Replies unit :=
  mkReplies Example.serving (Some (42, None)) partitions
    (None, Some timeout) (None, Some timeout) (None, Some timeout)
    (None, Some timeout) ("alice", None) (Some (true, 7)).

(** A healthy proxy whose metadata cache is nil. *)
Definition cacheless : @Replies unit :=
  mkReplies Example.serving None (fun _ => None)
    (None, Some timeout) (None, Some timeout) (None, Some timeout)
    (None, Some timeout) ("alice", None) (Some (true, 7)).

(** The same on a proxy that is not healthy. *)
Definition stopped : @Replies unit :=
  mkReplies Example.abnormal (Some (42, None)) partitions
    (None, Some timeout) (None, Some timeout) (None, Some timeout)
    (None, Some timeout) ("alice", None) None.

Definition base : MsgBase := mkMsgBase MsgType_Undefined 9 1000 3.

Definition by_partition : GetLoadingProgressRequest :=
  mkGetLoadingProgressRequest (Some base) "books" ["2021"; "2022"].

Definition by_missing_partition : GetLoadingProgressRequest :=
  mkGetLoadingProgressRequest (Some base) "books" ["2021"; "2023"; "2022"].

Definition by_collection : GetLoadingProgressRequest :=
  mkGetLoadingProgressRequest None "books" [].

(** A grant of a privilege as a caller sends it, naming another user as
    grantor. *)
Definition grant : GrantEntity :=
  mkGrantEntity (Some "reader") (Some "Collection") "books"
    (Some (mkGrantorEntity (Some "mallory") (Some "Search"))).

End Cases.

(** * Facts *)

Local Open Scope list_scope.

(** ** The failed-row index slice *)

Lemma fill_spec (fuel : nat) :
  forall (i numRows : Z) (errIndex : list Z),
    0 <= i <= numRows -> numRows < 2 ^ 32 ->
    length errIndex = Z.to_nat numRows ->
    (Z.to_nat (numRows - i) < fuel)%nat ->
    fill fuel i numRows errIndex =
      take (Z.to_nat i) errIndex
        ++ map Z.of_nat (seq (Z.to_nat i) (Z.to_nat (numRows - i))).
Proof.
  induction fuel as [|fuel IH]; intros i n l Hi Hn Hlen Hfuel; [lia|].
  cbn [fill]. destruct (Z.ltb_spec i n) as [Hlt|Hge].
  - rewrite Z.mod_small by lia.
    rewrite IH; [| lia | lia | by rewrite length_insert | lia].
    replace (Z.to_nat (i + 1)) with (S (Z.to_nat i)) by lia.
    rewrite (take_S_r _ _ i) by (apply list_lookup_insert_eq; lia).
    rewrite take_insert_ge by lia.
    replace (Z.to_nat (n - i)) with (S (Z.to_nat (n - (i + 1)))) by lia.
    cbn [seq map]. rewrite Z2Nat.id by lia. by rewrite <- app_assoc.
  - replace (n - i) with 0 by lia. cbn [Z.to_nat seq map].
    rewrite app_nil_r, take_ge; [done | lia].
Qed.

Lemma all_rows_seq (numRows : Z) :
  0 <= numRows < 2 ^ 32 ->
  all_rows numRows = map Z.of_nat (seq 0 (Z.to_nat numRows)).
Proof.
  intros H. unfold all_rows.
  rewrite fill_spec; try lia.
  - cbn [Z.to_nat take app]. by rewrite Z.sub_0_r.
  - unfold make_uint32. by rewrite repeat_length.
Qed.

(** More fuel does not change the slice: the loop has stopped. *)
Lemma all_rows_fuel (numRows : Z) (extra : nat) :
  0 <= numRows < 2 ^ 32 ->
  fill (S (Z.to_nat numRows) + extra) 0 numRows (make_uint32 numRows)
  = all_rows numRows.
Proof.
  intros H. unfold all_rows.
  rewrite !fill_spec; try lia; try done; unfold make_uint32;
    by rewrite repeat_length.
Qed.

Lemma all_rows_length (numRows : Z) :
  0 <= numRows < 2 ^ 32 ->
  Z.of_nat (length (all_rows numRows)) = numRows.
Proof.
  intros H. rewrite all_rows_seq by done.
  rewrite length_map, length_seq. lia.
Qed.

Lemma all_rows_lookup (numRows i : Z) :
  0 <= numRows < 2 ^ 32 -> 0 <= i < numRows ->
  all_rows numRows !! Z.to_nat i = Some i.
Proof.
  intros H Hi. rewrite all_rows_seq by done.
  rewrite list_lookup_fmap, lookup_seq_lt by lia. cbn. f_equal. lia.
Qed.

Lemma all_rows_elem (numRows i : Z) :
  0 <= numRows < 2 ^ 32 ->
  i ∈ all_rows numRows <-> 0 <= i < numRows.
Proof.
  intros H. rewrite all_rows_seq by done. rewrite list_elem_of_fmap.
  split.
  - intros (k & -> & Hk). apply elem_of_seq in Hk. lia.
  - intros Hi. exists (Z.to_nat i). split; [lia|]. apply elem_of_seq. lia.
Qed.

(** ** Running a handler *)

Section ProxyFacts.

Context {Opaque : Type} (zero : Opaque) (Params : ParamTable).
Context {Size_InsertRequest : ProtoMessage (InsertRequest Opaque)}.
Context {Size_DeleteRequest : ProtoMessage DeleteRequest}.
Context {Size_SearchRequest : ProtoMessage (SearchRequest Opaque)}.
Context {Size_QueryRequest : ProtoMessage QueryRequest}.
Context {Size_SearchResults : ProtoMessage (SearchResults Opaque)}.
Context {Size_QueryResults : ProtoMessage (QueryResults Opaque)}.

(** Replace the answers to calls that return nothing by [tt]. *)
Ltac unit_answers :=
  repeat match goal with
  | |- context [?env ?n unit ?c] => is_var env; destruct (env n unit c)
  end.

(** Case analysis on the next answer that the run inspects. *)
Ltac next_answer :=
  match goal with
  | |- context [match ?env ?n ?X ?c with _ => _ end] =>
      is_var env; destruct (env n X c) eqn:?
  end.

Ltac start_run :=
  unfold run, serve;
  cbn -[all_rows defaultPartition newInsertTask newSearchTask newQueryTask].

(** X25.  A proxy that is not healthy answers every task-based handler
    but [Flush] with [unhealthyStatus] and a nil Go error, and hands no task
    to the scheduler. *)
Lemma unhealthy_reply (env : Env) (h : Handler) (request : Req h)
    (code : StateCode) :
  code <> StateCode_Healthy ->
  (forall n, env n _ stateCode_Load = Some code) ->
  h <> hFlush ->
  reply (fst (run env (serve zero Params h request)))
    = Some (Some unhealthyStatus, None)
  /\ omap enqueue_answer (snd (run env (serve zero Params h request))) = [].
Proof.
  intros Hcode Hload Hflush.
  destruct h; try congruence; start_run; rewrite Hload; cbn;
    destruct code; try congruence; cbn; unit_answers; done.
Qed.

(** C2.  [Flush] answers an unhealthy proxy with a reason of its own,
    which is not the reason of [unhealthyStatus]; no call is made besides
    the load of the state code. *)
Theorem Flush_unhealthy_reason (env : Env) (request : Opaque)
    (code : StateCode) :
  code <> StateCode_Healthy ->
  (forall n, env n _ stateCode_Load = Some code) ->
  run env (Flush zero Params request)
    = (Returned
         (Some (mkResponse
                  (Some (mkStatus ErrorCode_UnexpectedError
                           "proxy is not healthy")) zero), None),
       [Ev stateCode_Load (Some code)])
  /\ reply (h := hFlush) (fst (run env (Flush zero Params request)))
       <> Some (Some unhealthyStatus, None).
Proof.
  intros Hcode Hload. start_run. rewrite Hload. cbn.
  destruct code; try congruence; cbn; split; try done; discriminate.
Qed.

(** [CalcDistance] answers an unhealthy proxy like the others, whatever
    [Execute] does. *)
Lemma CalcDistance_unhealthy (env : Env) Execute (request : Opaque)
    (code : StateCode) :
  code <> StateCode_Healthy ->
  (forall n, env n _ stateCode_Load = Some code) ->
  run env (CalcDistance zero Params Execute request)
    = (Returned (Some (mkResponse (Some unhealthyStatus) zero), None),
       [Ev stateCode_Load (Some code)]).
Proof.
  intros Hcode Hload. start_run. rewrite Hload. cbn.
  destruct code; try congruence; done.
Qed.

(** C3.  When [Enqueue] returns an error, the handler replies with the
    status [UnexpectedError] whose reason is the message of that error, and
    with a nil Go error; the task was handed to the handler's queue once and
    [WaitToFinish] was never called. *)
Theorem enqueue_error_reply (env : Env) (h : Handler) (request : Req h)
    (err : error) :
  (forall n, env n _ stateCode_Load = Some StateCode_Healthy) ->
  (forall n R q (t : Task R), env n _ (Enqueue q t) = Some err) ->
  reply (fst (run env (serve zero Params h request)))
    = Some (Some (mkStatus ErrorCode_UnexpectedError (Error err)), None)
  /\ omap enqueue_answer (snd (run env (serve zero Params h request)))
       = [(queue_of h, Some err)]
  /\ omap wait_answer (snd (run env (serve zero Params h request))) = [].
Proof.
  intros Hload Henq.
  destruct h; start_run; rewrite Hload; cbn -[all_rows defaultPartition newInsertTask];
    unit_answers; cbn -[all_rows defaultPartition newInsertTask]; rewrite Henq; cbn -[all_rows defaultPartition newInsertTask];
    unit_answers; done.
Qed.

(** C8.  On an unhealthy proxy, [Delete], [Search] and [Query] have
    already added the cost of the request to the rate collector and to the
    receive-bytes counter when they load the state code, while [Insert]
    loads the state code first and adds nothing. *)
Theorem ingress_accounting_and_health_check (env : Env) (code : StateCode)
    (ins : InsertRequest Opaque) (del : DeleteRequest)
    (srch : SearchRequest Opaque) (qry : QueryRequest) :
  code <> StateCode_Healthy ->
  (forall n, env n _ stateCode_Load = Some code) ->
  snd (run env (Delete zero Params del))
    = [Ev (rateCol_Add (RateType_String RateType_DMLDelete) (proto_Size del)) tt;
       Ev (Counter_Add ProxyReceiveBytes [NID Params; DeleteLabel]
             (proto_Size del)) tt;
       Ev stateCode_Load (Some code)]
  /\ snd (run env (Search Params srch))
    = [Ev (Counter_Add ProxyReceiveBytes [NID Params; SearchLabel]
             (proto_Size srch)) tt;
       Ev (rateCol_Add (RateType_String RateType_DQLSearch) (Nq srch)) tt;
       Ev stateCode_Load (Some code)]
  /\ snd (run env (Query Params qry))
    = [Ev (Counter_Add ProxyReceiveBytes [NID Params; QueryLabel]
             (proto_Size qry)) tt;
       Ev (rateCol_Add (RateType_String RateType_DQLQuery) 1) tt;
       Ev stateCode_Load (Some code)]
  /\ snd (run env (Insert zero Params ins)) = [Ev stateCode_Load (Some code)]
  /\ omap accounting (snd (run env (Insert zero Params ins))) = [].
Proof.
  intros Hcode Hload.
  repeat split; start_run; rewrite Hload; cbn;
    destruct code; try congruence; cbn; unit_answers; done.
Qed.

(** C10.  On a healthy proxy [Insert] hands exactly one task to the DML
    queue; its partition name is the configured default when the request's
    is empty and the request's otherwise, and its other fields are the
    request's. *)
Theorem Insert_default_partition (env : Env) (request : InsertRequest Opaque) :
  (forall n, env n _ stateCode_Load = Some StateCode_Healthy) ->
  exists it : BaseInsertTask Opaque,
    omap enqueued_insertTask (snd (run env (Insert zero Params request)))
      = [(dmQueue, it)]
    /\ PartitionName it
       = (if String.eqb (Ins_PartitionName request) ""
          then DefaultPartitionName Params
          else Ins_PartitionName request)
    /\ It_CollectionName it = Ins_CollectionName request
    /\ It_FieldsData it = Ins_FieldsData request
    /\ NumRows it = Ins_NumRows request.
Proof.
  intros Hload.
  exists (defaultPartition Params (newInsertTask Params request)).
  split.
  - start_run. rewrite Hload. cbn -[all_rows defaultPartition].
    unit_answers. cbn -[all_rows defaultPartition].
    repeat (first [next_answer | case_match];
            cbn -[all_rows defaultPartition]; unit_answers;
            cbn -[all_rows defaultPartition]); done.
  - unfold defaultPartition, newInsertTask. cbn.
    destruct (Ins_PartitionName request) as [|a s]; cbn; [done|].
    destruct (Z.leb_spec (Z.pos (Pos.of_succ_nat (String.length s))) 0);
      [lia | done].
Qed.

(** C5.  When a [Search] or a [Query] completes (the task was accepted,
    the wait returned no error and from then on the task holds a result),
    the handler reads the result of its task after the wait has returned,
    and the last two calls before it returns add the size of the result it
    read to the send-bytes counter and to the read-result throughput of the
    rate collector.  Nothing is assumed about the result slot before the
    wait. *)
Theorem result_size_accounted (env : Env)
    (srch : SearchRequest Opaque) (qry : QueryRequest)
    (sres : SearchResults Opaque) (qres : QueryResults Opaque) :
  (forall n, env n _ stateCode_Load = Some StateCode_Healthy) ->
  (forall n R q (t : Task R), env n _ (Enqueue q t) = None) ->
  (forall n R (t : Task R), env n _ (WaitToFinish t) = None) ->
  (forall n, waited (snd (run env (Search Params srch))) n = true ->
             env n _ (result (newSearchTask Params srch)) = Some sres) ->
  (forall n, waited (snd (run env (Query Params qry))) n = true ->
             env n _ (result (newQueryTask Params qry)) = Some qres) ->
  (fst (run env (Search Params srch)) = Returned (Some sres, None)
   /\ exists pre,
       snd (run env (Search Params srch))
         = pre ++ [Ev (Counter_Add ProxyReadReqSendBytes [NID Params]
                         (proto_Size sres)) tt;
                   Ev (rateCol_Add ReadResultThroughput (proto_Size sres)) tt]
       /\ omap wait_answer pre = [None]
       /\ omap accounting pre
          = [ReceiveBytes [NID Params; SearchLabel] (proto_Size srch);
             rateCol (RateType_String RateType_DQLSearch) (Nq srch)]
       /\ exists before after,
           pre = before
                 ++ Ev (result (newSearchTask Params srch)) (Some sres)
                 :: after
           /\ In (Ev (WaitToFinish (newSearchTask Params srch)) None) before
           /\ omap wait_answer after = [])
  /\ (fst (run env (Query Params qry))
        = Returned (Some (mkQueryResults (Qry_Status qres) (FieldsData qres) ""),
                    None)
      /\ exists pre,
          snd (run env (Query Params qry))
            = pre ++ [Ev (rateCol_Add ReadResultThroughput (proto_Size qres)) tt;
                      Ev (Counter_Add ProxyReadReqSendBytes [NID Params]
                            (proto_Size qres)) tt]
          /\ omap wait_answer pre = [None]
          /\ omap accounting pre
             = [ReceiveBytes [NID Params; QueryLabel] (proto_Size qry);
                rateCol (RateType_String RateType_DQLQuery) 1]
          /\ exists before after,
              pre = before
                    ++ Ev (result (newQueryTask Params qry)) (Some qres)
                    :: after
              /\ In (Ev (WaitToFinish (newQueryTask Params qry)) None) before
              /\ omap wait_answer after = []).
Proof.
  intros Hload Henq Hwait Hsres Hqres.
  split; [clear Hqres; rename Hsres into Hres | clear Hsres; rename Hqres into Hres];
    unfold waited in Hres; revert Hres;
    start_run; unit_answers; rewrite Hload; cbn; unit_answers;
    rewrite Henq; cbn; rewrite Hwait; cbn; unit_answers;
    match goal with
    | |- context [env ?n ?X (result ?t)] =>
        destruct (env n X (result t)) as [res|] eqn:E; cbn; unit_answers;
        cbn; unit_answers; intros Hres; specialize (Hres n);
        rewrite E in Hres; cbn in Hres; specialize (Hres eq_refl);
        [|discriminate Hres]; injection Hres as ->
    end.
  all: split; [done|].
  all: match goal with
       | |- exists pre, ?tr = pre ++ _ /\ _ =>
           exists (removelast (removelast tr))
       end; cbn.
  all: split; [done|]; split; [done|]; split; [done|].
  - eexists [_; _; _; _; _; _; _; _; _], _.
    split; [reflexivity|]. split; [|done].
    cbn. do 5 right. by left.
  - eexists [_; _; _; _; _; _; _; _; _; _; _; _; _], _.
    split; [reflexivity|]. split; [|done].
    cbn. do 5 right. by left.
Qed.

(** ** [Insert] when the mutation fails *)

(** C1.  When the DML queue rejects the task, [Insert] returns the
    response of [constructFailedResponse]: every row index is in
    [ErrIndex], and [InsertCnt] is left at zero, not at the number of rows
    of the request. *)
Theorem Insert_rejected_InsertCnt (env : Env) (request : InsertRequest Opaque)
    (err : error) :
  0 <= Ins_NumRows request < 2 ^ 32 ->
  (forall n, env n _ stateCode_Load = Some StateCode_Healthy) ->
  (forall n R q (t : Task R), env n _ (Enqueue q t) = Some err) ->
  fst (run env (Insert zero Params request))
    = Returned
        (Some (mkMutationResult
                 (Some (mkStatus ErrorCode_UnexpectedError (Error err)))
                 (map Z.of_nat (seq 0 (Z.to_nat (Ins_NumRows request))))
                 0 zero),
         None).
Proof.
  intros Hrows Hload Henq. start_run. rewrite Hload. cbn -[all_rows defaultPartition newInsertTask].
  unit_answers. cbn -[all_rows defaultPartition newInsertTask]. rewrite Henq. cbn -[all_rows defaultPartition newInsertTask].
  unit_answers. unfold constructFailedResponse.
  by rewrite all_rows_seq.
Qed.

(** The same response when the wait for the task returns an error. *)
Lemma Insert_wait_failed (env : Env) (request : InsertRequest Opaque)
    (err : error) :
  0 <= Ins_NumRows request < 2 ^ 32 ->
  (forall n, env n _ stateCode_Load = Some StateCode_Healthy) ->
  (forall n R q (t : Task R), env n _ (Enqueue q t) = None) ->
  (forall n R (t : Task R), env n _ (WaitToFinish t) = Some err) ->
  fst (run env (Insert zero Params request))
    = Returned
        (Some (mkMutationResult
                 (Some (mkStatus ErrorCode_UnexpectedError (Error err)))
                 (map Z.of_nat (seq 0 (Z.to_nat (Ins_NumRows request))))
                 0 zero),
         None).
Proof.
  intros Hrows Hload Henq Hwait. start_run. rewrite Hload. cbn -[all_rows defaultPartition newInsertTask].
  unit_answers. cbn -[all_rows defaultPartition newInsertTask]. rewrite Henq. cbn -[all_rows defaultPartition newInsertTask].
  rewrite Hwait. cbn -[all_rows defaultPartition newInsertTask].
  unit_answers. unfold constructFailedResponse.
  by rewrite all_rows_seq.
Qed.

(** When the task completes with a status other than [Success], every row
    index is in [ErrIndex] and [InsertCnt] is the number of rows. *)
Lemma Insert_status_failed (env : Env) (request : InsertRequest Opaque)
    (res : MutationResult Opaque) (st : commonpb_Status) :
  0 <= Ins_NumRows request < 2 ^ 32 ->
  (forall n, env n _ stateCode_Load = Some StateCode_Healthy) ->
  (forall n R q (t : Task R), env n _ (Enqueue q t) = None) ->
  (forall n R (t : Task R), env n _ (WaitToFinish t) = None) ->
  (forall n, env n _ (result (insertTask
                            (defaultPartition Params
                               (newInsertTask Params request))))
             = Some res) ->
  Mut_Status res = Some st ->
  ErrorCode_of st <> ErrorCode_Success ->
  fst (run env (Insert zero Params request))
    = Returned
        (Some (mkMutationResult (Some st)
                 (map Z.of_nat (seq 0 (Z.to_nat (Ins_NumRows request))))
                 (Ins_NumRows request) (Mut_rest res)),
         None).
Proof.
  intros Hrows Hload Henq Hwait Hres Hst Hcode. start_run.
  rewrite Hload. cbn -[all_rows defaultPartition newInsertTask]. unit_answers. cbn -[all_rows defaultPartition newInsertTask].
  rewrite Henq. cbn -[all_rows defaultPartition newInsertTask]. rewrite Hwait. cbn -[all_rows defaultPartition newInsertTask].
  rewrite Hres. cbn -[all_rows defaultPartition newInsertTask]. rewrite Hst. cbn -[all_rows defaultPartition newInsertTask].
  unit_answers. cbn -[all_rows defaultPartition newInsertTask]. unit_answers. cbn -[all_rows defaultPartition newInsertTask].
  destruct (ErrorCode_of st) eqn:E; try congruence; cbn -[all_rows defaultPartition newInsertTask];
    by rewrite all_rows_seq.
Qed.

(** ** [InvalidateCollectionMetaCache] *)

(** C6.  The push is answered with [Success] in every case; the name is
    removed from the metadata cache when there is a cache and the name is
    not empty, the ID when there is a cache and the ID is not zero; the DML
    stream and the four per-collection metric series are removed exactly
    when the message type of the push is [DropCollection]. *)
Theorem InvalidateCollectionMetaCache_effects (env : @Env Opaque)
    (request : InvalidateCollMetaCacheRequest) :
  let name := Inv_CollectionName request in
  let id := Inv_CollectionID request in
  let nid := FormatInt (GetNodeID Params) in
  fst (run env (InvalidateCollectionMetaCache Params request))
    = Returned (Some (mkStatus ErrorCode_Success ""), None)
  /\ omap teardown (snd (run env (InvalidateCollectionMetaCache Params request)))
     = (if env 0%nat _ globalMetaCache_present
        then (if String.eqb name "" then [] else [cache_RemoveCollection name])
             ++ (if id =? 0 then [] else [cache_RemoveCollectionsByID id])
        else [])
       ++ (if MsgType_eqb (GetMsgType (Inv_Base request)) MsgType_DropCollection
           then [chMgr_removeDMLStream id;
                 metrics_Delete ProxyCollectionSQLatency
                   [(nodeIDLabelName, nid); (queryTypeLabelName, SearchLabel);
                    (collectionName, collection_ name)];
                 metrics_Delete ProxyCollectionSQLatency
                   [(nodeIDLabelName, nid); (queryTypeLabelName, QueryLabel);
                    (collectionName, collection_ name)];
                 metrics_Delete ProxyCollectionMutationLatency
                   [(nodeIDLabelName, nid); (msgTypeLabelName, InsertLabel);
                    (collectionName, collection_ name)];
                 metrics_Delete ProxyCollectionMutationLatency
                   [(nodeIDLabelName, nid); (msgTypeLabelName, DeleteLabel);
                    (collectionName, collection_ name)]]
           else []).
Proof.
  intros name id nid. subst name id nid. start_run.
  destruct (env 0%nat bool globalMetaCache_present);
    destruct (Inv_CollectionName request =? "")%string;
    destruct (Inv_CollectionID request =? 0);
    destruct (MsgType_eqb (GetMsgType (Inv_Base request)) MsgType_DropCollection);
    cbn; unit_answers; cbn; done.
Qed.

(** ** [SetRates] *)

(** C7.  A healthy proxy forwards the rates to the rate limiter once and
    answers [Success] exactly when the update returns no error, and the
    status [UnexpectedError] with the message of the error otherwise; an
    unhealthy proxy answers with [unhealthyStatus] and makes no call on the
    rate limiter.  The Go error is nil in every case. *)
Theorem SetRates_reply (env : Env) (rates : list Opaque) (code : StateCode) :
  env 0%nat _ stateCode_Load = Some code ->
  (code = StateCode_Healthy ->
     omap setRates_call (snd (run env (SetRates rates))) = [rates]
     /\ exists st,
         fst (run env (SetRates rates)) = Returned (Some st, None)
         /\ (ErrorCode_of st = ErrorCode_Success
             <-> env 1%nat _ (setRates rates) = None)
         /\ (forall err, env 1%nat _ (setRates rates) = Some err ->
               st = mkStatus ErrorCode_UnexpectedError (Error err)))
  /\ (code <> StateCode_Healthy ->
        omap setRates_call (snd (run env (SetRates rates))) = []
        /\ fst (run env (SetRates rates))
           = Returned (Some unhealthyStatus, None)).
Proof.
  intros Hload. start_run. rewrite Hload. cbn. split.
  - intros ->. cbn. destruct (env 1%nat _ (setRates rates)) as [err|]; cbn.
    + split; [done|]. eexists. split; [done|]. cbn.
      split; [split; discriminate|]. by intros ? [= <-].
    + split; [done|]. eexists. split; [done|]. cbn.
      split; [done | discriminate].
  - intros Hcode. destruct code; try congruence; done.
Qed.

(** ** [CheckHealth] *)

(** Running [p] and then [k] is running [k] on what [p] returned. *)
Lemma run_from_bind {A B : Type} (env : @Env Opaque) (p : Prog A)
    (k : A -> Prog B) :
  forall tr,
    run_from env tr (bind p k)
    = match run_from env tr p with
      | (Returned a, tr') => run_from env tr' (k a)
      | (Panicked, tr') => (Panicked, tr')
      end.
Proof.
  induction p as [a| |X c k' IH]; intros tr; cbn; [done | done | apply IH].
Qed.

Variable UnHealthReason : string -> Z -> string -> string.

(** Coordinators that report themselves unhealthy without giving a reason
    leave [errReasons] empty. *)
Lemma group_Go_no_reasons (env : Env) (request : Opaque) (order : list Coord) :
  (forall n c, env n _ (Coord_CheckHealth c request)
               = (Some (mkCheckHealthResponse false []), None)) ->
  forall tr, exists tr',
    run_from env tr (group_Go order request [] None)
    = (Returned ([], None), tr').
Proof.
  intros Hcoord. induction order as [|c order IH]; intros tr; cbn.
  - by eexists.
  - rewrite Hcoord. cbn. apply IH.
Qed.

(** C9.  When the proxy is healthy and every coordinator answers without
    error that it is not healthy, giving no reason, [CheckHealth] reports
    [IsHealthy = true], in whatever order the four answers are handled. *)
Theorem CheckHealth_unhealthy_coordinators (env : Env) (request : Opaque)
    (order : list Coord) :
  (forall n, env n _ stateCode_Load = Some StateCode_Healthy) ->
  (forall n c, env n _ (Coord_CheckHealth c request)
               = (Some (mkCheckHealthResponse false []), None)) ->
  fst (run env (CheckHealth UnHealthReason order request))
    = Returned (Some (mkCheckHealthResponse true []), None).
Proof.
  intros Hload Hcoord. unfold run, CheckHealth.
  rewrite run_from_bind. cbn. rewrite Hload. cbn.
  rewrite run_from_bind.
  destruct (group_Go_no_reasons env request order Hcoord
              [Ev stateCode_Load (Some StateCode_Healthy)]) as [tr' ->].
  done.
Qed.

(** What [group_Go] leaves behind: no error and no reason exactly when it
    started with none and every coordinator's answer was quiet.  The
    [i]-th coordinator of [order] is asked by the call at position
    [length tr + i]. *)
Lemma group_Go_quiet (env : Env) (request : Opaque) (order : list Coord) :
  forall tr errReasons first,
    match fst (run_from env tr (group_Go order request errReasons first)) with
    | Returned (errReasons', first') =>
        (first' = None /\ errReasons' = [])
        <-> (first = None /\ errReasons = []
             /\ Forall quiet
                  (imap (fun i c =>
                           env (length tr + i)%nat _
                             (Coord_CheckHealth c request)) order))
    | Panicked => True
    end.
Proof.
  induction order as [|c order IH]; intros tr errReasons first; cbn.
  - split.
    + intros [-> ->]. repeat split. constructor.
    + by intros (-> & -> & _).
  - rewrite Nat.add_0_r.
    destruct (env (length tr) _ (Coord_CheckHealth c request))
      as [resp err] eqn:Hans.
    specialize (IH (tr ++ [Ev (Coord_CheckHealth c request) (resp, err)])).
    assert (Himap :
      imap ((fun i c => env (length tr + i)%nat _ (Coord_CheckHealth c request))
              ∘ S) order
      = imap (fun i c' =>
                env (length (tr ++ [Ev (Coord_CheckHealth c request) (resp, err)])
                     + i)%nat _ (Coord_CheckHealth c' request)) order).
    { apply imap_ext. intros i c' _. cbn. rewrite length_app. cbn.
      by replace (length tr + 1 + i)%nat with (length tr + S i)%nat by lia. }
    rewrite Himap. clear Himap.
    destruct err as [err|]; cbn.
    + specialize (IH (errReasons ++ [String.append "check health fail for " (role c)])
                    (match first with Some _ => first | None => Some err end)).
      destruct (fst (run_from _ _ _)) as [[r' f']|]; [|done].
      rewrite IH. split.
      * intros (Hf & Hr & _). by destruct first.
      * intros (_ & _ & Hq). apply Forall_cons in Hq as [[Hq _] _]. done.
    + destruct resp as [resp|]; cbn; [|done].
      destruct (IsHealthy resp) eqn:Hh; cbn.
      * specialize (IH errReasons (match first with Some _ => first | None => None end)).
        destruct (fst (run_from _ _ _)) as [[r' f']|]; [|done].
        rewrite IH. split.
        -- intros (Hf & -> & Hq). destruct first; [done|].
           split; [done|]. split; [done|]. apply Forall_cons. split; [|done].
           split; [done|]. exists resp. by split; [|left].
        -- intros (-> & -> & Hq). apply Forall_cons in Hq as [_ Hq]. done.
      * specialize (IH (errReasons ++ Reasons resp)
                      (match first with Some _ => first | None => None end)).
        destruct (fst (run_from _ _ _)) as [[r' f']|]; [|done].
        rewrite IH. split.
        -- intros (Hf & Hr & Hq). apply app_eq_nil in Hr as [-> Hr].
           destruct first; [done|].
           split; [done|]. split; [done|]. apply Forall_cons. split; [|done].
           split; [done|]. exists resp. by split; [|right].
        -- intros (-> & -> & Hq). apply Forall_cons in Hq as [Hq0 Hq].
           destruct Hq0 as (_ & resp' & [= <-] & [Hh'|Hr]); [congruence|].
           by rewrite Hr.
Qed.

(** What a healthy proxy reports: [IsHealthy] is true exactly when every
    coordinator answered without an RPC error and none of them added a
    reason; a coordinator that reports itself unhealthy counts only through
    its reasons.  (The run panics when a coordinator returns a nil response
    and a nil error.) *)
Lemma CheckHealth_IsHealthy (env : Env) (request : Opaque)
    (order : list Coord) :
  (forall n, env n _ stateCode_Load = Some StateCode_Healthy) ->
  match fst (run env (CheckHealth UnHealthReason order request)) with
  | Returned (Some resp, err) =>
      err = None
      /\ (IsHealthy resp = true
          <-> Forall quiet
                (imap (fun i c =>
                         env (S i) _ (Coord_CheckHealth c request)) order))
  | Returned (None, _) => False
  | Panicked => True
  end.
Proof.
  intros Hload. unfold run, CheckHealth.
  rewrite run_from_bind. cbn. rewrite Hload. cbn.
  rewrite run_from_bind.
  pose proof (group_Go_quiet env request order
                [Ev stateCode_Load (Some StateCode_Healthy)] [] None) as H.
  cbn in H.
  destruct (run_from env _ (group_Go order request [] None))
    as [[[errReasons first]|] tr']; cbn in *; [|done].
  destruct first as [e|]; cbn.
  - split; [done|]. split; [done|]. intros Hq.
    by destruct (proj2 H (conj eq_refl (conj eq_refl Hq))).
  - destruct errReasons as [|r rs]; cbn.
    + split; [done|]. split; [|done]. intros _. by apply H.
    + split; [done|]. split; [done|]. intros Hq.
      by destruct (proj2 H (conj eq_refl (conj eq_refl Hq))) as [_ ?].
Qed.

End ProxyFacts.

(** ** The scheduler queue *)

Section SchedulerFacts.

Context {P : Type}.
Variable AllocTimestamp : nat -> Z.
Variable AllocID : nat -> Z.

Local Abbreviation Enqueue := (TaskScheduler.Enqueue AllocTimestamp AllocID).
Local Abbreviation accepted := (TaskScheduler.accepted AllocTimestamp AllocID).

(** An accepted task is stamped with the next answers of the allocator,
    whatever ID and timestamp it was built with, and goes to the back of
    the queue. *)
Lemma Enqueue_accepts (q q' : TaskScheduler.Queue P)
    (t t' : TaskScheduler.Task P) (allow : bool) :
  Enqueue allow q t = (q', t', None) ->
  TaskScheduler.BeginTs t' = AllocTimestamp (TaskScheduler.reads q)
  /\ TaskScheduler.ID t' = AllocID (TaskScheduler.issued q)
  /\ TaskScheduler.payload t' = TaskScheduler.payload t
  /\ TaskScheduler.pending q' = TaskScheduler.pending q ++ [t']
  /\ TaskScheduler.reads q' = S (TaskScheduler.reads q).
Proof.
  unfold TaskScheduler.Enqueue.
  destruct (TaskScheduler.healthy q); cbn; [|discriminate].
  destruct allow; cbn; [|discriminate].
  by intros [= <- <-].
Qed.

(** A rejected task leaves the queue and the allocator untouched. *)
Lemma Enqueue_rejects (q q' : TaskScheduler.Queue P)
    (t t' : TaskScheduler.Task P) (allow : bool) (err : error) :
  Enqueue allow q t = (q', t', Some err) -> q' = q /\ t' = t.
Proof.
  unfold TaskScheduler.Enqueue.
  destruct (TaskScheduler.healthy q); cbn; [|by intros [= <- <-]].
  destruct allow; cbn; [discriminate | by intros [= <- <-]].
Qed.

(** The [k]-th task accepted from [q] on carries the [k]-th timestamp read
    from [q] on. *)
Lemma accepted_BeginTs (ops : list (@TaskScheduler.Op P)) :
  forall q : TaskScheduler.Queue P,
    map TaskScheduler.BeginTs (fst (accepted ops q))
    = map AllocTimestamp
        (seq (TaskScheduler.reads q) (length (fst (accepted ops q)))).
Proof.
  induction ops as [|op ops IH]; intros q; [done|].
  destruct op as [t allow| |b]; cbn [TaskScheduler.accepted].
  - destruct (Enqueue allow q t) as [[q' t'] [err|]] eqn:E.
    + apply Enqueue_rejects in E as [-> _]. apply IH.
    + apply Enqueue_accepts in E as (Hts & _ & _ & _ & Hreads).
      specialize (IH q'). destruct (accepted ops q') as [log q''].
      cbn in *. rewrite Hts, IH, Hreads. done.
  - specialize (IH (fst (TaskScheduler.Pop q))).
    unfold TaskScheduler.Pop in *.
    destruct (TaskScheduler.pending q); apply IH.
  - apply (IH (TaskScheduler.mkQueue _ _ _ _)).
Qed.

(** Likewise for the IDs. *)
Lemma accepted_ID (ops : list (@TaskScheduler.Op P)) :
  forall q : TaskScheduler.Queue P,
    map TaskScheduler.ID (fst (accepted ops q))
    = map AllocID
        (seq (TaskScheduler.issued q) (length (fst (accepted ops q)))).
Proof.
  induction ops as [|op ops IH]; intros q; [done|].
  destruct op as [t allow| |b]; cbn [TaskScheduler.accepted].
  - destruct (Enqueue allow q t) as [[q' t'] [err|]] eqn:E.
    + apply Enqueue_rejects in E as [-> _]. apply IH.
    + pose proof E as E'.
      apply Enqueue_accepts in E as (_ & Hid & _ & _ & _).
      assert (TaskScheduler.issued q' = S (TaskScheduler.issued q)) as Hiss.
      { unfold TaskScheduler.Enqueue in E'.
        destruct (TaskScheduler.healthy q); [|discriminate].
        destruct allow; [|discriminate]. by injection E' as <- _. }
      specialize (IH q'). destruct (accepted ops q') as [log q''].
      cbn in *. rewrite Hid, IH, Hiss. done.
  - specialize (IH (fst (TaskScheduler.Pop q))).
    unfold TaskScheduler.Pop in *.
    destruct (TaskScheduler.pending q); apply IH.
  - apply (IH (TaskScheduler.mkQueue _ _ _ _)).
Qed.

(** The queue is first-in first-out: what is pending at the end is what is
    left, in the order of acceptance, of what was pending at the start
    followed by the accepted tasks. *)
Lemma pending_FIFO (ops : list (@TaskScheduler.Op P)) :
  forall q : TaskScheduler.Queue P,
    exists k : nat,
      TaskScheduler.pending (snd (accepted ops q))
      = drop k (TaskScheduler.pending q ++ fst (accepted ops q)).
Proof.
  induction ops as [|op ops IH]; intros q.
  - exists 0%nat. cbn. by rewrite app_nil_r.
  - destruct op as [t allow| |b]; cbn [TaskScheduler.accepted].
    + destruct (Enqueue allow q t) as [[q' t'] [err|]] eqn:E.
      * apply Enqueue_rejects in E as [-> _]. apply IH.
      * apply Enqueue_accepts in E as (_ & _ & _ & Hp & _).
        destruct (IH q') as [k Hk]. destruct (accepted ops q') as [log q''].
        cbn in *. exists k. by rewrite Hk, Hp, <- app_assoc.
    + destruct (IH (fst (TaskScheduler.Pop q))) as [k Hk].
      unfold TaskScheduler.Pop in *.
      destruct (TaskScheduler.pending q) as [|t rest] eqn:Hq; cbn in *.
      * exists k. by rewrite Hk, Hq.
      * by exists (S k).
    + apply (IH (TaskScheduler.mkQueue _ _ _ _)).
Qed.

(** What a lookup in a mapped list of allocator answers gives. *)
Lemma stamped_lookup (f : TaskScheduler.Task P -> Z) (alloc : nat -> Z)
    (log : list (TaskScheduler.Task P)) (k : nat) (t : TaskScheduler.Task P) :
  map f log = map alloc (seq 0 (length log)) ->
  log !! k = Some t -> f t = alloc k.
Proof.
  intros Hlog Hk.
  pose proof (lookup_lt_Some _ _ _ Hk) as Hlt.
  assert (map f log !! k = Some (f t)) as Hm
    by (by rewrite list_lookup_fmap, Hk).
  rewrite Hlog, list_lookup_fmap, lookup_seq_lt in Hm by done.
  cbn in Hm. congruence.
Qed.

(** C4.  Of two tasks accepted by one queue, the one accepted first
    carries an earlier read of the logical clock: its BeginTs is not above
    the other's when the clock never goes back, and strictly below when the
    two reads are distinct.  ID and BeginTs are the answers the allocator
    gave at acceptance, whatever the task was built with. *)
Theorem BeginTs_follows_admission (ops : list (@TaskScheduler.Op P))
    (i j : nat) (t1 t2 : TaskScheduler.Task P) :
  (forall a b, (a < b)%nat -> AllocTimestamp a <= AllocTimestamp b) ->
  (i < j)%nat ->
  fst (accepted ops TaskScheduler.empty) !! i = Some t1 ->
  fst (accepted ops TaskScheduler.empty) !! j = Some t2 ->
  (TaskScheduler.BeginTs t1 = AllocTimestamp i
   /\ TaskScheduler.ID t1 = AllocID i)
  /\ (TaskScheduler.BeginTs t2 = AllocTimestamp j
      /\ TaskScheduler.ID t2 = AllocID j)
  /\ TaskScheduler.BeginTs t1 <= TaskScheduler.BeginTs t2
  /\ (AllocTimestamp i <> AllocTimestamp j ->
      TaskScheduler.BeginTs t1 < TaskScheduler.BeginTs t2).
Proof.
  intros Hmono Hij H1 H2.
  pose proof (accepted_BeginTs ops TaskScheduler.empty) as Hts.
  pose proof (accepted_ID ops TaskScheduler.empty) as Hid.
  cbn in Hts, Hid.
  rewrite (stamped_lookup _ _ _ _ _ Hts H1), (stamped_lookup _ _ _ _ _ Hts H2).
  rewrite (stamped_lookup _ _ _ _ _ Hid H1), (stamped_lookup _ _ _ _ _ Hid H2).
  specialize (Hmono i j Hij). repeat split; try done. lia.
Qed.

End SchedulerFacts.

(** ** Witnesses *)

Section Witnesses.

#[local] Existing Instance Example.Size.

Lemma Insert_rejected_InsertCnt_witness :
  fst (run (answer Example.rejecting) (Insert tt Example.Params Example.insert))
  = Returned
      (Some (mkMutationResult
               (Some (mkStatus ErrorCode_UnexpectedError "queue is full"))
               [0; 1; 2] 0 tt),
       None).
Proof.
  refine (Insert_rejected_InsertCnt tt Example.Params
            (answer Example.rejecting) Example.insert
            (errors_New "queue is full") _ _ _).
  - cbn. lia.
  - reflexivity.
  - reflexivity.
Defined.

Lemma Flush_unhealthy_reason_witness :
  run (answer Example.abnormal) (Flush tt Example.Params tt)
    = (Returned
         (Some (mkResponse
                  (Some (mkStatus ErrorCode_UnexpectedError
                           "proxy is not healthy")) tt), None),
       [Ev stateCode_Load (Some StateCode_Abnormal)])
  /\ reply (h := hFlush)
       (fst (run (answer Example.abnormal) (Flush tt Example.Params tt)))
     <> Some (Some unhealthyStatus, None).
Proof.
  refine (Flush_unhealthy_reason tt Example.Params
            (answer Example.abnormal) tt StateCode_Abnormal _ _).
  - discriminate.
  - reflexivity.
Defined.

Lemma enqueue_error_reply_witness :
  reply (fst (run (answer Example.rejecting)
                (serve tt Example.Params hSearch Example.search)))
    = Some (Some (mkStatus ErrorCode_UnexpectedError "queue is full"), None)
  /\ omap enqueue_answer
       (snd (run (answer Example.rejecting)
               (serve tt Example.Params hSearch Example.search)))
     = [(dqQueue, Some (errors_New "queue is full"))]
  /\ omap wait_answer
       (snd (run (answer Example.rejecting)
               (serve tt Example.Params hSearch Example.search)))
     = [].
Proof.
  refine (enqueue_error_reply tt Example.Params (answer Example.rejecting)
            hSearch Example.search (errors_New "queue is full") _ _).
  - reflexivity.
  - reflexivity.
Defined.

Lemma BeginTs_follows_admission_witness :
  (fst (TaskScheduler.accepted Example.AllocTimestamp Example.AllocID
          Example.ops TaskScheduler.empty) !! 0%nat
     = Some (TaskScheduler.mkTask 100 0 0 tt)
   /\ fst (TaskScheduler.accepted Example.AllocTimestamp Example.AllocID
             Example.ops TaskScheduler.empty) !! 1%nat
     = Some (TaskScheduler.mkTask 101 10 0 tt))
  /\ (TaskScheduler.BeginTs (TaskScheduler.mkTask 100 0 0 tt) = 0
      /\ TaskScheduler.ID (TaskScheduler.mkTask 100 0 0 tt) = 100)
  /\ (TaskScheduler.BeginTs (TaskScheduler.mkTask 101 10 0 tt) = 10
      /\ TaskScheduler.ID (TaskScheduler.mkTask 101 10 0 tt) = 101)
  /\ TaskScheduler.BeginTs (TaskScheduler.mkTask 100 0 0 tt)
     <= TaskScheduler.BeginTs (TaskScheduler.mkTask 101 10 0 tt)
  /\ (Example.AllocTimestamp 0 <> Example.AllocTimestamp 1 ->
      TaskScheduler.BeginTs (TaskScheduler.mkTask 100 0 0 tt)
      < TaskScheduler.BeginTs (TaskScheduler.mkTask 101 10 0 tt)).
Proof.
  split; [split; reflexivity|].
  refine (BeginTs_follows_admission Example.AllocTimestamp Example.AllocID
            Example.ops 0 1 _ _ _ _ _ _).
  - intros a b Hab. unfold Example.AllocTimestamp. lia.
  - lia.
  - reflexivity.
  - reflexivity.
Defined.

Lemma result_size_accounted_witness :
  (fst (run (Cases.merged_from 6) (Search Example.Params Example.search))
     = Returned (Some Example.searchResults, None)
   /\ exists pre,
       snd (run (Cases.merged_from 6) (Search Example.Params Example.search))
         = pre ++ [Ev (Counter_Add ProxyReadReqSendBytes [FormatInt 7] 64) tt;
                   Ev (rateCol_Add ReadResultThroughput 64) tt]
       /\ omap wait_answer pre = [None]
       /\ omap accounting pre
          = [ReceiveBytes [FormatInt 7; SearchLabel] 64;
             rateCol (RateType_String RateType_DQLSearch) 2]
       /\ exists before after,
           pre = before
                 ++ Ev (result (newSearchTask Example.Params Example.search))
                      (Some Example.searchResults)
                 :: after
           /\ In (Ev (WaitToFinish
                        (newSearchTask Example.Params Example.search)) None)
                 before
           /\ omap wait_answer after = [])
  /\ (fst (run (Cases.merged_from 6) (Query Example.Params Example.query))
        = Returned (Some (mkQueryResults
                            (Some (mkStatus ErrorCode_Success "")) [tt] ""),
                    None)
      /\ exists pre,
          snd (run (Cases.merged_from 6) (Query Example.Params Example.query))
            = pre ++ [Ev (rateCol_Add ReadResultThroughput 64) tt;
                      Ev (Counter_Add ProxyReadReqSendBytes [FormatInt 7] 64) tt]
          /\ omap wait_answer pre = [None]
          /\ omap accounting pre
             = [ReceiveBytes [FormatInt 7; QueryLabel] 64;
                rateCol (RateType_String RateType_DQLQuery) 1]
          /\ exists before after,
              pre = before
                    ++ Ev (result (newQueryTask Example.Params Example.query))
                         (Some Example.queryResults)
                    :: after
              /\ In (Ev (WaitToFinish
                           (newQueryTask Example.Params Example.query)) None)
                    before
              /\ omap wait_answer after = []).
Proof.
  refine (result_size_accounted Example.Params (Cases.merged_from 6)
            Example.search Example.query
            Example.searchResults Example.queryResults _ _ _ _ _).
  - reflexivity.
  - reflexivity.
  - reflexivity.
  - intros n H.
    do 6 (destruct n as [|n]; [vm_compute in H; discriminate H|]).
    reflexivity.
  - intros n H.
    do 6 (destruct n as [|n]; [vm_compute in H; discriminate H|]).
    reflexivity.
Defined.

Lemma SetRates_reply_witness :
  (StateCode_Healthy = StateCode_Healthy ->
     omap setRates_call (snd (run (answer Example.serving) (SetRates [tt])))
       = [[tt]]
     /\ exists st,
         fst (run (answer Example.serving) (SetRates [tt]))
           = Returned (Some st, None)
         /\ (ErrorCode_of st = ErrorCode_Success
             <-> answer Example.serving 1%nat _ (setRates [tt]) = None)
         /\ (forall err,
               answer Example.serving 1%nat _ (setRates [tt]) = Some err ->
               st = mkStatus ErrorCode_UnexpectedError (Error err)))
  /\ (StateCode_Healthy <> StateCode_Healthy ->
        omap setRates_call (snd (run (answer Example.serving) (SetRates [tt])))
          = []
        /\ fst (run (answer Example.serving) (SetRates [tt]))
           = Returned (Some unhealthyStatus, None)).
Proof.
  refine (SetRates_reply (answer Example.serving) [tt] StateCode_Healthy _).
  reflexivity.
Defined.

Lemma ingress_accounting_and_health_check_witness :
  snd (run (answer Example.abnormal) (Delete tt Example.Params Example.delete))
    = [Ev (rateCol_Add (RateType_String RateType_DMLDelete) 64) tt;
       Ev (Counter_Add ProxyReceiveBytes [FormatInt 7; DeleteLabel] 64) tt;
       Ev stateCode_Load (Some StateCode_Abnormal)]
  /\ snd (run (answer Example.abnormal) (Search Example.Params Example.search))
    = [Ev (Counter_Add ProxyReceiveBytes [FormatInt 7; SearchLabel] 64) tt;
       Ev (rateCol_Add (RateType_String RateType_DQLSearch) 2) tt;
       Ev stateCode_Load (Some StateCode_Abnormal)]
  /\ snd (run (answer Example.abnormal) (Query Example.Params Example.query))
    = [Ev (Counter_Add ProxyReceiveBytes [FormatInt 7; QueryLabel] 64) tt;
       Ev (rateCol_Add (RateType_String RateType_DQLQuery) 1) tt;
       Ev stateCode_Load (Some StateCode_Abnormal)]
  /\ snd (run (answer Example.abnormal) (Insert tt Example.Params Example.insert))
    = [Ev stateCode_Load (Some StateCode_Abnormal)]
  /\ omap accounting
       (snd (run (answer Example.abnormal)
               (Insert tt Example.Params Example.insert)))
     = [].
Proof.
  refine (ingress_accounting_and_health_check tt Example.Params
            (answer Example.abnormal) StateCode_Abnormal
            Example.insert Example.delete Example.search Example.query _ _).
  - discriminate.
  - reflexivity.
Defined.

Lemma CheckHealth_unhealthy_coordinators_witness :
  fst (run (answer Example.serving)
         (CheckHealth Example.UnHealthReason Example.order tt))
    = Returned (Some (mkCheckHealthResponse true []), None).
Proof.
  refine (CheckHealth_unhealthy_coordinators Example.UnHealthReason
            (answer Example.serving) tt Example.order _ _);
    reflexivity.
Defined.

Lemma Insert_default_partition_witness :
  exists it : BaseInsertTask unit,
    omap enqueued_insertTask
      (snd (run (answer Example.serving)
              (Insert tt Example.Params Example.insert)))
      = [(dmQueue, it)]
    /\ PartitionName it = "_default"
    /\ It_CollectionName it = "books"
    /\ It_FieldsData it = []
    /\ NumRows it = 3.
Proof.
  refine (Insert_default_partition tt Example.Params
            (answer Example.serving) Example.insert _).
  reflexivity.
Defined.

End Witnesses.

(** * More facts *)

(** ** The task-based handlers *)

Section ProxyMoreFacts.

Context {Opaque : Type} (zero : Opaque) (Params : ParamTable).
Context {Size_InsertRequest : ProtoMessage (InsertRequest Opaque)}.
Context {Size_DeleteRequest : ProtoMessage DeleteRequest}.
Context {Size_SearchRequest : ProtoMessage (SearchRequest Opaque)}.
Context {Size_QueryRequest : ProtoMessage QueryRequest}.
Context {Size_SearchResults : ProtoMessage (SearchResults Opaque)}.
Context {Size_QueryResults : ProtoMessage (QueryResults Opaque)}.

Ltac units :=
  repeat match goal with
  | |- context [?env ?n unit ?c] => is_var env; destruct (env n unit c)
  | H : context [?env ?n unit ?c] |- _ => is_var env; destruct (env n unit c)
  end.

Ltac answer_case :=
  match goal with
  | |- context [match ?env ?n ?X ?c with _ => _ end] =>
      is_var env; destruct (env n X c) eqn:?
  | H : context [match ?env ?n ?X ?c with _ => _ end] |- _ =>
      is_var env; destruct (env n X c) eqn:?
  end.

Ltac simp :=
  cbn -[all_rows defaultPartition newInsertTask newSearchTask newQueryTask] in *.

Ltac unfold_run := unfold run, serve in *; simp.

(** Follow a run to its end, whatever the environment answers. *)
Ltac explore :=
  repeat (first [answer_case | case_match]; simp; units; simp).

(** X1.  When the wait for the task returns an error, every handler but
    [DescribeIndex] replies with the status [UnexpectedError] whose reason is
    the message of that error and with a nil Go error, after one [Enqueue]
    on its queue and one [WaitToFinish]. *)
Theorem wait_error_reply (env : Env) (h : Handler) (request : Req h)
    (err : error) :
  h <> hDescribeIndex ->
  (forall n, env n _ stateCode_Load = Some StateCode_Healthy) ->
  (forall n R q (t : Task R), env n _ (Enqueue q t) = None) ->
  (forall n R (t : Task R), env n _ (WaitToFinish t) = Some err) ->
  reply (fst (run env (serve zero Params h request)))
    = Some (Some (mkStatus ErrorCode_UnexpectedError (Error err)), None)
  /\ omap enqueue_answer (snd (run env (serve zero Params h request)))
       = [(queue_of h, None)]
  /\ omap wait_answer (snd (run env (serve zero Params h request)))
       = [Some err].
Proof.
  intros Hh Hload Henq Hwait.
  destruct h; try congruence; unfold_run; rewrite Hload; simp;
    units; simp; rewrite Henq; simp; rewrite Hwait; simp; units; done.
Qed.

(** X2.  In the same situation [DescribeIndex] takes the error code from
    the result of the task when the task has one: the code of its status,
    which is [Success] when the status is nil.  The reason is the message
    of the error. *)
Theorem DescribeIndex_wait_error_code (env : Env) (request : Opaque)
    (err : error) (res : option (Response Opaque)) :
  (forall n, env n _ stateCode_Load = Some StateCode_Healthy) ->
  (forall n R q (t : Task R), env n _ (Enqueue q t) = None) ->
  (forall n R (t : Task R), env n _ (WaitToFinish t) = Some err) ->
  (forall n, env n _ (result (describeIndexTask request)) = res) ->
  fst (run env (DescribeIndex zero Params request))
    = Returned
        (Some (mkResponse
                 (Some (mkStatus
                          (match res with
                           | Some r =>
                               match Status r with
                               | Some st => ErrorCode_of st
                               | None => ErrorCode_Success
                               end
                           | None => ErrorCode_UnexpectedError
                           end)
                          (Error err)))
                 zero),
         None).
Proof.
  intros Hload Henq Hwait Hres. unfold_run. rewrite Hload. simp.
  units. simp. rewrite Henq. simp. rewrite Hwait. simp. rewrite Hres.
  destruct res as [[[st|] b]|]; simp; units; done.
Qed.

(** X3.  A task-based handler never returns a Go error: whatever the
    environment answers, a run that returns returns a nil error. *)
Theorem no_Go_error (env : Env) (h : Handler) (request : Req h)
    (r : option (Resp h)) (e : option error) :
  fst (run env (serve zero Params h request)) = Returned (r, e) ->
  e = None.
Proof.
  destruct h; unfold_run; units; simp; explore;
    intros; simplify_eq; done.
Qed.

(** X4.  On a healthy proxy a run that returns has counted the call
    twice in [ProxyFunctionCall], under the method of the handler: once
    under [TotalLabel], then once under the label of its outcome, which is
    [AbandonLabel] when the queue rejected the task, [FailLabel] when the
    wait returned an error and [SuccessLabel] otherwise.  On an unhealthy
    proxy nothing is counted. *)
Theorem function_call_counts (env : Env) (h : Handler) (request : Req h)
    (code : StateCode) (out : option (Resp h) * option error) :
  (forall n, env n _ stateCode_Load = Some code) ->
  fst (run env (serve zero Params h request)) = Returned out ->
  omap function_call (snd (run env (serve zero Params h request)))
  = if StateCode_eqb code StateCode_Healthy
    then [([NID Params; method_ (method_of h); TotalLabel], 1);
          ([NID Params; method_ (method_of h);
            outcome_label
              (omap enqueue_answer (snd (run env (serve zero Params h request))))
              (omap wait_answer (snd (run env (serve zero Params h request))))],
           1)]
    else [].
Proof.
  intros Hload.
  destruct h; unfold_run; units; simp; rewrite Hload; simp;
    destruct code; simp; units; simp; explore; intros; simplify_eq; done.
Qed.

(** Close a goal on the position of a read of the result, given the
    calls before it. *)
Ltac read_after split_trace :=
  split_trace; split; [reflexivity|]; split; [simpl; tauto|]; split; done.

(** X5.  When the task was accepted and the wait returned no error, every
    handler but [Insert] and [Query] returns, with a nil Go error, what it
    reads last from the result field of the task it built, nil or not, and
    that read comes after the wait on that task.  The one run that panics is
    [ShowCollections] on a nil result, which its log dereferences right
    after the wait. *)
Theorem result_passed_through (env : Env) (h : Handler) (request : Req h) :
  h <> hInsert -> h <> hQuery ->
  (forall n, env n _ stateCode_Load = Some StateCode_Healthy) ->
  (forall n R q (t : Task R), env n _ (Enqueue q t) = None) ->
  (forall n R (t : Task R), env n _ (WaitToFinish t) = None) ->
  let t := task_of Params h request in
  let tr := snd (run env (serve zero Params h request)) in
  match fst (run env (serve zero Params h request)) with
  | Returned out =>
      exists before after x,
        tr = before ++ Ev (result t) x :: after
        /\ In (Ev (WaitToFinish t) None) before
        /\ filter is_result after = []
        /\ out = (x, None)
  | Panicked =>
      h = hShowCollections
      /\ exists before,
          tr = before ++ [Ev (result t) None]
          /\ In (Ev (WaitToFinish t) None) before
  end.
Proof.
  intros Hi Hq Hload Henq Hwait t tr. subst t tr.
  destruct h; try congruence; unfold_run; rewrite Hload; simp;
    units; simp; rewrite Henq; simp; rewrite Hwait; simp; units; simp;
    repeat match goal with
    | |- context [env ?n ?X (result ?t)] =>
        let r := fresh "r" in
        destruct (env n X (result t)) as [r|]; simp; units; simp
    end;
    first
      [ split; [done|]; eexists [_; _; _; _]; split; [done|];
        simpl; tauto
      | read_after ltac:(eexists [_; _; _; _; _; _; _], _, _)
      | read_after ltac:(eexists [_; _; _; _; _; _; _; _], _, _)
      | read_after ltac:(eexists [_; _; _; _; _; _; _; _; _], _, _)
      | read_after ltac:(eexists [_; _; _; _; _; _; _; _; _; _; _], _, _) ].
Qed.

(** X6.  The slice built by the loop of [constructFailedResponse] and of
    [setErrorIndex] has one entry per row, the entry at index [i] is [i],
    its members are exactly the row indices, and running the loop with more
    fuel gives the same slice. *)
Theorem ErrIndex_all_rows (numRows : Z) :
  0 <= numRows < 2 ^ 32 ->
  Z.of_nat (length (all_rows numRows)) = numRows
  /\ (forall i, 0 <= i < numRows -> all_rows numRows !! Z.to_nat i = Some i)
  /\ (forall i, i ∈ all_rows numRows <-> 0 <= i < numRows)
  /\ (forall extra,
        fill (S (Z.to_nat numRows) + extra) 0 numRows (make_uint32 numRows)
        = all_rows numRows).
Proof.
  intros H. split; [by apply all_rows_length|].
  split; [intros i Hi; by apply all_rows_lookup|].
  split; [intros i; by apply all_rows_elem|].
  intros extra. by apply all_rows_fuel.
Qed.

(** X7.  When the insert task completes with a result that has a status,
    [Insert] returns that result with [InsertCnt] set to the number of rows
    of the request and, when the status is not [Success], [ErrIndex]
    replaced by all row indices; it adds [InsertCnt - len(ErrIndex)] to
    [ProxyInsertVectors], which is zero for a failed batch. *)
Theorem Insert_completed (env : Env) (request : InsertRequest Opaque)
    (res : MutationResult Opaque) (st : commonpb_Status) :
  0 <= Ins_NumRows request < 2 ^ 32 ->
  (forall n, env n _ stateCode_Load = Some StateCode_Healthy) ->
  (forall n R q (t : Task R), env n _ (Enqueue q t) = None) ->
  (forall n R (t : Task R), env n _ (WaitToFinish t) = None) ->
  (forall n, env n _ (result (insertTask
                            (defaultPartition Params
                               (newInsertTask Params request))))
             = Some res) ->
  Mut_Status res = Some st ->
  let failed := negb (ErrorCode_eqb (ErrorCode_of st) ErrorCode_Success) in
  let errIndex :=
    if failed
    then map Z.of_nat (seq 0 (Z.to_nat (Ins_NumRows request)))
    else ErrIndex res in
  fst (run env (Insert zero Params request))
    = Returned
        (Some (mkMutationResult (Some st) errIndex (Ins_NumRows request)
                 (Mut_rest res)),
         None)
  /\ omap insert_vectors (snd (run env (Insert zero Params request)))
     = [Ins_NumRows request - Z.of_nat (length errIndex)]
  /\ (failed = true ->
      Ins_NumRows request - Z.of_nat (length errIndex) = 0).
Proof.
  intros Hrows Hload Henq Hwait Hres Hst failed errIndex.
  unfold_run. rewrite Hload. simp. units. simp.
  rewrite Henq. simp. rewrite Hwait. simp. rewrite Hres. simp.
  rewrite Hst. simp. units. simp. units. simp.
  subst failed errIndex.
  destruct (negb (ErrorCode_eqb (ErrorCode_of st) ErrorCode_Success)) eqn:E;
    simp; rewrite ?all_rows_seq by done.
  - repeat split; try done.
    intros _. rewrite length_map, length_seq. lia.
  - destruct res; simp; subst. repeat split; try done.
Qed.

(** X8.  When the task holds no result after a wait without error,
    [Search] returns the nil result with a nil error and adds nothing to
    the send-bytes counter or to the read-result throughput, while [Query]
    and [Insert] panic; [Insert] also panics on a result without status. *)
Theorem nil_result_after_wait (env : Env)
    (srch : SearchRequest Opaque) (qry : QueryRequest)
    (ins : InsertRequest Opaque) (res : MutationResult Opaque) :
  (forall n, env n _ stateCode_Load = Some StateCode_Healthy) ->
  (forall n R q (t : Task R), env n _ (Enqueue q t) = None) ->
  (forall n R (t : Task R), env n _ (WaitToFinish t) = None) ->
  (forall n, env n _ (result (newSearchTask Params srch)) = None) ->
  (forall n, env n _ (result (newQueryTask Params qry)) = None) ->
  (forall n, env n _ (result (insertTask
                            (defaultPartition Params
                               (newInsertTask Params ins))))
             = None
             \/ (env n _ (result (insertTask
                                    (defaultPartition Params
                                       (newInsertTask Params ins))))
                 = Some res /\ Mut_Status res = None)) ->
  (fst (run env (Search Params srch)) = Returned (None, None)
   /\ omap accounting (snd (run env (Search Params srch)))
      = [ReceiveBytes [NID Params; SearchLabel] (proto_Size srch);
         rateCol (RateType_String RateType_DQLSearch) (Nq srch)])
  /\ fst (run env (Query Params qry)) = Panicked
  /\ fst (run env (Insert zero Params ins)) = Panicked.
Proof.
  intros Hload Henq Hwait Hs Hq Hi.
  repeat split; unfold_run; units; simp; rewrite Hload; simp; units; simp;
    rewrite Henq; simp; rewrite Hwait; simp; units; simp;
    rewrite ?Hs, ?Hq; simp; units; simp; try done.
  destruct (Hi 6%nat) as [->|[-> ->]]; done.
Qed.

(** ** [CheckHealth] *)

Variable UnHealthReason : string -> Z -> string -> string.

(** [group_Go] appends the contributions of the answers in the order in
    which they are handled, and returns an error only if it started with one
    or appended a reason. *)
Lemma group_Go_reasons (env : Env) (request : Opaque) (order : list Coord) :
  forall tr errReasons first,
    match fst (run_from env tr (group_Go order request errReasons first)) with
    | Returned (errReasons', first') =>
        errReasons'
        = errReasons
          ++ concat (imap (fun i c =>
                             contribution c
                               (env (length tr + i)%nat _
                                  (Coord_CheckHealth c request))) order)
        /\ (first' <> None -> first <> None \/ errReasons' <> [])
    | Panicked => True
    end.
Proof.
  induction order as [|c order IH]; intros tr errReasons first; cbn.
  - rewrite app_nil_r. split; [done | by left].
  - rewrite Nat.add_0_r.
    destruct (env (length tr) _ (Coord_CheckHealth c request))
      as [resp err] eqn:Hans.
    specialize (IH (tr ++ [Ev (Coord_CheckHealth c request) (resp, err)])).
    assert (Himap :
      imap ((fun i c' =>
               contribution c'
                 (env (length tr + i)%nat _ (Coord_CheckHealth c' request)))
              ∘ S) order
      = imap (fun i c' =>
                contribution c'
                  (env (length (tr ++ [Ev (Coord_CheckHealth c request)
                                         (resp, err)]) + i)%nat _
                     (Coord_CheckHealth c' request))) order).
    { apply imap_ext. intros i c' _. cbn. rewrite length_app. cbn.
      by replace (length tr + 1 + i)%nat with (length tr + S i)%nat by lia. }
    rewrite Himap. clear Himap. unfold contribution at 1. cbn.
    destruct err as [err|]; cbn.
    + specialize (IH (errReasons ++ [String.append "check health fail for " (role c)])
                    (match first with Some _ => first | None => Some err end)).
      destruct (fst (run_from _ _ _)) as [[r' f']|]; [|done].
      destruct IH as [-> IH]. rewrite <- app_assoc. split; [done|].
      intros _. right. intros Hnil.
      apply app_eq_nil in Hnil as [_ Hnil]. discriminate.
    + destruct resp as [resp|]; cbn; [|done].
      destruct (IsHealthy resp) eqn:Hh; cbn.
      * specialize (IH errReasons
                      (match first with Some _ => first | None => None end)).
        destruct (fst (run_from _ _ _)) as [[r' f']|]; [|done].
        destruct IH as [-> IH]. split; [done|].
        intros Hf. destruct (IH Hf) as [H|H]; [|by right].
        left. by destruct first.
      * specialize (IH (errReasons ++ Reasons resp)
                      (match first with Some _ => first | None => None end)).
        destruct (fst (run_from _ _ _)) as [[r' f']|]; [|done].
        destruct IH as [-> IH]. rewrite <- app_assoc. split; [done|].
        intros Hf. destruct (IH Hf) as [H|H].
        -- left. by destruct first.
        -- right. by rewrite <- app_assoc in H.
Qed.

(** [group_Go] returns when every coordinator that reports no RPC error
    comes with a response. *)
Lemma group_Go_returns (env : Env) (request : Opaque) (order : list Coord) :
  (forall n c,
     snd (env n _ (Coord_CheckHealth c request)) = None ->
     fst (env n _ (Coord_CheckHealth c request)) <> None) ->
  forall tr errReasons first,
    fst (run_from env tr (group_Go order request errReasons first))
    <> Panicked.
Proof.
  intros Hans. induction order as [|c order IH]; intros tr errReasons first;
    cbn; [done|].
  pose proof (Hans (length tr) c) as H.
  destruct (env (length tr) _ (Coord_CheckHealth c request)) as [resp err].
  destruct err as [err|]; cbn; [apply IH|].
  destruct resp as [resp|]; cbn; [|by destruct H].
  destruct (IsHealthy resp); cbn; apply IH.
Qed.

(** X9.  What a healthy proxy reports when every coordinator that reports
    no RPC error comes with a response: the reasons are, in the order in
    which the answers are handled, one "check health fail for <role>" per
    failed RPC and the reasons of each coordinator that reports itself
    unhealthy; [IsHealthy] is true exactly when there is no reason; the Go
    error is nil. *)
Theorem CheckHealth_reasons (env : Env) (request : Opaque)
    (order : list Coord) :
  (forall n, env n _ stateCode_Load = Some StateCode_Healthy) ->
  (forall n c,
     snd (env n _ (Coord_CheckHealth c request)) = None ->
     fst (env n _ (Coord_CheckHealth c request)) <> None) ->
  let reasons :=
    concat (imap (fun i c =>
                    contribution c
                      (env (S i) _ (Coord_CheckHealth c request))) order) in
  fst (run env (CheckHealth UnHealthReason order request))
  = Returned
      (Some (mkCheckHealthResponse
               match reasons with [] => true | _ => false end reasons),
       None).
Proof.
  intros Hload Hans reasons. subst reasons. unfold run, CheckHealth.
  rewrite run_from_bind. cbn. rewrite Hload. cbn.
  rewrite run_from_bind.
  pose proof (group_Go_reasons env request order
                [Ev stateCode_Load (Some StateCode_Healthy)] [] None) as H.
  pose proof (group_Go_returns env request order Hans
                [Ev stateCode_Load (Some StateCode_Healthy)] [] None) as Hr.
  cbn in H.
  destruct (run_from env _ (group_Go order request [] None))
    as [[[errReasons first]|] tr']; cbn in *; [|done].
  destruct H as [-> H].
  destruct first as [e|]; cbn.
  - destruct (concat _) as [|r rs] eqn:E; cbn; [|done].
    destruct H as [H|H]; done.
  - destruct (concat _) as [|r rs] eqn:E; cbn; done.
Qed.

(** X10.  An unhealthy proxy asks no coordinator: it reports
    [IsHealthy = false] with the single reason built from its server ID, and
    a nil error; it panics when it has no session. *)
Theorem CheckHealth_unhealthy_proxy (env : Env) (request : Opaque)
    (order : list Coord) (code : StateCode) :
  code <> StateCode_Healthy ->
  (forall n, env n _ stateCode_Load = Some code) ->
  run env (CheckHealth UnHealthReason order request)
  = match env 1%nat _ session_ServerID with
    | Some id =>
        (Returned
           (Some (mkCheckHealthResponse false
                    [UnHealthReason "proxy" id "proxy is unhealthy"]),
            None),
         [Ev stateCode_Load (Some code); Ev session_ServerID (Some id)])
    | None =>
        (Panicked, [Ev stateCode_Load (Some code); Ev session_ServerID None])
    end.
Proof.
  intros Hcode Hload. unfold run, CheckHealth.
  rewrite run_from_bind. cbn. rewrite Hload. cbn.
  destruct code; try congruence; cbn;
    destruct (env 1%nat _ session_ServerID); done.
Qed.

(** ** [CalcDistance], [Dummy], [InvalidateCollectionMetaCache] *)

(** X11.  The closure that [CalcDistance] gives to [Execute] hands the
    error of a rejected or failed query task back as a Go error, next to
    the status [UnexpectedError] with the same message; after a rejection it
    does not wait. *)
Theorem CalcDistance_query_error (env : Env) (ids : VectorIDs Opaque)
    (err : error) :
  ((forall n R q (t : Task R), env n _ (Enqueue q t) = Some err) ->
   run env (CalcDistance_query Params ids)
   = (Returned (Some (mkQueryResults (Some (failStatus err)) [] ""), Some err),
      [Ev (Enqueue dqQueue
             (queryTask (mkMsgBase MsgType_Retrieve 0 0 (GetNodeID Params))
                (GetNodeID Params)
                (mkQueryRequest "" (Vec_CollectionName ids)
                   (Vec_PartitionNames ids) "" [Vec_FieldName ids])
                (Some (IdArray ids))))
          (Some err)]))
  /\ ((forall n R q (t : Task R), env n _ (Enqueue q t) = None) ->
      (forall n R (t : Task R), env n _ (WaitToFinish t) = Some err) ->
      fst (run env (CalcDistance_query Params ids))
      = Returned (Some (mkQueryResults (Some (failStatus err)) [] ""),
                  Some err)).
Proof.
  split.
  - intros Henq. unfold_run. rewrite Henq. done.
  - intros Henq Hwait. unfold_run. rewrite Henq. simp. rewrite Hwait. done.
Qed.

Variable parseDummyRequestType : string -> option string * option error.
Variable parseDummyQueryRequest
  : string -> option dummyQueryRequest * option error.

(** [Query] returns no Go error. *)
Lemma Query_nil_error (env : Env) (request : QueryRequest)
    (r : option (QueryResults Opaque)) (e : option error) :
  fst (run env (Query Params request)) = Returned (r, e) ->
  e = None.
Proof.
  unfold_run; units; simp; explore; intros; simplify_eq; done.
Qed.

(** X12.  When the request of [Dummy] parses as a query request, [Dummy]
    makes exactly the calls of [Query] on the request it builds, and when
    that [Query] returns, [Dummy] answers "success" with a nil error,
    whatever the status of the reply of [Query] is. *)
Theorem Dummy_query_success (env : Env) (RequestType : string)
    (drr : dummyQueryRequest) :
  parseDummyRequestType RequestType = (Some "query", None) ->
  parseDummyQueryRequest RequestType = (Some drr, None) ->
  let request :=
    mkQueryRequest (Dummy_DbName drr) (Dummy_CollectionName drr)
      (Dummy_PartitionNames drr) "" (Dummy_OutputFields drr) in
  snd (run env (Dummy Params parseDummyRequestType parseDummyQueryRequest
                  RequestType))
  = snd (run env (Query Params request))
  /\ match fst (run env (Query Params request)) with
     | Returned _ =>
         fst (run env (Dummy Params parseDummyRequestType
                         parseDummyQueryRequest RequestType))
         = Returned (Some successResponse, None)
     | Panicked =>
         fst (run env (Dummy Params parseDummyRequestType
                         parseDummyQueryRequest RequestType))
         = Panicked
     end.
Proof.
  intros Ht Hq request. unfold run, Dummy. rewrite Ht. cbv beta iota.
  replace (String.eqb "query" "query") with true by reflexivity.
  cbv beta iota. rewrite Hq. cbv beta iota zeta.
  rewrite !run_from_bind. fold request.
  pose proof (Query_nil_error env request) as Hnil.
  unfold run in Hnil.
  destruct (run_from env [] (Query Params request)) as [[[r e]|] tr] eqn:E;
    cbn.
  - assert (e = None) as -> by (by apply (Hnil r e)).
    done.
  - done.
Qed.

(** X13.  [InvalidateCollectionMetaCache] serves the push whatever the
    state of the proxy: it never loads the state code and hands nothing to
    the scheduler. *)
Theorem InvalidateCollectionMetaCache_no_health_check (env : @Env Opaque)
    (request : InvalidateCollMetaCacheRequest) :
  omap loaded_code (snd (run env (InvalidateCollectionMetaCache Params request)))
    = []
  /\ omap enqueue_answer
       (snd (run env (InvalidateCollectionMetaCache Params request)))
     = [].
Proof.
  unfold_run.
  destruct (env 0%nat bool globalMetaCache_present);
    destruct (Inv_CollectionName request =? "")%string;
    destruct (Inv_CollectionID request =? 0);
    destruct (MsgType_eqb (GetMsgType (Inv_Base request)) MsgType_DropCollection);
    cbn; units; cbn; done.
Qed.

End ProxyMoreFacts.

(** ** Handlers that call the coordinators directly *)

Section ProxyDirectFacts.

Context {Opaque : Type} (zero : Opaque) (Params : ParamTable).

Variable MsgType_ShowCollections : MsgType.
Variable MsgType_ShowPartitions : MsgType.
Variable MsgType_SystemInfo : MsgType.
Variable MsgType_GetReplicas : MsgType.
Variable ErrorCode_IllegalArgument : ErrorCode.
Variable ErrorCode_DeleteCredentialFailure : ErrorCode.
Variable NotRegisteredID : Z.
Variable ProxyRole : string.
Variable UserRoot : string.
Variable validateCollectionName : string -> option error.
Variable ValidatePrivilege : string -> option error.
Variable ValidateObjectType : string -> option error.
Variable ValidateObjectName : string -> option error.
Variable ValidateRoleName : string -> option error.
Variable UnhealthyStatus : StateCode -> commonpb_Status.

Local Arguments Done {Opaque A} _.
Local Arguments Crash {Opaque A}.
Local Arguments Step {Opaque A X} _ _.

Ltac world_units :=
  repeat match goal with
  | |- context [?w ?n unit ?c] => is_var w; destruct (w n unit c)
  end.

Ltac finish :=
  unfold getErrResponse, inc; cbn; by eexists _, _.

(** Running [p] and then [k] is running [k] on what [p] returned. *)
Lemma exec_from_andThen {A B : Type} (w : @World Opaque) (p : Proc A)
    (k : A -> Proc B) :
  forall tr,
    exec_from w tr (andThen p k)
    = match exec_from w tr p with
      | (Returned a, tr') => exec_from w tr' (k a)
      | (Panicked, tr') => (Panicked, tr')
      end.
Proof.
  induction p as [a| |X c k' IH]; intros tr; cbn; [done | done | apply IH].
Qed.

(** The sum of percentages does not wrap around. *)
Lemma sum_int64_bounded (ps : list Z) :
  Forall (fun p => 0 <= p <= 100) ps ->
  100 * Z.of_nat (length ps) < 2 ^ 63 ->
  sum_int64 ps = foldr Z.add 0 ps
  /\ 0 <= foldr Z.add 0 ps <= 100 * Z.of_nat (length ps)
  /\ (foldr Z.add 0 ps = 100 * Z.of_nat (length ps)
      <-> Forall (fun p => p = 100) ps).
Proof.
  intros Hps Hlen. unfold sum_int64.
  assert (Hgen : forall acc,
            0 <= acc -> acc + 100 * Z.of_nat (length ps) < 2 ^ 63 ->
            fold_left (fun progress p => int64 (progress + p)) ps acc
            = acc + foldr Z.add 0 ps).
  { clear Hlen. induction Hps as [|p ps Hp Hps IH]; intros acc Hacc Hb; cbn.
    - lia.
    - cbn [length] in Hb.
      assert (int64 (acc + p) = acc + p) as ->.
      { unfold int64. rewrite Z.mod_small; lia. }
      rewrite IH; lia. }
  split; [rewrite Hgen; lia|]. clear Hgen Hlen.
  induction Hps as [|p ps Hp Hps IH]; cbn [foldr length].
  - split; [lia|]. split; [constructor | done].
  - destruct IH as [IH1 IH2]. split; [lia|]. split.
    + intros Hsum. assert (p = 100) by lia. constructor; [done|].
      apply IH2. lia.
    + intros Hall. apply Forall_cons in Hall as [-> Hall].
      apply IH2 in Hall. lia.
Qed.

(** The lookups of the first loop of [getPartitionProgress] when all of
    them succeed. *)
Lemma partitionIDs_of_found (w : @World Opaque) (collection : string)
    (id_of : string -> Z) (names : list string) :
  (forall n name, In name names ->
     w n _ (GetPartitionID collection name) = Some (id_of name, None)) ->
  forall tr partitionIDs,
    exec_from w tr (partitionIDs_of collection names partitionIDs)
    = (Returned (partitionIDs ++ map id_of names, None),
       tr ++ map (fun name => Tr (GetPartitionID collection name)
                                 (Some (id_of name, None))) names).
Proof.
  induction names as [|name names IH]; intros Hw tr ids; cbn.
  - by rewrite !app_nil_r.
  - rewrite (Hw _ name (or_introl eq_refl)). cbn.
    rewrite (IH (fun n name' H => Hw n name' (or_intror H))).
    by rewrite <- !app_assoc.
Qed.

(** With a metadata cache, every lookup of the first loop succeeds or the
    loop stops with the error; the identifiers it returns without an error
    are as many as the names. *)
Lemma partitionIDs_of_returns (w : @World Opaque) (collection : string)
    (names : list string) :
  (forall n name, w n _ (GetPartitionID collection name) <> None) ->
  forall tr partitionIDs,
  exists ids e tr',
    exec_from w tr (partitionIDs_of collection names partitionIDs)
    = (Returned (ids, e), tr')
    /\ (e = None -> length ids = (length partitionIDs + length names)%nat).
Proof.
  intros Hcache.
  induction names as [|name names IH]; intros tr ids; cbn.
  - exists ids, None, tr. split; [done|]. intros _. lia.
  - pose proof (Hcache (length tr) name) as Hc.
    destruct (w (length tr) _ (GetPartitionID collection name))
      as [[id [err|]]|]; cbn; [| |done].
    + by eexists _, (Some err), _.
    + destruct (IH (tr ++ [Tr (GetPartitionID collection name)
                              (Some (id, None))])
                  (ids ++ [id])) as (ids' & e & tr' & -> & Hlen).
      exists ids', e, tr'. split; [done|]. intros He.
      rewrite (Hlen He), length_app. cbn. lia.
Qed.

(** Go's division by a positive count of a sum of percentages. *)
Lemma mean_bounds (ps : list Z) :
  ps <> [] ->
  Forall (fun p => 0 <= p <= 100) ps ->
  let mean := Z.quot (foldr Z.add 0 ps) (Z.of_nat (length ps)) in
  0 <= foldr Z.add 0 ps <= 100 * Z.of_nat (length ps) ->
  (foldr Z.add 0 ps = 100 * Z.of_nat (length ps)
   <-> Forall (fun p => p = 100) ps) ->
  0 <= mean <= 100 /\ (mean = 100 <-> Forall (fun p => p = 100) ps).
Proof.
  intros Hne Hps mean Hsum Hall.
  assert (0 < Z.of_nat (length ps)) as Hn by (destruct ps; [done | cbn; lia]).
  subst mean. rewrite Z.quot_div_nonneg by lia.
  set (s := foldr Z.add 0 ps) in *. set (n := Z.of_nat (length ps)) in *.
  assert (0 <= s / n) by (apply Z.div_pos; lia).
  assert (s / n <= 100) by (apply Z.div_le_upper_bound; lia).
  split; [lia|]. rewrite <- Hall. split.
  - intros Hm. pose proof (Z.mul_div_le s n Hn). nia.
  - intros Hs. rewrite Hs. apply Z.div_mul. lia.
Qed.

(** X14. [getPartitionProgress]: when every partition name is found and the
    query coordinator answers one percentage between 0 and 100 per
    partition, the progress is the truncated mean of the percentages, the
    request sent carries the collection identifier and the partition
    identifiers in the order of the names, and the progress is 100 exactly
    when every partition is at 100. *)
Theorem getPartitionProgress_mean (w : @World Opaque)
    (request : GetLoadingProgressRequest) (collectionID : Z) (b : MsgBase)
    (id_of : string -> Z) (resp : ShowResponse) :
  GLP_Base request = Some b ->
  GLP_PartitionNames request <> [] ->
  (forall n name, In name (GLP_PartitionNames request) ->
     w n _ (GetPartitionID (GLP_CollectionName request) name)
     = Some (id_of name, None)) ->
  (forall n req, w n _ (ShowPartitions_rpc req) = (Some resp, None)) ->
  length (InMemoryPercentages resp) = length (GLP_PartitionNames request) ->
  Forall (fun p => 0 <= p <= 100) (InMemoryPercentages resp) ->
  100 * Z.of_nat (length (InMemoryPercentages resp)) < 2 ^ 63 ->
  let out := exec w (getPartitionProgress MsgType_ShowPartitions request
                       collectionID) in
  let ps := InMemoryPercentages resp in
  let mean := Z.quot (foldr Z.add 0 ps) (Z.of_nat (length ps)) in
  fst out = Returned (mean, None)
  /\ 0 <= mean <= 100
  /\ (mean = 100 <-> Forall (fun p => p = 100) ps)
  /\ omap show_sent (snd out)
     = [inr (mkShowPartitionsRequest
               (mkMsgBase MsgType_ShowPartitions (Base_MsgID b)
                  (Base_Timestamp b) (Base_SourceID b))
               collectionID (map id_of (GLP_PartitionNames request)))].
Proof.
  intros Hb Hne Hid Hshow Hlen Hps Hbound out ps mean.
  destruct (sum_int64_bounded _ Hps Hbound) as (Hsum & Hrange & Hall).
  assert (ps <> []) as Hne'.
  { subst ps. intros E. rewrite E in Hlen. by destruct (GLP_PartitionNames request). }
  destruct (mean_bounds ps Hne' Hps Hrange Hall) as [Hm1 Hm2].
  assert (int64 mean = mean) as Hint.
  { unfold int64. rewrite Z.mod_small; lia. }
  subst out. unfold exec, getPartitionProgress.
  rewrite exec_from_andThen, (partitionIDs_of_found w _ id_of _ Hid).
  cbn. rewrite Hb. cbn. rewrite Hshow. cbn.
  rewrite length_map, Hlen, Nat.eqb_refl. cbn.
  destruct (Z.eqb_spec (Z.of_nat (length (GLP_PartitionNames request))) 0)
    as [E|_].
  { destruct (GLP_PartitionNames request); [done | cbn in E; lia]. }
  cbn. rewrite Hsum. fold ps. rewrite <- Hlen.
  change (foldr Z.add 0 ps `quot` Z.of_nat (length (InMemoryPercentages resp)))
    with mean. rewrite Hint.
  split; [done|]. split; [done|]. split; [done|].
  rewrite omap_app. cbn.
  replace (omap show_sent _) with (@nil (ShowCollectionsRequest + ShowPartitionsRequest)).
  - done.
  - clear. induction (GLP_PartitionNames request); [done | cbn; done].
Qed.

(** X15. [getPartitionProgress]: the first partition name that the
    metadata cache does not find ends the function with the cache's error:
    the names after it are not looked up and nothing is sent to the query
    coordinator. *)
Theorem getPartitionProgress_lookup_error (w : @World Opaque)
    (request : GetLoadingProgressRequest) (collectionID : Z)
    (found : list string) (missing : string) (rest : list string)
    (id : Z) (err : error) :
  GLP_PartitionNames request = found ++ missing :: rest ->
  (forall n name, In name found ->
     exists id',
       w n _ (GetPartitionID (GLP_CollectionName request) name)
       = Some (id', None)) ->
  (forall n,
     w n _ (GetPartitionID (GLP_CollectionName request) missing)
     = Some (id, Some err)) ->
  let out := exec w (getPartitionProgress MsgType_ShowPartitions request
                       collectionID) in
  fst out = Returned (0, Some err)
  /\ omap partition_lookup (snd out)
     = map (fun name => (GLP_CollectionName request, name))
         (found ++ [missing])
  /\ omap show_sent (snd out) = [].
Proof.
  intros Hnames Hfound Hmissing out. subst out.
  unfold exec, getPartitionProgress. rewrite exec_from_andThen, Hnames.
  assert (Hloop : forall tr ids, exists ids' tr',
    exec_from w tr
      (partitionIDs_of (GLP_CollectionName request)
         (found ++ missing :: rest) ids)
    = (Returned (ids', Some err), tr ++ tr')
    /\ omap partition_lookup tr'
       = map (fun name => (GLP_CollectionName request, name))
           (found ++ [missing])
    /\ omap show_sent tr' = []).
  { clear Hnames. induction found as [|name found IH]; intros tr ids; cbn.
    - rewrite Hmissing. cbn. by eexists _, [_].
    - destruct (Hfound (length tr) name (or_introl eq_refl)) as [id' Hn].
      rewrite Hn. cbn.
      destruct (IH (fun n name' H => Hfound n name' (or_intror H))
                  (tr ++ [Tr (GetPartitionID (GLP_CollectionName request) name)
                             (Some (id', None))])
                  (ids ++ [id'])) as (ids' & tr' & -> & Hl & Hs).
      exists ids', (Tr (GetPartitionID (GLP_CollectionName request) name)
                      (Some (id', None)) :: tr').
      rewrite <- app_assoc. cbn. rewrite Hl, Hs. done. }
  destruct (Hloop [] []) as (ids' & tr' & -> & Hl & Hs). cbn. done.
Qed.

(** X16. [GetLoadingProgress] without partition names, on a healthy proxy
    and a known collection: the one request to the query coordinator is
    [ShowCollections] for the collection's identifier with message
    identifier and timestamp 0 and the node as source; the progress is the
    first percentage of the response and the status is Success, or the
    status is UnexpectedError (no data) when the response has no
    percentage.  The status inside the coordinator's response is not
    read. *)
Theorem GetLoadingProgress_whole_collection (w : @World Opaque)
    (request : GetLoadingProgressRequest) (id : Z) (resp : ShowResponse) :
  (forall n, w n _ (proxy stateCode_Load) = Some StateCode_Healthy) ->
  validateCollectionName (GLP_CollectionName request) = None ->
  GLP_PartitionNames request = [] ->
  (forall n, w n _ (GetCollectionID (GLP_CollectionName request))
             = Some (id, None)) ->
  (forall n req, w n _ (ShowCollections_rpc req) = (Some resp, None)) ->
  let out := exec w (GetLoadingProgress Params MsgType_ShowCollections
                       MsgType_ShowPartitions MsgType_SystemInfo
                       validateCollectionName request) in
  let method := method_ "GetLoadingProgress" in
  omap show_sent (snd out)
  = [inl (mkShowCollectionsRequest
            (mkMsgBase MsgType_ShowCollections 0 0 (GetNodeID Params)) [id])]
  /\ match InMemoryPercentages resp with
     | [] =>
         fst out
         = Returned
             (Some (mkGetLoadingProgressResponse
                      (Some (mkStatus ErrorCode_UnexpectedError
                               "fail to show collections from the querycoord, no data"))
                      0), None)
         /\ omap counted (snd out)
            = [[nid Params; method; TotalLabel];
               [nid Params; method; FailLabel]]
     | p :: _ =>
         fst out
         = Returned
             (Some (mkGetLoadingProgressResponse
                      (Some (mkStatus ErrorCode_Success "")) p), None)
         /\ omap counted (snd out)
            = [[nid Params; method; TotalLabel];
               [nid Params; method; SuccessLabel]]
     end.
Proof.
  intros Hcode Hvalid Hnames Hid Hshow out method. subst out method.
  unfold exec, GetLoadingProgress, getCollectionProgress, getErrResponse,
    withBase, inc.
  cbn. rewrite Hcode. cbn. world_units. cbn. rewrite Hvalid. cbn.
  rewrite Hid. cbn. rewrite Hnames.
  destruct (GLP_Base request) as [b|]; cbn; rewrite Hshow; cbn;
    destruct (InMemoryPercentages resp) as [|p ps]; cbn;
    world_units; cbn; world_units; cbn; world_units; done.
Qed.

(** X17. [GetLoadingProgress] returns: whatever the metadata cache and the
    query coordinator answer, as long as the state code is a state code,
    [globalMetaCache] is not nil and a coordinator call without an error
    comes with a response, the handler does not panic (so its division is
    never by zero), its Go error is nil and its response carries a status.
    With a nil [globalMetaCache] a healthy proxy panics on a valid
    collection name, after it has counted the call. *)
Theorem GetLoadingProgress_returns (w : @World Opaque)
    (request : GetLoadingProgressRequest) :
  let out := exec w (GetLoadingProgress Params MsgType_ShowCollections
                       MsgType_ShowPartitions MsgType_SystemInfo
                       validateCollectionName request) in
  ((forall n, w n _ (proxy stateCode_Load) <> None) ->
   (forall n name, w n _ (GetCollectionID name) <> None) ->
   (forall n collection name,
      w n _ (GetPartitionID collection name) <> None) ->
   (forall n req, snd (w n _ (ShowCollections_rpc req)) = None ->
                  fst (w n _ (ShowCollections_rpc req)) <> None) ->
   (forall n req, snd (w n _ (ShowPartitions_rpc req)) = None ->
                  fst (w n _ (ShowPartitions_rpc req)) <> None) ->
   exists status progress,
     fst out
     = Returned (Some (mkGetLoadingProgressResponse (Some status) progress),
                 None))
  /\ ((forall n, w n _ (proxy stateCode_Load) = Some StateCode_Healthy) ->
      validateCollectionName (GLP_CollectionName request) = None ->
      (forall n name, w n _ (GetCollectionID name) = None) ->
      fst out = Panicked
      /\ omap counted (snd out)
         = [[nid Params; method_ "GetLoadingProgress"; TotalLabel]]).
Proof.
  intros out. subst out. split.
  2: { intros Hcode Hvalid Hnil.
       unfold exec, GetLoadingProgress, inc. cbn. rewrite Hcode. cbn.
       world_units. cbn. rewrite Hvalid. cbn. rewrite Hnil. cbn. done. }
  intros Hcode Hcache Hcachep Hcoll Hpart.
  unfold exec, GetLoadingProgress. cbn.
  specialize (Hcode 0%nat).
  destruct (w 0%nat _ (proxy stateCode_Load)) as [code|]; [|done]. cbn.
  destruct (StateCode_eqb code StateCode_Healthy); cbn;
    [|by eexists _, _].
  destruct (validateCollectionName (GLP_CollectionName request)); [finish|].
  cbn.
  match goal with
  | |- context [w ?n ?X (GetCollectionID ?c)] =>
      pose proof (Hcache n c) as Hc;
      destruct (w n X (GetCollectionID c)) as [[id [err|]]|]
  end; cbn; [finish| |done].
  rewrite exec_from_andThen.
  set (request' := withBase Params MsgType_SystemInfo request).
  assert (exists b, GLP_Base request' = Some b) as [b Hb].
  { subst request'. unfold withBase. destruct (GLP_Base request); by eexists. }
  destruct (length (GLP_PartitionNames request') =? 0)%nat eqn:Hn.
  - unfold getCollectionProgress. rewrite Hb. cbn.
    match goal with
    | |- context [w ?n ?X (ShowCollections_rpc ?r)] =>
        pose proof (Hcoll n r) as H;
        destruct (w n X (ShowCollections_rpc r)) as [resp [err|]]
    end; cbn; [finish|].
    destruct resp as [resp|]; [|by destruct H]. cbn.
    destruct (InMemoryPercentages resp); cbn; finish.
  - unfold getPartitionProgress. rewrite exec_from_andThen.
    match goal with
    | |- context [exec_from w ?tr (partitionIDs_of ?c ?names ?ids)] =>
        destruct (partitionIDs_of_returns w c names
                    (fun n name => Hcachep n c name) tr ids)
          as (ids' & e & tr' & -> & Hlen)
    end.
    destruct e as [err|]; cbn; [finish|].
    rewrite Hb. cbn.
    match goal with
    | |- context [w ?n ?X (ShowPartitions_rpc ?r)] =>
        pose proof (Hpart n r) as H;
        destruct (w n X (ShowPartitions_rpc r)) as [resp [err|]]
    end; cbn; [finish|].
    destruct resp as [resp|]; [|by destruct H]. cbn.
    destruct (length (InMemoryPercentages resp) =? length ids')%nat; cbn;
      [|finish].
    specialize (Hlen eq_refl). cbn in Hlen.
    destruct (Z.eqb_spec (Z.of_nat (length ids')) 0) as [E|_].
    { apply Nat.eqb_neq in Hn. lia. }
    cbn. finish.
Qed.

(** ** Handlers that forward a request *)

(** X18. When the coordinator's call returns an error, [GetReplicas],
    [GetImportState] and [ListImportTasks] write the error into the status
    of the response that came with it: they panic when that response or its
    status is nil, and otherwise return it with the status UnexpectedError
    and the error's message.  [Import] writes into a response of its own and
    returns in every case. *)
Theorem failed_call_status_written (w : @World Opaque) (req : Opaque)
    (r : option (Response Opaque)) (err : error) :
  (forall n, w n _ (proxy stateCode_Load) = Some StateCode_Healthy) ->
  (forall n base, w n _ (GetReplicas_rpc base req) = (r, Some err)) ->
  (forall n, w n _ (GetImportState_rpc req) = (r, Some err)) ->
  (forall n, w n _ (ListImportTasks_rpc req) = (r, Some err)) ->
  (forall n, w n _ (Import_rpc req) = (r, Some err)) ->
  let written :=
    match r with
    | Some resp =>
        match Status resp with
        | Some _ =>
            Returned (Some (mkResponse (Some (failStatus err)) (body resp)),
                      @None error)
        | None => Panicked
        end
    | None => Panicked
    end in
  fst (exec w (GetReplicas zero Params MsgType_GetReplicas req)) = written
  /\ fst (exec w (GetImportState zero Params req)) = written
  /\ fst (exec w (ListImportTasks zero Params req)) = written
  /\ fst (exec w (Import zero Params req))
     = Returned (Some (mkResponse (Some (failStatus err)) zero), None).
Proof.
  intros Hcode Hrep Hstate Htasks Himport written. subst written.
  unfold exec, GetReplicas, GetImportState, ListImportTasks, Import,
    overwrite_status, inc.
  cbn. rewrite !Hcode. cbn. rewrite Hrep. world_units. cbn.
  rewrite Hstate, Htasks, Himport. cbn.
  destruct r as [[[st|] b]|]; cbn; world_units; cbn; done.
Qed.

(** X19. On a healthy proxy [GetCompactionState], [ManualCompaction] and
    [GetCompactionStateWithPlans] return the response and the Go error of
    the data coordinator as they are, and [GetFlushState] returns a nil
    response with the coordinator's error; none of them counts the call. *)
Theorem coordinator_error_returned (w : @World Opaque) (req : Opaque)
    (r : option (Response Opaque) * option error) :
  (forall n, w n _ (proxy stateCode_Load) = Some StateCode_Healthy) ->
  (forall n, w n _ (GetCompactionState_rpc req) = r) ->
  (forall n, w n _ (ManualCompaction_rpc req) = r) ->
  (forall n, w n _ (GetCompactionStateWithPlans_rpc req) = r) ->
  (forall n, w n _ (GetFlushState_rpc req) = r) ->
  exec w (GetCompactionState zero req)
  = (Returned r, [Tr (proxy stateCode_Load) (Some StateCode_Healthy);
                  Tr (GetCompactionState_rpc req) r])
  /\ exec w (ManualCompaction zero req)
     = (Returned r, [Tr (proxy stateCode_Load) (Some StateCode_Healthy);
                     Tr (ManualCompaction_rpc req) r])
  /\ exec w (GetCompactionStateWithPlans zero req)
     = (Returned r, [Tr (proxy stateCode_Load) (Some StateCode_Healthy);
                     Tr (GetCompactionStateWithPlans_rpc req) r])
  /\ exec w (GetFlushState zero req)
     = (Returned (match snd r with
                  | Some err => (None, Some err)
                  | None => (fst r, None)
                  end),
        [Tr (proxy stateCode_Load) (Some StateCode_Healthy);
         Tr (GetFlushState_rpc req) r]).
Proof.
  intros Hcode H1 H2 H3 H4.
  unfold exec, GetCompactionState, ManualCompaction,
    GetCompactionStateWithPlans, GetFlushState.
  cbn. rewrite !Hcode. cbn. rewrite H1, H2, H3, H4.
  destruct r as [resp [err|]]; cbn; done.
Qed.

(** X20. A proxy that is not healthy answers the handlers of this part
    after the load of its state code and nothing else: no coordinator, no
    cache and no metric is touched.  The handlers of the privileges answer
    with [UnhealthyStatus] of the code, the others with [unhealthyStatus]. *)
Theorem unhealthy_direct_handlers (w : @World Opaque) (code : StateCode)
    (req : Opaque) (request : GetLoadingProgressRequest) (username : string)
    (entity : option GrantEntity) :
  code <> StateCode_Healthy ->
  (forall n, w n _ (proxy stateCode_Load) = Some code) ->
  let load := [Tr (proxy stateCode_Load) (Some code)] in
  let unhealthy :=
    Returned (Some (mkResponse (Some unhealthyStatus) zero), @None error) in
  exec w (GetLoadingProgress Params MsgType_ShowCollections
            MsgType_ShowPartitions MsgType_SystemInfo validateCollectionName
            request)
  = (Returned (Some (mkGetLoadingProgressResponse (Some unhealthyStatus) 0),
               None), load)
  /\ exec w (GetReplicas zero Params MsgType_GetReplicas req)
     = (unhealthy, load)
  /\ exec w (Import zero Params req) = (unhealthy, load)
  /\ exec w (GetImportState zero Params req) = (unhealthy, load)
  /\ exec w (ListImportTasks zero Params req) = (unhealthy, load)
  /\ exec w (GetCompactionState zero req) = (unhealthy, load)
  /\ exec w (ManualCompaction zero req) = (unhealthy, load)
  /\ exec w (GetCompactionStateWithPlans zero req) = (unhealthy, load)
  /\ exec w (GetFlushState zero req) = (unhealthy, load)
  /\ exec w (DeleteCredential ErrorCode_DeleteCredentialFailure UserRoot
               username)
     = (Returned (Some unhealthyStatus, None), load)
  /\ exec w (OperatePrivilege ErrorCode_IllegalArgument ValidatePrivilege
               ValidateObjectType ValidateObjectName ValidateRoleName
               UnhealthyStatus entity)
     = (Returned (Some (UnhealthyStatus code), None), load)
  /\ exec w (SelectGrant zero ErrorCode_IllegalArgument ValidateObjectType
               ValidateObjectName ValidateRoleName UnhealthyStatus entity)
     = (Returned (Some (mkResponse (Some (UnhealthyStatus code)) zero), None),
        load).
Proof.
  intros Hne Hcode load unhealthy. subst load unhealthy.
  assert (StateCode_eqb code StateCode_Healthy = false) as E
    by (destruct code; done).
  unfold exec, GetLoadingProgress, GetReplicas, Import, GetImportState,
    ListImportTasks, GetCompactionState, ManualCompaction,
    GetCompactionStateWithPlans, GetFlushState, DeleteCredential,
    OperatePrivilege, SelectGrant, checkHealthyAndReturnCode.
  cbn. rewrite !Hcode. cbn. rewrite E. cbn. done.
Qed.

(** ** Credentials and privileges *)

(** X21. [DeleteCredential] never asks the root coordinator to delete
    [util.UserRoot]: a user name that reaches the coordinator is the name of
    the request and is not the root user; for the root user a healthy proxy
    answers DeleteCredentialFailure without a call. *)
Theorem DeleteCredential_root_kept (w : @World Opaque) (username : string) :
  let out := exec w (DeleteCredential ErrorCode_DeleteCredentialFailure
                       UserRoot username) in
  (forall name, In name (omap credential_deleted (snd out)) ->
     name = username /\ username <> UserRoot)
  /\ (username = UserRoot ->
      w 0%nat _ (proxy stateCode_Load) = Some StateCode_Healthy ->
      out = (Returned (Some (mkStatus ErrorCode_DeleteCredentialFailure
                               "user root cannot be deleted"), None),
             [Tr (proxy stateCode_Load) (Some StateCode_Healthy)])).
Proof.
  intros out. subst out. unfold exec, DeleteCredential. cbn.
  destruct (w 0%nat _ (proxy stateCode_Load)) as [code|] eqn:Hc; cbn.
  2: { split; [intros ? [] | done]. }
  destruct (StateCode_eqb code StateCode_Healthy) eqn:Hh; cbn.
  2: { split; [intros ? [] | intros _ [= ->]; done]. }
  destruct (String.eqb_spec username UserRoot) as [->|Hne]; cbn.
  - split; [intros ? [] | by intros _ [= ->]].
  - split; [|by intros ?].
    destruct (w 1%nat _ (DeleteCredential_rpc username)) as [st [err|]]; cbn;
      intros name [<-|[]]; done.
Qed.

(** X22. What [OperatePrivilege] sends to the root coordinator: only on a
    healthy proxy, only an entity whose privilege, object type, object name
    and role name passed their validators, and with the grantor's user
    replaced by the current user of the context. *)
Theorem OperatePrivilege_forwarded (w : @World Opaque)
    (entity sent : option GrantEntity) :
  In sent
    (omap privilege_forwarded
       (snd (exec w (OperatePrivilege ErrorCode_IllegalArgument
                       ValidatePrivilege ValidateObjectType ValidateObjectName
                       ValidateRoleName UnhealthyStatus entity)))) ->
  exists role object objectName privilege user curUser,
    entity = Some (mkGrantEntity (Some role) (Some object) objectName
                     (Some (mkGrantorEntity user (Some privilege))))
    /\ sent = Some (mkGrantEntity (Some role) (Some object) objectName
                      (Some (mkGrantorEntity (Some curUser) (Some privilege))))
    /\ w 1%nat _ GetCurUserFromContext = (curUser, None)
    /\ w 0%nat _ (proxy stateCode_Load) = Some StateCode_Healthy
    /\ ValidatePrivilege privilege = None
    /\ ValidateObjectType object = None
    /\ ValidateObjectName objectName = None
    /\ ValidateRoleName role = None.
Proof.
  unfold exec, OperatePrivilege, checkHealthyAndReturnCode. cbn.
  destruct (w 0%nat _ (proxy stateCode_Load)) as [code|] eqn:Hc; cbn;
    [|intros []].
  destruct (StateCode_eqb code StateCode_Healthy) eqn:Hh; cbn; [|intros []].
  assert (code = StateCode_Healthy) as -> by (destruct code; done).
  unfold validPrivilegeParams, Errorf.
  destruct entity as [[[role|] [object|] objectName [[user [privilege|]]|]]|];
    cbn; try (intros []).
  all: destruct (ValidatePrivilege privilege) eqn:Hp; cbn; try (intros []).
  all: try (destruct (ValidateObjectType object) eqn:Ho; cbn; try (intros [])).
  all: try (destruct (ValidateObjectName objectName) eqn:Hn; cbn;
            try (intros [])).
  all: try (destruct (ValidateRoleName role) eqn:Hr; cbn; try (intros [])).
  destruct (w 1%nat _ GetCurUserFromContext) as [curUser [err|]] eqn:Hu; cbn;
    [intros []|].
  match goal with
  | |- context [w ?n ?X (OperatePrivilege_rpc ?e)] =>
      destruct (w n X (OperatePrivilege_rpc e)) as [st [err|]]
  end; cbn; intros [<-|[]];
    by exists role, object, objectName, privilege, user, curUser.
Qed.

(** X23. An entity that passes the validation of [OperatePrivilege] passes
    the validation of [SelectGrant]; [SelectGrant] also accepts an entity
    without object, whose object name it does not validate. *)
Theorem validPrivilegeParams_validGrantParams (entity : option GrantEntity) :
  (validPrivilegeParams ValidatePrivilege ValidateObjectType
     ValidateObjectName ValidateRoleName entity = None ->
   validGrantParams ValidateObjectType ValidateObjectName ValidateRoleName
     entity = None)
  /\ (forall e role,
        entity = Some e -> Grant_Object e = None -> Grant_Role e = Some role ->
        ValidateRoleName role = None ->
        validGrantParams ValidateObjectType ValidateObjectName
          ValidateRoleName entity = None).
Proof.
  split.
  - unfold validPrivilegeParams, validGrantParams, Errorf.
    destruct entity as [[[role|] [object|] objectName [[user [privilege|]]|]]|];
      cbn; try done.
    all: destruct (ValidatePrivilege privilege); try done.
    all: destruct (ValidateObjectType object); try done.
    all: destruct (ValidateObjectName objectName); done.
  - intros e role -> Ho Hr Hv. unfold validGrantParams.
    by rewrite Ho, Hr.
Qed.

(** ** [GetComponentStates] *)

(** X24. [GetComponentStates] has no health gate and does not panic: it
    returns a response with a nil Go error whatever is stored as the state
    code.  For a stored state code, healthy or not, the status is Success
    and the state carries that code, with the server ID of a registered
    session as node ID and [NotRegisteredID] otherwise; when the stored
    value is not a state code the status is UnexpectedError and there is no
    state. *)
Theorem GetComponentStates_any_state (w : @World Opaque) :
  fst (exec w (GetComponentStates NotRegisteredID ProxyRole))
  = Returned
      (Some
         match w 0%nat _ (proxy stateCode_Load) with
         | Some code =>
             mkComponentStates (Some (mkStatus ErrorCode_Success ""))
               (Some (mkComponentInfo
                        match w 1%nat _ session with
                        | Some (true, ServerID) => ServerID
                        | _ => NotRegisteredID
                        end ProxyRole code))
         | None =>
             mkComponentStates
               (Some (mkStatus ErrorCode_UnexpectedError
                        "unexpected error in type assertion")) None
         end, None).
Proof.
  unfold exec, GetComponentStates. cbn.
  destruct (w 0%nat _ (proxy stateCode_Load)); cbn; done.
Qed.

End ProxyDirectFacts.

(** ** The facts of this part on the example data *)

Section MoreWitnesses.

#[local] Existing Instance Example.Size.

Lemma wait_error_reply_witness :
  reply (fst (run (answer Cases.failing)
                (serve tt Example.Params hSearch Example.search)))
    = Some (Some (mkStatus ErrorCode_UnexpectedError
                    "context deadline exceeded"), None)
  /\ omap enqueue_answer
       (snd (run (answer Cases.failing)
               (serve tt Example.Params hSearch Example.search)))
     = [(dqQueue, None)]
  /\ omap wait_answer
       (snd (run (answer Cases.failing)
               (serve tt Example.Params hSearch Example.search)))
     = [Some Cases.timeout].
Proof.
  refine (wait_error_reply tt Example.Params (answer Cases.failing)
            hSearch Example.search Cases.timeout _ _ _ _).
  - discriminate.
  - reflexivity.
  - reflexivity.
  - reflexivity.
Defined.

Lemma DescribeIndex_wait_error_code_witness :
  fst (run (answer Cases.failing) (DescribeIndex tt Example.Params tt))
  = Returned
      (Some (mkResponse
               (Some (mkStatus ErrorCode_Success "context deadline exceeded"))
               tt),
       None).
Proof.
  refine (DescribeIndex_wait_error_code tt Example.Params
            (answer Cases.failing) tt Cases.timeout
            (Some (mkResponse None tt)) _ _ _ _);
    reflexivity.
Defined.

Lemma no_Go_error_witness :
  fst (run (answer Example.serving)
         (serve tt Example.Params hSearch Example.search))
  = Returned (Some Example.searchResults, None)
  /\ @None error = None.
Proof.
  split; [reflexivity|].
  refine (no_Go_error tt Example.Params (answer Example.serving) hSearch
            Example.search (Some Example.searchResults) None _).
  reflexivity.
Defined.

Lemma function_call_counts_witness :
  omap function_call
    (snd (run (answer Example.serving)
            (serve tt Example.Params hSearch Example.search)))
  = [([FormatInt 7; method_ "Search"; TotalLabel], 1);
     ([FormatInt 7; method_ "Search"; SuccessLabel], 1)].
Proof.
  refine (function_call_counts tt Example.Params (answer Example.serving)
            hSearch Example.search StateCode_Healthy
            (Some Example.searchResults, None) _ _);
    reflexivity.
Defined.

Lemma result_passed_through_witness :
  exists before after x,
    snd (run (answer Example.serving)
           (serve tt Example.Params hSearch Example.search))
    = before
      ++ Ev (result (task_of Example.Params hSearch Example.search)) x
      :: after
    /\ In (Ev (WaitToFinish (task_of Example.Params hSearch Example.search))
             None) before
    /\ filter is_result after = []
    /\ (Some Example.searchResults, @None error) = (x, None).
Proof.
  refine (result_passed_through tt Example.Params (answer Example.serving)
            hSearch Example.search _ _ _ _ _).
  - discriminate.
  - discriminate.
  - reflexivity.
  - reflexivity.
  - reflexivity.
Defined.

Lemma ErrIndex_all_rows_witness :
  Z.of_nat (length (all_rows 3)) = 3
  /\ (forall i, 0 <= i < 3 -> all_rows 3 !! Z.to_nat i = Some i)
  /\ (forall i, i ∈ all_rows 3 <-> 0 <= i < 3)
  /\ (forall extra,
        fill (S (Z.to_nat 3) + extra) 0 3 (make_uint32 3) = all_rows 3).
Proof.
  refine (ErrIndex_all_rows 3 _). lia.
Defined.

Lemma Insert_completed_witness :
  fst (run (answer Cases.completing) (Insert tt Example.Params Example.insert))
    = Returned
        (Some (mkMutationResult
                 (Some (mkStatus ErrorCode_UnexpectedError "duplicate key"))
                 [0; 1; 2] 3 tt),
         None)
  /\ omap insert_vectors
       (snd (run (answer Cases.completing)
               (Insert tt Example.Params Example.insert)))
     = [0]
  /\ (true = true -> 3 - 3 = 0).
Proof.
  refine (Insert_completed tt Example.Params (answer Cases.completing)
            Example.insert
            (mkMutationResult
               (Some (mkStatus ErrorCode_UnexpectedError "duplicate key"))
               [1] 0 tt)
            (mkStatus ErrorCode_UnexpectedError "duplicate key")
            _ _ _ _ _ _).
  - cbn. lia.
  - reflexivity.
  - reflexivity.
  - reflexivity.
  - reflexivity.
  - reflexivity.
Defined.

Lemma nil_result_after_wait_witness :
  (fst (run (answer Cases.empty_handed)
          (Search Example.Params Example.search))
   = Returned (None, None)
   /\ omap accounting
        (snd (run (answer Cases.empty_handed)
                (Search Example.Params Example.search)))
      = [ReceiveBytes [FormatInt 7; SearchLabel] 64;
         rateCol (RateType_String RateType_DQLSearch) 2])
  /\ fst (run (answer Cases.empty_handed)
            (Query Example.Params Example.query))
     = Panicked
  /\ fst (run (answer Cases.empty_handed)
            (Insert tt Example.Params Example.insert))
     = Panicked.
Proof.
  refine (nil_result_after_wait tt Example.Params (answer Cases.empty_handed)
            Example.search Example.query Example.insert
            (mkMutationResult None [] 0 tt) _ _ _ _ _ _).
  - reflexivity.
  - reflexivity.
  - reflexivity.
  - reflexivity.
  - reflexivity.
  - intros n. left. reflexivity.
Defined.

Lemma CheckHealth_reasons_witness :
  fst (run (answer Cases.checking)
         (CheckHealth Example.UnHealthReason Example.order tt))
  = Returned
      (Some (mkCheckHealthResponse false
               ["check health fail for rootcoord"; "querynode 3 is down"]),
       None).
Proof.
  refine (CheckHealth_reasons Example.UnHealthReason (answer Cases.checking)
            tt Example.order _ _).
  - reflexivity.
  - intros n c. destruct c; cbn; discriminate.
Defined.

Lemma CheckHealth_unhealthy_proxy_witness :
  run (answer Example.abnormal)
    (CheckHealth Example.UnHealthReason Example.order tt)
  = (Returned (Some (mkCheckHealthResponse false ["proxy is unhealthy"]),
               None),
     [Ev stateCode_Load (Some StateCode_Abnormal);
      Ev session_ServerID (Some 7)]).
Proof.
  refine (CheckHealth_unhealthy_proxy Example.UnHealthReason
            (answer Example.abnormal) tt Example.order StateCode_Abnormal
            _ _).
  - discriminate.
  - reflexivity.
Defined.

Lemma CalcDistance_query_error_witness :
  run (answer Example.rejecting)
    (CalcDistance_query Example.Params Cases.ids)
  = (Returned
       (Some (mkQueryResults
                (Some (mkStatus ErrorCode_UnexpectedError "queue is full"))
                [] ""),
        Some (errors_New "queue is full")),
     [Ev (Enqueue dqQueue
            (queryTask (mkMsgBase MsgType_Retrieve 0 0 7) 7
               (mkQueryRequest "" "books" [] "" ["embedding"]) (Some tt)))
         (Some (errors_New "queue is full"))]).
Proof.
  refine (proj1 (CalcDistance_query_error Example.Params
                   (answer Example.rejecting) Cases.ids
                   (errors_New "queue is full")) _).
  reflexivity.
Defined.

Lemma Dummy_query_success_witness :
  snd (run (answer Example.serving)
         (Dummy Example.Params Cases.parseDummyRequestType
            Cases.parseDummyQueryRequest "dummy"))
  = snd (run (answer Example.serving)
           (Query Example.Params (mkQueryRequest "db" "books" [] "" [])))
  /\ fst (run (answer Example.serving)
            (Dummy Example.Params Cases.parseDummyRequestType
               Cases.parseDummyQueryRequest "dummy"))
     = Returned (Some successResponse, None).
Proof.
  refine (Dummy_query_success Example.Params Cases.parseDummyRequestType
            Cases.parseDummyQueryRequest (answer Example.serving) "dummy"
            (mkDummyQueryRequest "db" "books" [] []) _ _);
    reflexivity.
Defined.

Lemma getPartitionProgress_mean_witness :
  fst (exec (world Cases.loading)
         (getPartitionProgress Cases.MsgType_ShowPartitions
            Cases.by_partition 42))
  = Returned (75, None)
  /\ 0 <= 75 <= 100
  /\ (75 = 100 <-> Forall (fun p => p = 100) [100; 51])
  /\ omap show_sent
       (snd (exec (world Cases.loading)
               (getPartitionProgress Cases.MsgType_ShowPartitions
                  Cases.by_partition 42)))
     = [inr (mkShowPartitionsRequest
               (mkMsgBase Cases.MsgType_ShowPartitions 9 1000 3) 42 [1; 2])].
Proof.
  refine (getPartitionProgress_mean Cases.MsgType_ShowPartitions
            (world Cases.loading) Cases.by_partition 42 Cases.base
            Cases.partition_number
            (mkShowResponse None [100; 51]) _ _ _ _ _ _ _).
  - reflexivity.
  - discriminate.
  - intros n name [<-|[<-|[]]]; reflexivity.
  - reflexivity.
  - reflexivity.
  - repeat constructor; lia.
  - cbn. lia.
Defined.

Lemma getPartitionProgress_lookup_error_witness :
  fst (exec (world Cases.loading)
         (getPartitionProgress Cases.MsgType_ShowPartitions
            Cases.by_missing_partition 42))
  = Returned (0, Some (errors_New "partition not found"))
  /\ omap partition_lookup
       (snd (exec (world Cases.loading)
               (getPartitionProgress Cases.MsgType_ShowPartitions
                  Cases.by_missing_partition 42)))
     = [("books", "2021"); ("books", "2023")]
  /\ omap show_sent
       (snd (exec (world Cases.loading)
               (getPartitionProgress Cases.MsgType_ShowPartitions
                  Cases.by_missing_partition 42)))
     = [].
Proof.
  refine (getPartitionProgress_lookup_error Cases.MsgType_ShowPartitions
            (world Cases.loading) Cases.by_missing_partition 42
            ["2021"] "2023" ["2022"] 0 (errors_New "partition not found")
            _ _ _).
  - reflexivity.
  - intros n name [<-|[]]. exists 1. reflexivity.
  - reflexivity.
Defined.

Lemma GetLoadingProgress_whole_collection_witness :
  omap show_sent
    (snd (exec (world Cases.loading)
            (GetLoadingProgress Example.Params Cases.MsgType_ShowCollections
               Cases.MsgType_ShowPartitions Cases.MsgType_SystemInfo
               (Cases.nonempty "collection name") Cases.by_collection)))
  = [inl (mkShowCollectionsRequest
            (mkMsgBase Cases.MsgType_ShowCollections 0 0 7) [42])]
  /\ fst (exec (world Cases.loading)
            (GetLoadingProgress Example.Params Cases.MsgType_ShowCollections
               Cases.MsgType_ShowPartitions Cases.MsgType_SystemInfo
               (Cases.nonempty "collection name") Cases.by_collection))
     = Returned
         (Some (mkGetLoadingProgressResponse
                  (Some (mkStatus ErrorCode_Success "")) 80), None)
  /\ omap counted
       (snd (exec (world Cases.loading)
               (GetLoadingProgress Example.Params
                  Cases.MsgType_ShowCollections Cases.MsgType_ShowPartitions
                  Cases.MsgType_SystemInfo (Cases.nonempty "collection name")
                  Cases.by_collection)))
     = [[FormatInt 7; method_ "GetLoadingProgress"; TotalLabel];
        [FormatInt 7; method_ "GetLoadingProgress"; SuccessLabel]].
Proof.
  refine (GetLoadingProgress_whole_collection Example.Params
            Cases.MsgType_ShowCollections Cases.MsgType_ShowPartitions
            Cases.MsgType_SystemInfo (Cases.nonempty "collection name")
            (world Cases.loading) Cases.by_collection 42
            (mkShowResponse None [80]) _ _ _ _ _);
    reflexivity.
Defined.

Lemma GetLoadingProgress_returns_witness :
  (exists status progress,
     fst (exec (world Cases.unreachable)
            (GetLoadingProgress Example.Params Cases.MsgType_ShowCollections
               Cases.MsgType_ShowPartitions Cases.MsgType_SystemInfo
               (Cases.nonempty "collection name") Cases.by_partition))
     = Returned (Some (mkGetLoadingProgressResponse (Some status) progress),
                 None))
  /\ (fst (exec (world Cases.cacheless)
             (GetLoadingProgress Example.Params Cases.MsgType_ShowCollections
                Cases.MsgType_ShowPartitions Cases.MsgType_SystemInfo
                (Cases.nonempty "collection name") Cases.by_partition))
      = Panicked
      /\ omap counted
           (snd (exec (world Cases.cacheless)
                   (GetLoadingProgress Example.Params
                      Cases.MsgType_ShowCollections
                      Cases.MsgType_ShowPartitions Cases.MsgType_SystemInfo
                      (Cases.nonempty "collection name") Cases.by_partition)))
         = [[FormatInt 7; method_ "GetLoadingProgress"; TotalLabel]]).
Proof.
  split.
  - refine (proj1 (GetLoadingProgress_returns Example.Params
                     Cases.MsgType_ShowCollections
                     Cases.MsgType_ShowPartitions Cases.MsgType_SystemInfo
                     (Cases.nonempty "collection name")
                     (world Cases.unreachable) Cases.by_partition)
              _ _ _ _ _).
    + discriminate.
    + discriminate.
    + intros n collection name. unfold world, Cases.unreachable,
        Cases.partitions. cbn.
      destruct (String.eqb name "2021"); [discriminate|].
      destruct (String.eqb name "2022"); discriminate.
    + discriminate.
    + discriminate.
  - refine (proj2 (GetLoadingProgress_returns Example.Params
                     Cases.MsgType_ShowCollections
                     Cases.MsgType_ShowPartitions Cases.MsgType_SystemInfo
                     (Cases.nonempty "collection name")
                     (world Cases.cacheless) Cases.by_partition)
              _ _ _);
      reflexivity.
Defined.

Lemma failed_call_status_written_witness :
  fst (exec (world Cases.unreachable)
         (GetReplicas tt Example.Params Cases.MsgType_GetReplicas tt))
  = Panicked
  /\ fst (exec (world Cases.unreachable) (GetImportState tt Example.Params tt))
     = Panicked
  /\ fst (exec (world Cases.unreachable)
            (ListImportTasks tt Example.Params tt))
     = Panicked
  /\ fst (exec (world Cases.unreachable) (Import tt Example.Params tt))
     = Returned
         (Some (mkResponse
                  (Some (mkStatus ErrorCode_UnexpectedError
                           "context deadline exceeded")) tt), None).
Proof.
  refine (failed_call_status_written tt Example.Params
            Cases.MsgType_GetReplicas (world Cases.unreachable) tt None
            Cases.timeout _ _ _ _ _);
    reflexivity.
Defined.

Lemma coordinator_error_returned_witness :
  exec (world Cases.unreachable) (GetCompactionState tt tt)
  = (Returned (None, Some Cases.timeout),
     [Tr (proxy stateCode_Load) (Some StateCode_Healthy);
      Tr (GetCompactionState_rpc tt) (None, Some Cases.timeout)])
  /\ exec (world Cases.unreachable) (ManualCompaction tt tt)
     = (Returned (None, Some Cases.timeout),
        [Tr (proxy stateCode_Load) (Some StateCode_Healthy);
         Tr (ManualCompaction_rpc tt) (None, Some Cases.timeout)])
  /\ exec (world Cases.unreachable) (GetCompactionStateWithPlans tt tt)
     = (Returned (None, Some Cases.timeout),
        [Tr (proxy stateCode_Load) (Some StateCode_Healthy);
         Tr (GetCompactionStateWithPlans_rpc tt) (None, Some Cases.timeout)])
  /\ exec (world Cases.unreachable) (GetFlushState tt tt)
     = (Returned (None, Some Cases.timeout),
        [Tr (proxy stateCode_Load) (Some StateCode_Healthy);
         Tr (GetFlushState_rpc tt) (None, Some Cases.timeout)]).
Proof.
  refine (coordinator_error_returned tt (world Cases.unreachable) tt
            (None, Some Cases.timeout) _ _ _ _ _);
    reflexivity.
Defined.

Lemma unhealthy_direct_handlers_witness :
  let w := world Cases.stopped in
  let load := [Tr (proxy stateCode_Load) (Some StateCode_Abnormal)] in
  let unhealthy :=
    Returned (Some (mkResponse (Some unhealthyStatus) tt), @None error) in
  let valid := Cases.nonempty "name" in
  exec w (GetLoadingProgress Example.Params Cases.MsgType_ShowCollections
            Cases.MsgType_ShowPartitions Cases.MsgType_SystemInfo valid
            Cases.by_partition)
  = (Returned (Some (mkGetLoadingProgressResponse (Some unhealthyStatus) 0),
               None), load)
  /\ exec w (GetReplicas tt Example.Params Cases.MsgType_GetReplicas tt)
     = (unhealthy, load)
  /\ exec w (Import tt Example.Params tt) = (unhealthy, load)
  /\ exec w (GetImportState tt Example.Params tt) = (unhealthy, load)
  /\ exec w (ListImportTasks tt Example.Params tt) = (unhealthy, load)
  /\ exec w (GetCompactionState tt tt) = (unhealthy, load)
  /\ exec w (ManualCompaction tt tt) = (unhealthy, load)
  /\ exec w (GetCompactionStateWithPlans tt tt) = (unhealthy, load)
  /\ exec w (GetFlushState tt tt) = (unhealthy, load)
  /\ exec w (DeleteCredential Cases.ErrorCode_DeleteCredentialFailure
               Cases.UserRoot "bob")
     = (Returned (Some unhealthyStatus, None), load)
  /\ exec w (OperatePrivilege Cases.ErrorCode_IllegalArgument valid valid
               valid valid Cases.UnhealthyStatus (Some Cases.grant))
     = (Returned (Some (Cases.UnhealthyStatus StateCode_Abnormal), None), load)
  /\ exec w (SelectGrant tt Cases.ErrorCode_IllegalArgument valid valid valid
               Cases.UnhealthyStatus (Some Cases.grant))
     = (Returned
          (Some (mkResponse (Some (Cases.UnhealthyStatus StateCode_Abnormal))
                   tt), None),
        load).
Proof.
  refine (unhealthy_direct_handlers tt Example.Params
            Cases.MsgType_ShowCollections Cases.MsgType_ShowPartitions
            Cases.MsgType_SystemInfo Cases.MsgType_GetReplicas
            Cases.ErrorCode_IllegalArgument
            Cases.ErrorCode_DeleteCredentialFailure Cases.UserRoot
            (Cases.nonempty "name") (Cases.nonempty "name")
            (Cases.nonempty "name") (Cases.nonempty "name")
            (Cases.nonempty "name") Cases.UnhealthyStatus
            (world Cases.stopped) StateCode_Abnormal tt Cases.by_partition
            "bob" (Some Cases.grant) _ _).
  - discriminate.
  - reflexivity.
Defined.

Lemma DeleteCredential_root_kept_witness :
  exec (world Cases.loading)
    (DeleteCredential Cases.ErrorCode_DeleteCredentialFailure Cases.UserRoot
       "root")
  = (Returned (Some (mkStatus Cases.ErrorCode_DeleteCredentialFailure
                       "user root cannot be deleted"), None),
     [Tr (proxy stateCode_Load) (Some StateCode_Healthy)]).
Proof.
  refine (proj2 (DeleteCredential_root_kept
                   Cases.ErrorCode_DeleteCredentialFailure Cases.UserRoot
                   (world Cases.loading) "root") _ _);
    reflexivity.
Defined.

Lemma OperatePrivilege_forwarded_witness :
  exists role object objectName privilege user curUser,
    Some Cases.grant
    = Some (mkGrantEntity (Some role) (Some object) objectName
              (Some (mkGrantorEntity user (Some privilege))))
    /\ Some (mkGrantEntity (Some "reader") (Some "Collection") "books"
               (Some (mkGrantorEntity (Some "alice") (Some "Search"))))
       = Some (mkGrantEntity (Some role) (Some object) objectName
                 (Some (mkGrantorEntity (Some curUser) (Some privilege))))
    /\ world Cases.loading 1%nat _ GetCurUserFromContext = (curUser, None)
    /\ world Cases.loading 0%nat _ (proxy stateCode_Load)
       = Some StateCode_Healthy
    /\ Cases.nonempty "privilege" privilege = None
    /\ Cases.nonempty "object type" object = None
    /\ Cases.nonempty "object name" objectName = None
    /\ Cases.nonempty "role name" role = None.
Proof.
  refine (OperatePrivilege_forwarded Cases.ErrorCode_IllegalArgument
            (Cases.nonempty "privilege") (Cases.nonempty "object type")
            (Cases.nonempty "object name") (Cases.nonempty "role name")
            Cases.UnhealthyStatus (world Cases.loading) (Some Cases.grant)
            (Some (mkGrantEntity (Some "reader") (Some "Collection") "books"
                     (Some (mkGrantorEntity (Some "alice") (Some "Search")))))
            _).
  left. reflexivity.
Defined.

Lemma validPrivilegeParams_validGrantParams_witness :
  validGrantParams (Cases.nonempty "object type")
    (Cases.nonempty "object name") (Cases.nonempty "role name")
    (Some Cases.grant)
  = None.
Proof.
  refine (proj1 (validPrivilegeParams_validGrantParams
                   (Cases.nonempty "privilege") (Cases.nonempty "object type")
                   (Cases.nonempty "object name") (Cases.nonempty "role name")
                   (Some Cases.grant)) _).
  reflexivity.
Defined.

Lemma unhealthy_reply_witness :
  reply (fst (run (answer Example.abnormal)
                (serve tt Example.Params hSearch Example.search)))
    = Some (Some unhealthyStatus, None)
  /\ omap enqueue_answer
       (snd (run (answer Example.abnormal)
               (serve tt Example.Params hSearch Example.search)))
     = [].
Proof.
  refine (unhealthy_reply tt Example.Params (answer Example.abnormal) hSearch
            Example.search StateCode_Abnormal _ _ _).
  - discriminate.
  - reflexivity.
  - discriminate.
Defined.

End MoreWitnesses.
